(** * StartupSeal: ownership verification, trust aggregation, fingerprints

    A shallow embedding of the scoring core of the StartupSeal repository:

    - [nautilus-agent/src/github_auth.py]  (class [GitHubCommitVerifier]),
    - [nautilus-agent/src/scorer.py]       (class [TrustScorer]),
    - [dev-backend/ai/realtime_scorer.py]  (class [RealtimeScorer]),
    - [nautilus-agent/src/agent.py]        (the two verification hashes).

    Python [float]s are IEEE 754 binary64 values; they are modelled by
    [spec_float] with precision 53 and maximal exponent 1024, and the
    arithmetic operators by the correctly rounded operations of
    [SpecFloat].  Python [int]s are [Z].  HTTP requests go through a small
    state monad that reads the answers of the GitHub API from an
    environment and logs every request that is made. *)

From Stdlib Require Import ZArith QArith Qabs Qpower Lia Lqa List Bool String Ascii
  DecimalString.
From Stdlib Require Import Floats.SpecFloat.
From stdpp Require Import base list gmap sorting.

Local Open Scope Z_scope.

(* ================================================================== *)
(** * Part I: definitions                                              *)
(* ================================================================== *)

(** ** Python numbers *)

Module Float.

Definition prec : Z := 53.
Definition emax : Z := 1024.

(** A Python [float]. *)
Definition float : Type := spec_float.

Definition add : float -> float -> float := SFadd prec emax.
Definition sub : float -> float -> float := SFsub prec emax.
Definition mul : float -> float -> float := SFmul prec emax.
Definition div : float -> float -> float := SFdiv prec emax.

(** [float(n)] for an [int] [n]: the nearest binary64 value. *)
Definition of_int (n : Z) : float := binary_normalize prec emax n 0 false.

(** [a / b] on two [int]s: the correctly rounded quotient of the exact
    integers.  Every call site of the sources divides by a constant or
    guards [b != 0] first; with [b = 0] (Python: ZeroDivisionError) the
    model yields NaN. *)
Definition truediv (a b : Z) : float :=
  match a, b with
  | _, Z0 => S754_nan
  | Z0, Zneg _ => S754_zero true
  | Z0, Zpos _ => S754_zero false
  | Zpos p, Zpos q => div (S754_finite false p 0) (S754_finite false q 0)
  | Zpos p, Zneg q => div (S754_finite false p 0) (S754_finite true q 0)
  | Zneg p, Zpos q => div (S754_finite true p 0) (S754_finite false q 0)
  | Zneg p, Zneg q => div (S754_finite true p 0) (S754_finite true q 0)
  end.

(** The float denoted by the decimal literal [k * 10^-n], such as
    [0.40 = decimal 40 2]: the binary64 value nearest to it. *)
Definition decimal (k : Z) (n : Z) : float := truediv k (10 ^ n).

(** The exact rational value of a finite float (0 for the others). *)
Definition to_Q (x : float) : Q :=
  match x with
  | S754_finite s m (Zpos p) => inject_Z (cond_Zopp s (Zpos m) * 2 ^ Zpos p)
  | S754_finite s m Z0 => inject_Z (cond_Zopp s (Zpos m))
  | S754_finite s m (Zneg p) => cond_Zopp s (Zpos m) # (2 ^ p)%positive
  | _ => 0%Q
  end.

(** Comparison of two floats as Python performs it: on the exact
    values, with both zeros equal and NaN unordered. *)
Definition compare (x y : float) : option comparison :=
  match x, y with
  | S754_nan, _ | _, S754_nan => None
  | S754_infinity s1, S754_infinity s2 =>
      Some (match s1, s2 with
            | true, false => Lt
            | false, true => Gt
            | _, _ => Eq
            end)
  | S754_infinity s, _ => Some (if s then Lt else Gt)
  | _, S754_infinity s => Some (if s then Gt else Lt)
  | _, _ => Some (to_Q x ?= to_Q y)%Q
  end.

Definition ltb (x y : float) : bool :=
  match compare x y with Some Lt => true | _ => false end.
Definition leb (x y : float) : bool :=
  match compare x y with Some (Lt | Eq) => true | _ => false end.
Definition eqb (x y : float) : bool :=
  match compare x y with Some Eq => true | _ => false end.
Definition gtb (x y : float) : bool := ltb y x.
Definition geb (x y : float) : bool := leb y x.

(** [int(x)]: truncation towards zero; [None] stands for the
    OverflowError / ValueError Python raises on infinities and NaN. *)
Definition to_int (x : float) : option Z :=
  match x with
  | S754_zero _ => Some 0
  | S754_finite s m Z0 => Some (cond_Zopp s (Zpos m))
  | S754_finite s m (Zpos p) => Some (cond_Zopp s (Zpos m * 2 ^ Zpos p))
  | S754_finite s m (Zneg p) => Some (cond_Zopp s (Zpos m / 2 ^ Zpos p))
  | _ => None
  end.

(** [a / b] rounded to the nearest integer, ties to the even one
    ([0 < b]). *)
Definition rne_div (a b : Z) : Z :=
  let q := a / b in
  match 2 * (a mod b) ?= b with
  | Lt => q
  | Gt => q + 1
  | Eq => if Z.even q then q else q + 1
  end.

(** The integer nearest to [|x| * 10^n], ties to even, for the exact
    value of a finite [x]. *)
Definition scaled_abs (x : float) (n : Z) : Z :=
  match x with
  | S754_finite _ m Z0 => Zpos m * 10 ^ n
  | S754_finite _ m (Zpos p) => Zpos m * 2 ^ Zpos p * 10 ^ n
  | S754_finite _ m (Zneg p) => rne_div (Zpos m * 10 ^ n) (2 ^ Zpos p)
  | _ => 0
  end.

(** [round(x, n)] for [0 <= n]: CPython rounds the exact value of [x]
    correctly to [n] decimal places, ties to even, and returns the
    float nearest to that decimal; the sign of a zero result is the
    sign of [x]; infinities and NaN are returned as they are. *)
Definition round (x : float) (n : Z) : float :=
  match x with
  | S754_finite s _ _ =>
      match scaled_abs x n with
      | Z0 => S754_zero s
      | k => decimal (cond_Zopp s k) n
      end
  | _ => x
  end.

(** The number of hundredths ([n = 2]) or thousandths ([n = 3]) that
    [round(x, n)] denotes. *)
Definition round_units (x : float) (n : Z) : Z :=
  match x with
  | S754_finite s _ _ => cond_Zopp s (scaled_abs x n)
  | _ => 0
  end.

Definition is_finite (x : float) : bool :=
  match x with
  | S754_zero _ | S754_finite _ _ _ => true
  | _ => false
  end.

(** A well-formed binary64 value: the mantissa has at most 53 bits and
    the exponent is the canonical one. *)
Definition valid (x : float) : bool := valid_binary prec emax x.

(** The float with sign [s], mantissa [m] and exponent [e]. *)
Definition of_mantissa (s : bool) (m e : Z) : float :=
  match m with
  | Z0 => S754_zero s
  | Zpos p => S754_finite s p e
  | Zneg _ => S754_nan
  end.

(** [small B x]: [x] is a zero or a finite float below [2^B] in
    magnitude whose exponent is at most [B]. *)
Definition small (B : Z) (x : float) : Prop :=
  match x with
  | S754_zero _ => True
  | S754_finite _ m e => Zpos (digits2_pos m) + e <= B /\ e <= B
  | _ => False
  end.

(** [denotes f k n]: the float [f] is the one of the decimal
    [k * 10^-n] (the negative zero also denotes 0). *)
Definition denotes (f : float) (k n : Z) : Prop :=
  f = decimal k n \/ (k = 0 /\ f = S754_zero true).

(** [nonneg x]: the sign bit of [x] is clear (NaN has none). *)
Definition nonneg (x : float) : Prop :=
  match x with
  | S754_zero s | S754_infinity s | S754_finite s _ _ => s = false
  | S754_nan => True
  end.

(** A Python list holds at most [sys.maxsize] items. *)
Definition sys_maxsize : Z := 2 ^ 63 - 1.

End Float.

Abbreviation float := Float.float.

(** A Python number: an [int] or a [float]. *)
Inductive number : Type :=
| Int (n : Z)
| Flt (x : float).

Module Number.

(** The float an arithmetic operator converts its operand to. *)
Definition to_float (v : number) : float :=
  match v with
  | Int n => Float.of_int n
  | Flt x => x
  end.

(** Python compares an [int] with a [float] on the exact values. *)
Definition as_exact (v : number) : float :=
  match v with
  | Int Z0 => S754_zero false
  | Int (Zpos p) => S754_finite false p 0
  | Int (Zneg p) => S754_finite true p 0
  | Flt x => x
  end.

Definition ltb (a b : number) : bool := Float.ltb (as_exact a) (as_exact b).
Definition leb (a b : number) : bool := Float.leb (as_exact a) (as_exact b).
Definition gtb (a b : number) : bool := ltb b a.
Definition geb (a b : number) : bool := leb b a.

(** [round(v, n)] for [0 <= n]: an [int] is returned as it is. *)
Definition round (v : number) (n : Z) : number :=
  match v with
  | Int k => Int k
  | Flt x => Flt (Float.round x n)
  end.

(** [a - b]: exact on two [int]s, on floats as soon as one is a float. *)
Definition sub (a b : number) : number :=
  match a, b with
  | Int x, Int y => Int (x - y)
  | _, _ => Flt (Float.sub (to_float a) (to_float b))
  end.

(** [max(l)] and [min(l)] of a non-empty list: the first of the
    greatest (smallest) items. *)
Definition max_list (x : number) (l : list number) : number :=
  fold_left (fun acc y => if gtb y acc then y else acc) l x.
Definition min_list (x : number) (l : list number) : number :=
  fold_left (fun acc y => if ltb y acc then y else acc) l x.

End Number.

(** ** Dates ([datetime.datetime], all in UTC as the GitHub API sends them) *)

Module Datetime.

Record datetime : Type := mk_datetime {
  year : Z;
  month : Z;
  day : Z;
  hour : Z;
  minute : Z;
  second : Z;
  microsecond : Z
}.

Definition is_leap (y : Z) : bool :=
  (y mod 4 =? 0) && (negb (y mod 100 =? 0) || (y mod 400 =? 0)).

(** Number of days before January 1st of year [y]. *)
Definition days_before_year (y : Z) : Z :=
  let y := y - 1 in
  y * 365 + y / 4 - y / 100 + y / 400.

(** Number of days in year [y] preceding the first day of month [m]. *)
Definition days_before_month (y m : Z) : Z :=
  nth (Z.to_nat m) [0; 0; 31; 59; 90; 120; 151; 181; 212; 243; 273; 304; 334] 0
  + (if (m >? 2) && is_leap y then 1 else 0).

(** Proleptic Gregorian ordinal; January 1st of year 1 is day 1. *)
Definition ymd2ord (y m d : Z) : Z :=
  days_before_year y + days_before_month y m + d.

Definition toordinal (t : datetime) : Z := ymd2ord (year t) (month t) (day t).

(** Ordinal of the Monday that starts ISO week 1 of year [y]. *)
Definition isoweek1monday (y : Z) : Z :=
  let firstday := ymd2ord y 1 1 in
  let firstweekday := (firstday + 6) mod 7 in
  let week1monday := firstday - firstweekday in
  if firstweekday >? 3 then week1monday + 7 else week1monday.

(** [t.isocalendar()]: ISO year, ISO week number and ISO weekday. *)
Definition isocalendar (t : datetime) : Z * Z * Z :=
  let y := year t in
  let week1monday := isoweek1monday y in
  let today := toordinal t in
  let week := (today - week1monday) / 7 in
  let wday := (today - week1monday) mod 7 in
  if week <? 0 then
    let y := y - 1 in
    let week1monday := isoweek1monday y in
    (y, (today - week1monday) / 7 + 1, (today - week1monday) mod 7 + 1)
  else if (week >=? 52) && (today >=? isoweek1monday (y + 1)) then
    (y + 1, 1, wday + 1)
  else
    (y, week + 1, wday + 1).

(** [t.isocalendar()[1]] *)
Definition isoweek (t : datetime) : Z := snd (fst (isocalendar t)).

(** Microseconds since the start of day 0. *)
Definition to_microseconds (t : datetime) : Z :=
  (((toordinal t * 24 + hour t) * 60 + minute t) * 60 + second t) * 1000000
  + microsecond t.

(** [(a - b).days]: a [timedelta] is normalised with its seconds and
    microseconds non-negative, so [days] is the floor. *)
Definition sub_days (a b : datetime) : Z :=
  (to_microseconds a - to_microseconds b) / 86400000000.

Definition leb (a b : datetime) : bool :=
  to_microseconds a <=? to_microseconds b.

(** [min(l)] and [max(l)] of a non-empty list; Python keeps the first
    of equal elements. *)
Definition min_list (d : datetime) (l : list datetime) : datetime :=
  fold_left (fun acc x => if to_microseconds x <? to_microseconds acc then x else acc) l d.
Definition max_list (d : datetime) (l : list datetime) : datetime :=
  fold_left (fun acc x => if to_microseconds acc <? to_microseconds x then x else acc) l d.

End Datetime.

Abbreviation datetime := Datetime.datetime.

(** ** [github_auth.py]: class [GitHubCommitVerifier] *)

Module GithubAuth.

(** *** The GitHub API and the requests made to it *)

(** What the verifier reads of one commit object of the API:
    [commit.commit.author.name] (default [""]), [commit.author.login]
    ([""] when [commit.author] is null) and the parsed
    [commit.commit.author.date] ([None] when absent or empty). *)
Record commit : Type := mk_commit {
  author_name : string;
  author_login : string;
  author_date : option datetime
}.

(** One entry of the contributor statistics: [c.get("total")]. *)
Record contributor : Type := mk_contributor {
  total : option Z
}.

Inductive endpoint : Type :=
| GET_commits (page : Z)      (* /repos/{repo}/commits?since=..&per_page=100&page= *)
| GET_repo                    (* /repos/{repo} *)
| GET_contributor_stats.      (* /repos/{repo}/stats/contributors *)

(** A [requests.Response]: [response.status_code] and the decoded
    [response.json()]. *)
Record response (A : Type) : Type := mk_response {
  status_code : Z;
  json : A
}.
Arguments mk_response {A} _ _.
Arguments status_code {A} _.
Arguments json {A} _.

(** The answers of the API during one verification. *)
Record github_api : Type := mk_api {
  commits_response : Z -> response (list commit);
  repo_response : response unit;
  contributor_stats_response : response (list contributor)
}.

(** Computations that call the API: they read the answers and append
    every request they make to a log. *)
Definition http (A : Type) : Type := github_api -> list endpoint -> A * list endpoint.

Definition ret {A : Type} (a : A) : http A := fun _ log => (a, log).

Definition bind {A B : Type} (c : http A) (k : A -> http B) : http B :=
  fun api log => let (a, log') := c api log in k a api log'.

Declare Scope http_scope.
Delimit Scope http_scope with http.
Notation "x <- c ;; k" := (bind c (fun x => k))
  (at level 100, c at next level, right associativity) : http_scope.

Definition requests_get_commits (page : Z) : http (response (list commit)) :=
  fun api log => (commits_response api page, log ++ [GET_commits page]).
Definition requests_get_repo : http (response unit) :=
  fun api log => (repo_response api, log ++ [GET_repo]).
Definition requests_get_contributor_stats : http (response (list contributor)) :=
  fun api log => (contributor_stats_response api, log ++ [GET_contributor_stats]).

(** [logs c]: the computation [c] only appends to the log, and its
    result does not depend on it. *)
Definition logs {A : Type} (c : http A) : Prop :=
  forall api log, c api log = (fst (c api []), log ++ snd (c api [])).

(** The result and the requests of a whole run. *)
Definition run {A : Type} (c : http A) (api : github_api) : A * list endpoint := c api [].
Definition result {A : Type} (c : http A) (api : github_api) : A := fst (run c api).
Definition requests {A : Type} (c : http A) (api : github_api) : list endpoint := snd (run c api).

(** *** [str.lower()]

    A [str] is modelled by a [string] whose characters are the code
    points below 256; there the upper-case letters are A-Z and
    U+00C0-U+00DE without the multiplication sign U+00D7. *)

Definition lower_char (c : ascii) : ascii :=
  let n := nat_of_ascii c in
  if ((65 <=? n) && (n <=? 90) || (192 <=? n) && (n <=? 222) && negb (n =? 215))%nat
  then ascii_of_nat (n + 32) else c.

Fixpoint lower (s : string) : string :=
  match s with
  | EmptyString => EmptyString
  | String c s' => String (lower_char c) (lower s')
  end.

(** *** [get_user_commits] *)

(** The [while True] loop that pages through the commits.  It stops on
    a non-200 answer, on an empty page, and once [all_page] exceeds 10;
    [fuel] bounds the recursion and is never exhausted from
    [all_page = 1] with 10 units (lemma [fetch_all_commits_fuel]). *)
Fixpoint fetch_all_commits (fuel : nat) (all_page : Z) (all_commits : list commit)
  : http (list commit) :=
  match fuel with
  | O => ret all_commits
  | S fuel' =>
      (response <- requests_get_commits all_page ;;
       if negb (status_code response =? 200) then ret all_commits
       else match json response with
            | [] => ret all_commits
            | _ =>
                let all_commits := all_commits ++ json response in
                let all_page := all_page + 1 in
                if all_page >? 10 then ret all_commits
                else fetch_all_commits fuel' all_page all_commits
            end)%http
  end.

(** The filter on the author: GitHub login or commit author name,
    compared case-insensitively with the claimed user name. *)
Definition matches (username : string) (c : commit) : bool :=
  String.eqb (lower (author_login c)) (lower username)
  || String.eqb (lower (author_name c)) (lower username).

Definition get_user_commits (username : string) : http (list commit) :=
  (all_commits <- fetch_all_commits 10 1 [] ;;
   ret (List.filter (matches username) all_commits))%http.

(** *** The three scores *)

(** [int(min(100, x))] for a float [x]: [min] keeps its first argument
    unless [x < 100]. *)
Definition int_min_100 (x : float) : option Z :=
  if Float.ltb x (Float.of_int 100) then Float.to_int x else Some 100.

Definition _calculate_consistency (commit_dates : list datetime) : option Z :=
  match commit_dates with
  | [] | [_] => Some 0
  | _ =>
      let weeks : gset Z := list_to_set (Datetime.isoweek <$> commit_dates) in
      int_min_100
        (Float.mul (Float.truediv (Z.of_nat (size weeks)) 52) (Float.of_int 100))
  end.

Definition _calculate_activity_score (now : datetime) (commit_dates : list datetime)
  : option Z :=
  match commit_dates with
  | [] => Some 0
  | _ =>
      let recent_commits :=
        Z.of_nat (length (List.filter (fun date => Datetime.sub_days now date <=? 90)
                                      commit_dates)) in
      int_min_100
        (Float.mul (Float.truediv recent_commits 10) (Float.of_int 100))
  end.

Definition sum_totals (contributors : list contributor) : Z :=
  fold_left (fun acc c => acc + default 0 (total c)) contributors 0.

(** Returns [(ownership_score, total_commits)]; [None] stands for the
    OverflowError of [int()] on an infinite quotient. *)
Definition _calculate_ownership_score (user_commits : Z) : http (option (Z * Z)) :=
  (response <- requests_get_repo ;;
   if negb (status_code response =? 200) then ret (Some (0, 0))
   else
     response <- requests_get_contributor_stats ;;
     if negb (status_code response =? 200) then ret (Some (50, user_commits))
     else
       let contributors := json response in
       let total_commits := sum_totals contributors in
       if total_commits =? 0 then ret (Some (0, 0))
       else
         let ownership :=
           Float.mul (Float.truediv user_commits total_commits) (Float.of_int 100) in
         ret (match Float.to_int ownership with
              | Some n => Some (Z.min 100 n, total_commits)
              | None => None
              end))%http.

(** *** [analyze_commit_pattern] *)

(** The three keys only the second [return] of the function sets. *)
Record timeline : Type := mk_timeline {
  first_commit : option datetime;
  last_commit : option datetime;
  commit_frequency : number
}.

Record verdict : Type := mk_verdict {
  user_commits : Z;
  total_commits : Z;
  ownership_score : Z;
  activity_score : Z;
  consistency_score : Z;
  is_authentic : bool;
  dates : option timeline
}.

Definition no_commits : verdict :=
  {| user_commits := 0; total_commits := 0; ownership_score := 0;
     activity_score := 0; consistency_score := 0; is_authentic := false;
     dates := None |}.

Definition commit_dates_of (commits : list commit) : list datetime :=
  omap author_date commits.

Definition timeline_of (user_commits : Z) (commit_dates : list datetime) : timeline :=
  match commit_dates with
  | [] => {| first_commit := None; last_commit := None; commit_frequency := Int 0 |}
  | d :: l =>
      {| first_commit := Some (Datetime.min_list d l);
         last_commit := Some (Datetime.max_list d l);
         commit_frequency := Flt (Float.truediv user_commits 365) |}
  end.

(** [now] is the value of [datetime.now(tz)] read by the activity
    score.  [None] stands for an exception raised by [int()]. *)
Definition analyze_commit_pattern (now : datetime) (username : string)
  : http (option verdict) :=
  (commits <- get_user_commits username ;;
   match commits with
   | [] => ret (Some no_commits)
   | _ =>
       let user_commits := Z.of_nat (length commits) in
       let commit_dates := commit_dates_of commits in
       match _calculate_consistency commit_dates,
             _calculate_activity_score now commit_dates with
       | Some consistency_score, Some activity_score =>
           r <- _calculate_ownership_score user_commits ;;
           match r with
           | Some (ownership_score, total_commits) =>
               let is_authentic :=
                 (user_commits >=? 5) && (consistency_score >=? 50)
                 && (ownership_score >=? 20) in
               ret (Some {| user_commits := user_commits;
                            total_commits := total_commits;
                            ownership_score := ownership_score;
                            activity_score := activity_score;
                            consistency_score := consistency_score;
                            is_authentic := is_authentic;
                            dates := Some (timeline_of user_commits commit_dates) |})
           | None => ret None
           end
       | _, _ => ret None
       end
   end)%http.

(** *** The scenario of the specification

    Six matched commits, spread over five distinct ISO weeks, two of
    them in the last 90 days, in a repository whose contributor
    statistics add up to 30 commits. *)
Definition six_commits_in_five_weeks (now : datetime) (username : string)
  (api : github_api) : Prop :=
  let commits := result (get_user_commits username) api in
  let commit_dates := commit_dates_of commits in
  length commits = 6%nat
  /\ size (list_to_set (Datetime.isoweek <$> commit_dates) : gset Z) = 5%nat
  /\ length (List.filter (fun date => Datetime.sub_days now date <=? 90) commit_dates)
     = 2%nat
  /\ status_code (repo_response api) = 200
  /\ status_code (contributor_stats_response api) = 200
  /\ sum_totals (json (contributor_stats_response api)) = 30.

(** A repository with seven commits in the last year, six of them by
    alice (one under her commit author name only), and 30 commits in
    the contributor statistics. *)
Definition alice_page : list commit :=
  let on y m d := Some (Datetime.mk_datetime y m d 9 30 0 0) in
  [ mk_commit "Alice" "alice" (on 2026 10 27);
    mk_commit "Bob" "bob" (on 2026 10 25);
    mk_commit "Alice" "alice" (on 2026 10 20);
    mk_commit "alice" EmptyString (on 2026 6 3);
    mk_commit "Alice A" "ALICE" (on 2026 6 2);
    mk_commit "Alice" "alice" (on 2026 3 10);
    mk_commit "Alice" "alice" (on 2026 1 13) ].

Definition alice_api (repo_status stats_status : Z) : github_api :=
  {| commits_response := fun page =>
       if page =? 1 then mk_response 200 alice_page else mk_response 200 [];
     repo_response := mk_response repo_status tt;
     contributor_stats_response :=
       mk_response stats_status [mk_contributor (Some 6); mk_contributor (Some 24)] |}.

Definition alice_now : datetime := Datetime.mk_datetime 2026 11 3 12 0 0 0.

(** *** Pages and percentages *)

(** A page of commits after which the loop of [get_user_commits] goes
    on: it is answered with 200 and is not empty. *)
Definition page_ok (api : github_api) (page : Z) : bool :=
  (status_code (commits_response api page) =? 200)
  && match json (commits_response api page) with
     | [] => false
     | _ => true
     end.

(** The commits of the pages [1 .. n]. *)
Definition commits_of_pages (api : github_api) (n : nat) : list commit :=
  concat (List.map (fun p => json (commits_response api (Z.of_nat p))) (seq 1 n)).

(** Carol committed in 28 different weeks of 2026, to a repository of
    40 commits. *)
Definition carol_page : list commit :=
  flat_map (fun m =>
              List.map (fun d => mk_commit "Carol" "carol"
                                   (Some (Datetime.mk_datetime 2026 m d 12 0 0 0)))
                       [1; 8; 15; 22])
           [1; 2; 3; 4; 5; 6; 7].

Definition carol_api : github_api :=
  {| commits_response := fun page =>
       if page =? 1 then mk_response 200 carol_page else mk_response 200 [];
     repo_response := mk_response 200 tt;
     contributor_stats_response :=
       mk_response 200 [mk_contributor (Some 28); mk_contributor (Some 12)] |}.

(** A repository whose contributor statistics add up to 50 commits. *)
Definition fifty_commits_api : github_api :=
  {| commits_response := fun page => mk_response 200 [];
     repo_response := mk_response 200 tt;
     contributor_stats_response :=
       mk_response 200 [mk_contributor (Some 29); mk_contributor None;
                        mk_contributor (Some 21)] |}.

End GithubAuth.

(** ** [scorer.py]: class [TrustScorer] (the 3-category profile) *)

Module TrustScorer.

Local Open Scope string_scope.

(** [self.weights] *)
Definition weights_off_chain : float := Float.decimal 40 2.    (* 0.40 *)
Definition weights_on_chain : float := Float.decimal 40 2.     (* 0.40 *)
Definition weights_ai_analysis : float := Float.decimal 20 2.  (* 0.20 *)

Record breakdown_entry : Type := mk_entry {
  score : number;
  weight : float;
  contribution : float
}.

Record trust_score : Type := mk_trust_score {
  overall_score : float;
  risk_level : string;
  investment_recommendation : string;
  confidence : string;
  breakdown_off_chain : breakdown_entry;
  breakdown_on_chain : breakdown_entry;
  breakdown_ai_analysis : breakdown_entry
}.

(** [score * weight]: an [int] score is converted to a float. *)
Definition weighted (score : number) (weight : float) : float :=
  Float.mul (Number.to_float score) weight.

(** The local variable [overall_score] before it is rounded. *)
Definition weighted_score (off_chain_score on_chain_score ai_score : number) : float :=
  Float.add
    (Float.add (weighted off_chain_score weights_off_chain)
               (weighted on_chain_score weights_on_chain))
    (weighted ai_score weights_ai_analysis).

(** [sum(l)] on floats: the additions from the [int] 0, left to right,
    each one rounded (CPython before 3.12; later versions carry a
    compensation term through the additions). *)
Definition float_sum (l : list float) : float :=
  fold_left Float.add l (Float.of_int 0).

(** [x ** 2]: the correctly rounded square (the C library's [pow]
    gives it up to one unit in the last place). *)
Definition square (x : float) : float := Float.mul x x.

(** [sum((s - overall_score) ** 2 for s in scores) / len(scores)] *)
Definition variance (scores : list number) (overall_score : float) : float :=
  Float.div
    (float_sum (List.map (fun s => square (Float.sub (Number.to_float s) overall_score))
                         scores))
    (Float.of_int (Z.of_nat (length scores))).

Definition entry (score : number) (weight : float) : breakdown_entry :=
  {| score := Number.round score 2;
     weight := Float.mul weight (Float.of_int 100);
     contribution := Float.round (weighted score weight) 2 |}.

Definition calculate_final_score (off_chain_score on_chain_score ai_score : number)
  : trust_score :=
  let overall_score := weighted_score off_chain_score on_chain_score ai_score in
  let '(risk_level, investment_recommendation) :=
    if Float.geb overall_score (Float.of_int 80) then
      ("LOW", "RECOMMENDED")
    else if Float.geb overall_score (Float.of_int 60) then
      ("MEDIUM", "CONSIDER WITH CAUTION")
    else if Float.geb overall_score (Float.of_int 40) then
      ("HIGH", "HIGH RISK - ADDITIONAL DUE DILIGENCE REQUIRED")
    else
      ("CRITICAL", "NOT RECOMMENDED") in
  let scores := [off_chain_score; on_chain_score; ai_score] in
  let variance := variance scores overall_score in
  let confidence :=
    if Float.ltb variance (Float.of_int 100) then "HIGH"
    else if Float.ltb variance (Float.of_int 400) then "MEDIUM"
    else "LOW" in
  {| overall_score := Float.round overall_score 2;
     risk_level := risk_level;
     investment_recommendation := investment_recommendation;
     confidence := confidence;
     breakdown_off_chain := entry off_chain_score weights_off_chain;
     breakdown_on_chain := entry on_chain_score weights_on_chain;
     breakdown_ai_analysis := entry ai_score weights_ai_analysis |}.

(** Two other readings of "variance of the category scores", to tell
    the one of the code apart: the variance around the mean of the
    scores, and the variance of the weighted scores. *)
Definition mean (scores : list number) : float :=
  Float.div (float_sum (List.map Number.to_float scores))
            (Float.of_int (Z.of_nat (length scores))).

Definition variance_about_mean (scores : list number) : float :=
  variance scores (mean scores).

Definition variance_of_weighted (off_chain_score on_chain_score ai_score : number) : float :=
  variance [ Flt (weighted off_chain_score weights_off_chain);
             Flt (weighted on_chain_score weights_on_chain);
             Flt (weighted ai_score weights_ai_analysis) ]
           (weighted_score off_chain_score on_chain_score ai_score).

(** The part of the [results] dict read by the fraud heuristic: each
    analysis is a dict that may be missing, and so may its ['score']. *)
Record analysis : Type := mk_analysis {
  analysis_score : option number
}.

Record analysis_results : Type := mk_results {
  off_chain_analysis : option analysis;
  on_chain_analysis : option analysis;
  code_analysis : option analysis
}.

(** [results.get(key, {}).get('score', 0)] *)
Definition get_score (a : option analysis) : number :=
  default (Int 0) (a ≫= analysis_score).

Definition _calculate_fraud_likelihood (results : analysis_results) : Z :=
  let fraud_score := 0 in
  let off_chain := off_chain_analysis results in
  let fraud_score :=
    if Number.ltb (get_score off_chain) (Int 30) then fraud_score + 30 else fraud_score in
  let on_chain := on_chain_analysis results in
  let fraud_score :=
    if Number.ltb (get_score on_chain) (Int 20) then fraud_score + 40 else fraud_score in
  let code := code_analysis results in
  let fraud_score :=
    if Number.ltb (get_score code) (Int 20) then fraud_score + 30 else fraud_score in
  Z.min fraud_score 100.

(** [0 <= score <= 100], the range the docstring gives the scores. *)
Definition in_range (score : number) : bool :=
  Number.leb (Int 0) score && Number.leb score (Int 100).

(** Scores whose contributions round up at 0.375 while their sum
    1.125 rounds down. *)
Definition tie_scores : number * number * number :=
  (Flt (Float.decimal 9375 4), Flt (Float.decimal 9375 4), Flt (Float.decimal 1875 3)).

(** Two analysis results: one with documents at 45.5 and no code
    analysis, one where the documents score dropped to 25. *)
Definition weak_documents : analysis_results :=
  {| off_chain_analysis := Some (mk_analysis (Some (Flt (Float.decimal 455 1))));
     on_chain_analysis := Some (mk_analysis (Some (Int 0)));
     code_analysis := None |}.

Definition weaker_documents : analysis_results :=
  {| off_chain_analysis := Some (mk_analysis (Some (Int 25)));
     on_chain_analysis := Some (mk_analysis (Some (Int 0)));
     code_analysis := None |}.

(** *** [generate_risk_report] and its helpers *)

(** One of the analysis dicts of [results], with the keys the report
    reads ([None]: the key is missing). *)
Record analysis_dict : Type := mk_analysis_dict {
  dict_score : option number;
  dict_transaction_count : option number;
  dict_commits : option number;
  dict_contributors : option number
}.

(** [results['trust_score']] and [results['component_scores']], key
    by key. *)
Record trust_dict : Type := mk_trust_dict {
  dict_overall_score : option number;
  dict_risk_level : option string;
  dict_confidence : option string
}.

Record component_dict : Type := mk_component_dict {
  component_off_chain : option number;
  component_on_chain : option number;
  component_ai_analysis : option number
}.

(** The dict [analysis_results] ([None]: the key is missing). *)
Record report_input : Type := mk_report_input {
  input_off_chain_analysis : option analysis_dict;
  input_on_chain_analysis : option analysis_dict;
  input_code_analysis : option analysis_dict;
  input_trust_score : option trust_dict;
  input_component_scores : option component_dict
}.

(** What the fraud heuristic reads of the same dict. *)
Definition fraud_input (r : report_input) : analysis_results :=
  {| off_chain_analysis :=
       option_map (fun a => mk_analysis (dict_score a)) (input_off_chain_analysis r);
     on_chain_analysis :=
       option_map (fun a => mk_analysis (dict_score a)) (input_on_chain_analysis r);
     code_analysis :=
       option_map (fun a => mk_analysis (dict_score a)) (input_code_analysis r) |}.

(** [results.get(key, {}).get(field, 0)] *)
Definition get_field (a : option analysis_dict) (field : analysis_dict -> option number)
  : number :=
  default (Int 0) (a ≫= field).

Definition _assess_milestone_credibility (results : report_input) : Z :=
  let credibility := 100 in
  let on_chain := input_on_chain_analysis results in
  let credibility :=
    if Number.ltb (get_field on_chain dict_transaction_count) (Int 10)
    then credibility - 20 else credibility in
  let code := input_code_analysis results in
  let credibility :=
    if Number.ltb (get_field code dict_commits) (Int 50)
    then credibility - 15 else credibility in
  let credibility :=
    if Number.ltb (get_field code dict_contributors) (Int 2)
    then credibility - 15 else credibility in
  Z.max credibility 0.

Definition _calculate_investment_readiness (overall_score : number) : string :=
  if Number.geb overall_score (Int 75) then "READY"
  else if Number.geb overall_score (Int 60) then
    "NEARLY READY - MINOR IMPROVEMENTS NEEDED"
  else if Number.geb overall_score (Int 40) then
    "NOT READY - SIGNIFICANT WORK REQUIRED"
  else "NOT SUITABLE FOR INVESTMENT".

Record risk_factor : Type := mk_risk_factor {
  factor_category : string;
  factor_severity : string;
  factor_description : string;
  factor_recommendation : string
}.

Record positive_factor : Type := mk_positive_factor {
  positive_category : string;
  positive_description : string
}.

Record recommendation : Type := mk_recommendation {
  recommendation_priority : string;
  recommendation_action : string;
  recommendation_expected_impact : string
}.

Definition documentation_risk : risk_factor :=
  {| factor_category := "Documentation"; factor_severity := "HIGH";
     factor_description := "Incomplete or low-quality documentation";
     factor_recommendation := "Request updated pitch deck and whitepaper" |}.

Definition on_chain_risk : risk_factor :=
  {| factor_category := "On-chain Activity"; factor_severity := "HIGH";
     factor_description := "Limited blockchain activity or suspicious patterns";
     factor_recommendation := "Verify team wallets and transaction history" |}.

Definition code_quality_risk : risk_factor :=
  {| factor_category := "Code Quality"; factor_severity := "MEDIUM";
     factor_description := "Limited development activity or code quality concerns";
     factor_recommendation := "Review GitHub repository and request code audit" |}.

Definition consistency_risk : risk_factor :=
  {| factor_category := "Score Consistency"; factor_severity := "MEDIUM";
     factor_description := "Significant variance between evaluation categories";
     factor_recommendation :=
       "Investigate discrepancies in performance across areas" |}.

Definition fraud_risk : risk_factor :=
  {| factor_category := "Fraud Detection"; factor_severity := "CRITICAL";
     factor_description := "High likelihood of fraudulent activity detected";
     factor_recommendation := "DO NOT INVEST - Conduct thorough investigation" |}.

Definition documentation_positive : positive_factor :=
  {| positive_category := "Documentation";
     positive_description := "Comprehensive and professional documentation" |}.

Definition on_chain_positive : positive_factor :=
  {| positive_category := "On-chain Activity";
     positive_description := "Strong blockchain presence and healthy activity" |}.

Definition code_quality_positive : positive_factor :=
  {| positive_category := "Code Quality";
     positive_description := "Active development with good practices" |}.

Definition improve_documentation : recommendation :=
  {| recommendation_priority := "HIGH";
     recommendation_action := "Improve overall documentation and transparency";
     recommendation_expected_impact := "Increase trust score by 10-15 points" |}.

Definition increase_on_chain_activity : recommendation :=
  {| recommendation_priority := "HIGH";
     recommendation_action :=
       "Increase on-chain activity and provide transaction transparency";
     recommendation_expected_impact := "Reduce fraud risk and improve credibility" |}.

Definition improve_code_quality : recommendation :=
  {| recommendation_priority := "MEDIUM";
     recommendation_action := "Improve code quality, testing, and documentation";
     recommendation_expected_impact := "Increase technical credibility" |}.

Definition balance_performance : recommendation :=
  {| recommendation_priority := "MEDIUM";
     recommendation_action := "Balance performance across all evaluation areas";
     recommendation_expected_impact := "Increase investor confidence" |}.

(** [l.append(x)] when [b] holds. *)
Definition append_if {A : Type} (b : bool) (x : A) (l : list A) : list A :=
  if b then (l ++ [x])%list else l.

(** [None] stands for the KeyError of a missing ['overall_score'] or
    ['confidence']. *)
Definition _generate_recommendations (risk_factors : list risk_factor)
  (trust_score : trust_dict) : option (list recommendation) :=
  match dict_overall_score trust_score, dict_confidence trust_score with
  | Some overall_score, Some confidence =>
      let recommendations := [] in
      let recommendations :=
        append_if (Number.ltb overall_score (Int 80)) improve_documentation
                  recommendations in
      let recommendations :=
        append_if (existsb (fun rf => String.eqb (factor_category rf) "On-chain Activity")
                           risk_factors)
                  increase_on_chain_activity recommendations in
      let recommendations :=
        append_if (existsb (fun rf => String.eqb (factor_category rf) "Code Quality")
                           risk_factors)
                  improve_code_quality recommendations in
      let recommendations :=
        append_if (String.eqb confidence "LOW") balance_performance recommendations in
      Some recommendations
  | _, _ => None
  end.

Record risk_report : Type := mk_risk_report {
  overall_risk_level : string;
  fraud_likelihood : Z;
  milestone_credibility : Z;
  risk_factors : list risk_factor;
  positive_factors : list positive_factor;
  total_risk_count : Z;
  investment_readiness : string;
  recommended_actions : list recommendation
}.

(** The two lists after the three component scores were looked at. *)
Definition component_factors (off_chain on_chain ai_analysis : number)
  : list risk_factor * list positive_factor :=
  let risk_factors := [] in
  let positive_factors := [] in
  let '(risk_factors, positive_factors) :=
    if Number.ltb off_chain (Int 50) then
      ((risk_factors ++ [documentation_risk])%list, positive_factors)
    else if Number.geb off_chain (Int 80) then
      (risk_factors, (positive_factors ++ [documentation_positive])%list)
    else (risk_factors, positive_factors) in
  let '(risk_factors, positive_factors) :=
    if Number.ltb on_chain (Int 50) then
      ((risk_factors ++ [on_chain_risk])%list, positive_factors)
    else if Number.geb on_chain (Int 80) then
      (risk_factors, (positive_factors ++ [on_chain_positive])%list)
    else (risk_factors, positive_factors) in
  if Number.ltb ai_analysis (Int 50) then
    ((risk_factors ++ [code_quality_risk])%list, positive_factors)
  else if Number.geb ai_analysis (Int 80) then
    (risk_factors, (positive_factors ++ [code_quality_positive])%list)
  else (risk_factors, positive_factors).

(** [None] stands for the KeyError of a missing key of
    [analysis_results], of its ['trust_score'] or of its
    ['component_scores']. *)
Definition generate_risk_report (analysis_results : report_input) : option risk_report :=
  match input_trust_score analysis_results,
        input_component_scores analysis_results with
  | Some trust_score, Some component_scores =>
      match component_off_chain component_scores,
            component_on_chain component_scores,
            component_ai_analysis component_scores with
      | Some off_chain, Some on_chain, Some ai_analysis =>
          let '(risk_factors, positive_factors) :=
            component_factors off_chain on_chain ai_analysis in
          let max_score := Number.max_list off_chain [on_chain; ai_analysis] in
          let min_score := Number.min_list off_chain [on_chain; ai_analysis] in
          let risk_factors :=
            append_if (Number.gtb (Number.sub max_score min_score) (Int 40))
                      consistency_risk risk_factors in
          let fraud_score := _calculate_fraud_likelihood (fraud_input analysis_results) in
          let risk_factors := append_if (fraud_score >? 70) fraud_risk risk_factors in
          let milestone_score := _assess_milestone_credibility analysis_results in
          match dict_risk_level trust_score, dict_overall_score trust_score,
                _generate_recommendations risk_factors trust_score with
          | Some risk_level, Some overall_score, Some recommendations =>
              Some {| overall_risk_level := risk_level;
                      fraud_likelihood := fraud_score;
                      milestone_credibility := milestone_score;
                      risk_factors := risk_factors;
                      positive_factors := positive_factors;
                      total_risk_count := Z.of_nat (length risk_factors);
                      investment_readiness :=
                        _calculate_investment_readiness overall_score;
                      recommended_actions := recommendations |}
          | _, _, _ => None
          end
      | _, _, _ => None
      end
  | _, _ => None
  end.

(** The dict [results] that [analyze_startup] hands to the report:
    the three analyses as the analyzers returned them, and the trust
    score computed from their scores.  [None] stands for the KeyError
    of an analysis without ['score']. *)
Definition startup_report_input
  (off_chain_analysis on_chain_analysis code_analysis : analysis_dict)
  : option report_input :=
  match dict_score off_chain_analysis, dict_score on_chain_analysis,
        dict_score code_analysis with
  | Some off_chain_score, Some on_chain_score, Some code_score =>
      let t := calculate_final_score off_chain_score on_chain_score code_score in
      Some {| input_off_chain_analysis := Some off_chain_analysis;
              input_on_chain_analysis := Some on_chain_analysis;
              input_code_analysis := Some code_analysis;
              input_trust_score :=
                Some {| dict_overall_score := Some (Flt (overall_score t));
                        dict_risk_level := Some (risk_level t);
                        dict_confidence := Some (confidence t) |};
              input_component_scores :=
                Some {| component_off_chain := Some off_chain_score;
                        component_on_chain := Some on_chain_score;
                        component_ai_analysis := Some code_score |} |}
  | _, _, _ => None
  end.

(** Two startups: one with poor documents, a nearly unused wallet and
    a nearly empty repository, and one that does well everywhere. *)
Definition suspicious_startup : option report_input :=
  startup_report_input
    (mk_analysis_dict (Some (Int 25)) None None None)
    (mk_analysis_dict (Some (Int 10)) (Some (Int 3)) None None)
    (mk_analysis_dict (Some (Int 15)) None (Some (Int 20)) (Some (Int 1))).

Definition healthy_startup : option report_input :=
  startup_report_input
    (mk_analysis_dict (Some (Flt (Float.decimal 925 1))) None None None)
    (mk_analysis_dict (Some (Int 85)) (Some (Int 120)) None None)
    (mk_analysis_dict (Some (Int 90)) None (Some (Int 300)) (Some (Int 4))).

End TrustScorer.

(** ** [realtime_scorer.py]: class [RealtimeScorer] (the 5-category profile) *)

Module RealtimeScorer.

Local Open Scope string_scope.

Inductive category : Type :=
| media_authenticity
| tech_credibility
| governance_transparency
| onchain_behavior
| social_signals.

(** [self.weights], in the insertion order of the dict. *)
Definition weights : list (category * float) :=
  [ (media_authenticity, Float.decimal 30 2);
    (tech_credibility, Float.decimal 20 2);
    (governance_transparency, Float.decimal 20 2);
    (onchain_behavior, Float.decimal 20 2);
    (social_signals, Float.decimal 10 2) ].

(** The findings are f-strings; each constructor is one template with
    the values it interpolates. *)
Inductive finding : Type :=
| No_GitHub_data_available
| Strong_community (stars : Z)
| Growing_community (stars : Z)
| Early_stage (stars : Z)
| Active_development (commits : Z)
| Moderate_activity_commits (commits : Z)
| Starting_development (commits : Z)
| Large_team (contributors : Z)
| Small_team (contributors : Z)
| Solo_duo_project (contributors : Z)
| High_reusability (forks : Z)
| Some_reuse (forks : Z)
| Active_community_engagement (issues : Z)
| Growing_engagement (issues : Z)
| Last_updated (last_update : string)
| Primary_language (language : string)
| No_social_data_available
| Strong_social_presence (followers : Z)
| Growing_social_presence (followers : Z)
| Early_social_presence (followers : Z)
| High_engagement (engagement_rate : number)
| Good_engagement (engagement_rate : number)
| Hackathon_wins (n : Z)
| Active_community_mentions (mentions : Z)
| Experienced_founder (previous_projects : Z)
| Some_experience (previous_projects : Z)
| Verified_GitHub_profile
| DAO_governance_implemented
| Transparent_voting_system
| Public_roadmap_available
| No_on_chain_data_available
| High_activity (tx_count : Z)
| Moderate_activity_transactions (tx_count : Z)
| DeFi_engagement (contract_interactions : Z)
| Significant_holdings (token_value : number)
| No_media_files_to_analyze
| Analyzing_media_files (n : Z)
| Valid_metadata (file_name : string)
| Hash_verified_on_Walrus (file_name : string)
| Low_manipulation_probability (file_name : string) (manipulation_score : number)
| Possible_manipulation_detected (file_name : string) (manipulation_score : number).

(** The [details] the GitHub scorer adds to its result. *)
Record github_details : Type := mk_details {
  details_stars : Z;
  details_commits : Z;
  details_contributors : Z;
  details_forks : Z;
  details_language : string
}.

(** The dict a category scorer returns. *)
Record category_result : Type := mk_result {
  score : float;
  confidence : float;
  findings : list finding;
  result_category : category;
  details : option github_details
}.

(** The running [score], [confidence] and [findings] of a scorer. *)
Record tally : Type := mk_tally {
  tally_score : float;
  tally_confidence : float;
  tally_findings : list finding
}.

(** [score += ds; findings.append(f); confidence += dc] *)
Definition credit (ds : float) (f : finding) (dc : float) (t : tally) : tally :=
  {| tally_score := Float.add (tally_score t) ds;
     tally_confidence := Float.add (tally_confidence t) dc;
     tally_findings := (tally_findings t ++ [f])%list |}.

(** [findings.append(f); confidence += dc] *)
Definition credit_confidence (f : finding) (dc : float) (t : tally) : tally :=
  {| tally_score := tally_score t;
     tally_confidence := Float.add (tally_confidence t) dc;
     tally_findings := (tally_findings t ++ [f])%list |}.

(** [findings.append(f)] alone. *)
Definition note (f : finding) (t : tally) : tally :=
  {| tally_score := tally_score t;
     tally_confidence := tally_confidence t;
     tally_findings := (tally_findings t ++ [f])%list |}.

(** [min(x, bound)]: keeps [x] unless [bound < x]. *)
Definition float_min (x bound : float) : float :=
  if Float.ltb bound x then bound else x.
(** [max(bound, x)]: keeps [bound] unless [x > bound]. *)
Definition float_max (bound x : float) : float :=
  if Float.gtb x bound then x else bound.

Definition lit (k n : Z) : float := Float.decimal k n.

(** *** [analyze_github_realtime] *)

(** [github_data.get('data', {})] with the defaults of its [get]s. *)
Record github_repo : Type := mk_repo {
  stars : option Z;
  commits : option Z;
  contributors : option Z;
  forks : option Z;
  openIssues : option Z;
  lastUpdate : option string;
  language : option string
}.

(** A non-empty [github_data] dict: the truth value of its ['success']
    and its ['data']. *)
Record github_data : Type := mk_github {
  github_success : bool;
  github_repo_data : github_repo
}.

Definition neutral_default (f : finding) (c : category) : category_result :=
  {| score := lit 5 1; confidence := lit 3 1; findings := [f];
     result_category := c; details := None |}.

(** [None] is a [github_data] that is [None] or an empty dict. *)
Definition analyze_github_realtime (github_data : option github_data) : category_result :=
  match github_data with
  | None => neutral_default No_GitHub_data_available tech_credibility
  | Some gd =>
      if negb (github_success gd) then
        neutral_default No_GitHub_data_available tech_credibility
      else
        let data := github_repo_data gd in
        let t := {| tally_score := lit 0 1; tally_confidence := lit 0 1;
                    tally_findings := [] |} in
        let stars := default 0 (stars data) in
        let t :=
          if stars >? 1000 then credit (lit 3 1) (Strong_community stars) (lit 2 1) t
          else if stars >? 100 then credit (lit 2 1) (Growing_community stars) (lit 15 2) t
          else if stars >? 10 then credit (lit 1 1) (Early_stage stars) (lit 1 1) t
          else t in
        let commits := default 0 (commits data) in
        let t :=
          if commits >? 500 then credit (lit 2 1) (Active_development commits) (lit 2 1) t
          else if commits >? 100 then
            credit (lit 15 2) (Moderate_activity_commits commits) (lit 15 2) t
          else if commits >? 10 then credit (lit 1 1) (Starting_development commits) (lit 1 1) t
          else t in
        let contributors := default 0 (contributors data) in
        let t :=
          if contributors >? 20 then credit (lit 15 2) (Large_team contributors) (lit 15 2) t
          else if contributors >? 5 then credit (lit 1 1) (Small_team contributors) (lit 1 1) t
          else if contributors >? 0 then
            credit (lit 5 2) (Solo_duo_project contributors) (lit 5 2) t
          else t in
        let forks := default 0 (forks data) in
        let t :=
          if forks >? 100 then credit (lit 15 2) (High_reusability forks) (lit 15 2) t
          else if forks >? 10 then credit (lit 1 1) (Some_reuse forks) (lit 1 1) t
          else t in
        let issues := default 0 (openIssues data) in
        let t :=
          if issues >? 50 then
            credit (lit 1 1) (Active_community_engagement issues) (lit 1 1) t
          else if issues >? 10 then credit (lit 5 2) (Growing_engagement issues) (lit 5 2) t
          else t in
        let last_update := default EmptyString (lastUpdate data) in
        let t :=
          if negb (String.eqb last_update EmptyString) then
            credit_confidence (Last_updated last_update) (lit 1 1) t
          else t in
        let language := default "Unknown" (language data) in
        let t := note (Primary_language language) t in
        let score := float_min (tally_score t) (lit 10 1) in
        let confidence := float_min (tally_confidence t) (lit 10 1) in
        {| score := Float.round score 3;
           confidence := Float.round confidence 3;
           findings := tally_findings t;
           result_category := tech_credibility;
           details := Some {| details_stars := stars; details_commits := commits;
                              details_contributors := contributors;
                              details_forks := forks;
                              details_language := language |} |}
  end.

(** *** [analyze_social_realtime] *)

(** A non-empty [social_data] dict, with [twitter] flattened. *)
Record social_data : Type := mk_social {
  followers : option Z;
  engagement_rate : option number;
  hackathons : list string;
  community_mentions : option Z
}.

(** [None] is a [social_data] that is [None] or an empty dict. *)
Definition analyze_social_realtime (social_data : option social_data) : category_result :=
  match social_data with
  | None => neutral_default No_social_data_available social_signals
  | Some sd =>
      let t := {| tally_score := lit 0 1; tally_confidence := lit 0 1;
                  tally_findings := [] |} in
      let followers := default 0 (followers sd) in
      let t :=
        if followers >? 10000 then
          credit (lit 4 1) (Strong_social_presence followers) (lit 3 1) t
        else if followers >? 1000 then
          credit (lit 3 1) (Growing_social_presence followers) (lit 25 2) t
        else if followers >? 100 then
          credit (lit 2 1) (Early_social_presence followers) (lit 2 1) t
        else t in
      let engagement_rate := default (Int 0) (engagement_rate sd) in
      let t :=
        if Number.gtb engagement_rate (Flt (lit 5 2)) then
          credit (lit 3 1) (High_engagement engagement_rate) (lit 2 1) t
        else if Number.gtb engagement_rate (Flt (lit 2 2)) then
          credit (lit 2 1) (Good_engagement engagement_rate) (lit 15 2) t
        else t in
      let hackathons := hackathons sd in
      let t :=
        if Z.of_nat (length hackathons) >? 0 then
          credit (lit 3 1) (Hackathon_wins (Z.of_nat (length hackathons))) (lit 3 1) t
        else t in
      let mentions := default 0 (community_mentions sd) in
      let t :=
        if mentions >? 100 then
          credit (lit 2 1) (Active_community_mentions mentions) (lit 2 1) t
        else t in
      let score := float_min (tally_score t) (lit 10 1) in
      let confidence := float_min (tally_confidence t) (lit 10 1) in
      {| score := Float.round score 3;
         confidence := Float.round confidence 3;
         findings := tally_findings t;
         result_category := social_signals;
         details := None |}
  end.

(** *** [analyze_governance_realtime] *)

Record founder_data : Type := mk_founder {
  founder_success : bool;
  previousProjects : option Z;
  githubProfile : bool          (* a non-empty profile dict *)
}.

Record governance_data : Type := mk_governance {
  has_dao : bool;
  transparent_voting : bool;
  public_roadmap : bool
}.

(** [None] is an argument that is [None] or an empty dict. *)
Definition analyze_governance_realtime
  (founder_data : option founder_data) (governance_data : option governance_data)
  : category_result :=
  let t := {| tally_score := lit 0 1; tally_confidence := lit 0 1;
              tally_findings := [] |} in
  let t :=
    match founder_data with
    | Some fd =>
        if founder_success fd then
          let previous_projects := default 0 (previousProjects fd) in
          let t :=
            if previous_projects >? 3 then
              credit (lit 3 1) (Experienced_founder previous_projects) (lit 25 2) t
            else if previous_projects >? 0 then
              credit (lit 2 1) (Some_experience previous_projects) (lit 2 1) t
            else t in
          if githubProfile fd then
            credit (lit 2 1) Verified_GitHub_profile (lit 2 1) t
          else t
        else t
    | None => t
    end in
  let t :=
    match governance_data with
    | Some gd =>
        let t :=
          if has_dao gd then
            credit (lit 2 1) DAO_governance_implemented (lit 2 1) t
          else t in
        let t :=
          if transparent_voting gd then
            credit (lit 15 2) Transparent_voting_system (lit 15 2) t
          else t in
        if public_roadmap gd then
          credit (lit 15 2) Public_roadmap_available (lit 15 2) t
        else t
    | None => t
    end in
  let score := float_min (tally_score t) (lit 10 1) in
  let confidence := float_min (tally_confidence t) (lit 8 1) in
  {| score := Float.round score 3;
     confidence := Float.round confidence 3;
     findings := tally_findings t;
     result_category := governance_transparency;
     details := None |}.

(** *** [analyze_onchain_realtime] *)

Record onchain_data : Type := mk_onchain {
  transaction_count : option Z;
  contract_interactions : option Z;
  token_value_usd : option number
}.

(** [None] is an [onchain_data] that is [None] or an empty dict. *)
Definition analyze_onchain_realtime (onchain_data : option onchain_data) : category_result :=
  match onchain_data with
  | None => neutral_default No_on_chain_data_available onchain_behavior
  | Some od =>
      let t := {| tally_score := lit 5 1; tally_confidence := lit 5 1;
                  tally_findings := [] |} in
      let tx_count := default 0 (transaction_count od) in
      let t :=
        if tx_count >? 1000 then credit (lit 2 1) (High_activity tx_count) (lit 2 1) t
        else if tx_count >? 100 then
          credit (lit 15 2) (Moderate_activity_transactions tx_count) (lit 15 2) t
        else t in
      let contract_interactions := default 0 (contract_interactions od) in
      let t :=
        if contract_interactions >? 0 then
          credit (lit 15 2) (DeFi_engagement contract_interactions) (lit 15 2) t
        else t in
      let token_value := default (Int 0) (token_value_usd od) in
      let t :=
        if Number.gtb token_value (Int 10000) then
          credit (lit 15 2) (Significant_holdings token_value) (lit 15 2) t
        else t in
      let score := float_min (tally_score t) (lit 10 1) in
      let confidence := float_min (tally_confidence t) (lit 9 1) in
      {| score := Float.round score 3;
         confidence := Float.round confidence 3;
         findings := tally_findings t;
         result_category := onchain_behavior;
         details := None |}
  end.

(** *** [analyze_media_realtime] *)

Record file_info : Type := mk_file {
  name : option string;
  has_metadata : bool;
  hash_verified : bool;
  manipulation_score : option number
}.

(** A non-empty [media_data] dict: its ['files'] ([[]] when absent). *)
Record media_data : Type := mk_media {
  files : list file_info
}.

Definition no_media : category_result :=
  {| score := lit 7 1; confidence := lit 5 1;
     findings := [No_media_files_to_analyze];
     result_category := media_authenticity; details := None |}.

(** The body of [for file_info in files]. *)
Definition check_file (t : tally) (file_info : file_info) : tally :=
  let file_name := default "unknown" (name file_info) in
  let t :=
    if has_metadata file_info then
      credit (lit 1 1) (Valid_metadata file_name) (lit 1 1) t
    else t in
  let t :=
    if hash_verified file_info then
      credit (lit 1 1) (Hash_verified_on_Walrus file_name) (lit 15 2) t
    else t in
  let manipulation_score := default (Flt (lit 1 1)) (manipulation_score file_info) in
  if Number.ltb manipulation_score (Flt (lit 3 1)) then
    credit_confidence (Low_manipulation_probability file_name manipulation_score)
                      (lit 1 1) t
  else
    {| tally_score := Float.sub (tally_score t) (lit 2 1);
       tally_confidence := tally_confidence t;
       tally_findings :=
         (tally_findings t
          ++ [Possible_manipulation_detected file_name manipulation_score])%list |}.

(** [None] is a [media_data] that is [None] or an empty dict. *)
Definition analyze_media_realtime (media_data : option media_data) : category_result :=
  match media_data with
  | None => no_media
  | Some md =>
      match files md with
      | [] => no_media
      | files =>
          let t := {| tally_score := lit 7 1; tally_confidence := lit 6 1;
                      tally_findings := [Analyzing_media_files (Z.of_nat (length files))] |} in
          let t := fold_left check_file files t in
          let score := float_max (lit 0 1) (float_min (tally_score t) (lit 10 1)) in
          let confidence := float_min (tally_confidence t) (lit 10 1) in
          {| score := Float.round score 3;
             confidence := Float.round confidence 3;
             findings := tally_findings t;
             result_category := media_authenticity;
             details := None |}
      end
  end.

(** *** [calculate_final_score] *)

Record category_score : Type := mk_category_score {
  reported_score : float;
  reported_weight : float;
  reported_contribution : float;
  reported_confidence : float
}.

Record final_result : Type := mk_final {
  trust_score : float;
  final_confidence : float;
  risk_level : string;
  risk_color : string;
  category_scores : list (category * category_score);
  all_findings : list finding;
  timestamp : datetime
}.

(** The default of [category_results.get(category, ...)]. *)
Definition missing_category : category_result :=
  {| score := lit 5 1; confidence := lit 5 1; findings := [];
     result_category := media_authenticity; details := None |}.

(** [sum(l)] on floats: the additions from the [int] 0, left to right,
    each one rounded (CPython before 3.12; later versions carry a
    compensation term through the additions). *)
Definition float_sum (l : list float) : float :=
  fold_left Float.add l (Float.of_int 0).

(** The values of the dict [weighted_scores], in insertion order. *)
Definition weighted_scores (category_results : category -> option category_result)
  : list float :=
  List.map (fun '(category, weight) =>
              Float.mul (score (default missing_category (category_results category))) weight)
           weights.

(** The local variable [final_score] before it is rounded. *)
Definition final_score (category_results : category -> option category_result) : float :=
  Float.mul (float_sum (weighted_scores category_results)) (Float.of_int 100).

Definition calculate_final_score (now : datetime)
  (category_results : category -> option category_result) : final_result :=
  let result_of category := default missing_category (category_results category) in
  let all_findings :=
    concat (List.map (fun '(category, _) => findings (result_of category)) weights) in
  let avg_confidence :=
    fold_left (fun acc '(category, weight) =>
                 Float.add acc (Float.mul (confidence (result_of category)) weight))
              weights (lit 0 1) in
  let final_score := final_score category_results in
  let '(risk_level, risk_color) :=
    if Float.geb final_score (Float.of_int 75) then ("low", "green")
    else if Float.geb final_score (Float.of_int 50) then ("medium", "orange")
    else ("high", "red") in
  {| trust_score := Float.round final_score 2;
     final_confidence := Float.round avg_confidence 3;
     risk_level := risk_level;
     risk_color := risk_color;
     category_scores :=
       List.map (fun '(cat, weight) =>
         (cat,
          {| reported_score :=
               Float.round (Float.mul (score (result_of cat)) (Float.of_int 100)) 2;
             reported_weight := Float.mul weight (Float.of_int 100);
             reported_contribution :=
               Float.round (Float.mul (Float.mul (score (result_of cat)) weight)
                                      (Float.of_int 100)) 2;
             reported_confidence := Float.round (confidence (result_of cat)) 3 |}))
         weights;
     all_findings := all_findings;
     timestamp := now |}.

(** [0 <= score <= 1], the range the category scorers clamp to. *)
Definition in_unit (score : float) : bool :=
  Float.leb (Float.of_int 0) score && Float.leb score (Float.of_int 1).

(** Both running totals of a scorer are numbers that are not negative. *)
Definition tally_nonneg (t : tally) : Prop :=
  Float.leb (Float.of_int 0) (tally_score t) = true
  /\ Float.leb (Float.of_int 0) (tally_confidence t) = true.

(** The contributions and the trust score as numbers of hundredths. *)
Definition contribution_hundredths
  (category_results : category -> option category_result) : list Z :=
  List.map (fun '(cat, weight) =>
              Float.round_units
                (Float.mul (Float.mul (score (default missing_category
                                                      (category_results cat))) weight)
                           (Float.of_int 100)) 2)
           weights.

Definition trust_score_hundredths
  (category_results : category -> option category_result) : Z :=
  Float.round_units (final_score category_results) 2.

(** Category results with the given scores. *)
Definition with_scores (media tech governance onchain social : float) (c : category)
  : option category_result :=
  let result score :=
    Some {| score := score; confidence := lit 5 1; findings := [];
            result_category := c; details := None |} in
  match c with
  | media_authenticity => result media
  | tech_credibility => result tech
  | governance_transparency => result governance
  | onchain_behavior => result onchain
  | social_signals => result social
  end.

(** Scores whose five contributions round up and whose sum rounds
    down. *)
Definition gap_scores : category -> option category_result :=
  with_scores (Float.decimal 5511666666666667 16) (Float.decimal 16025 5)
              (Float.decimal 43425 5) (Float.decimal 93475 5)
              (Float.decimal 8354999999999999 16).

(** *** [analyze_project_realtime] *)

Record project_data : Type := mk_project {
  github : option github_data;
  social : option social_data;
  founder : option founder_data;
  governance : option governance_data;
  onchain : option onchain_data;
  media : option media_data
}.

(** The dict [results] the five scorers fill. *)
Definition category_details (project_data : project_data) (c : category)
  : option category_result :=
  Some match c with
       | tech_credibility => analyze_github_realtime (github project_data)
       | social_signals => analyze_social_realtime (social project_data)
       | governance_transparency =>
           analyze_governance_realtime (founder project_data) (governance project_data)
       | onchain_behavior => analyze_onchain_realtime (onchain project_data)
       | media_authenticity => analyze_media_realtime (media project_data)
       end.

Definition analyze_project_realtime (now : datetime) (project_data : project_data)
  : final_result :=
  calculate_final_score now (category_details project_data).

End RealtimeScorer.

(** ** [hashlib.sha256] (FIPS 180-4) *)

Module Sha256.

Definition word (x : Z) : Z := x mod 2 ^ 32.
Definition add32 (a b : Z) : Z := word (a + b).
Definition rotr (n x : Z) : Z := Z.lor (Z.shiftr x n) (word (Z.shiftl x (32 - n))).
Definition shr (n x : Z) : Z := Z.shiftr x n.
Definition xor3 (a b c : Z) : Z := Z.lxor (Z.lxor a b) c.

Definition Ch (x y z : Z) : Z :=
  Z.lxor (Z.land x y) (Z.land (Z.lxor x 0xffffffff) z).
Definition Maj (x y z : Z) : Z :=
  xor3 (Z.land x y) (Z.land x z) (Z.land y z).
Definition Sigma0 (x : Z) : Z := xor3 (rotr 2 x) (rotr 13 x) (rotr 22 x).
Definition Sigma1 (x : Z) : Z := xor3 (rotr 6 x) (rotr 11 x) (rotr 25 x).
Definition sigma0 (x : Z) : Z := xor3 (rotr 7 x) (rotr 18 x) (shr 3 x).
Definition sigma1 (x : Z) : Z := xor3 (rotr 17 x) (rotr 19 x) (shr 10 x).

(** The constants of FIPS 180-4 are fractional parts of roots of the
    first primes: the first 32 bits of the fractional part of the cube
    root of each of the first 64 primes (the round constants), and of
    the square root of each of the first 8 (the initial hash value). *)
Definition is_prime (n : Z) : bool :=
  forallb (fun d => negb (n mod Z.of_nat d =? 0)) (seq 2 (Z.to_nat n - 2)).

Definition primes : list Z :=
  List.filter is_prime (List.map Z.of_nat (seq 2 310)).

(** The integer cube root of [n], by bisection on [lo, hi). *)
Fixpoint cube_root (fuel : nat) (lo hi n : Z) : Z :=
  match fuel with
  | O => lo
  | S fuel' =>
      let mid := (lo + hi) / 2 in
      if mid * mid * mid <=? n then cube_root fuel' mid hi n
      else cube_root fuel' lo mid n
  end.

Definition K : list Z :=
  Eval vm_compute in
    List.map (fun p => word (cube_root 40 0 (2 ^ 36) (p * 2 ^ 96))) primes.

Definition H0 : list Z :=
  Eval vm_compute in
    List.map (fun p => word (Z.sqrt (p * 2 ^ 64))) (firstn 8 primes).

(** Big-endian bytes of [x], [n] of them. *)
Fixpoint be_bytes (n : nat) (x : Z) : list Z :=
  match n with
  | O => []
  | S n' => Z.shiftr x (8 * Z.of_nat n') mod 256 :: be_bytes n' x
  end.

(** The message, the bit 1, zeros up to 56 modulo 64 bytes, and the
    length in bits on 8 bytes. *)
Definition pad (msg : list Z) : list Z :=
  let len := Z.of_nat (length msg) in
  msg ++ [0x80] ++ List.repeat 0 (Z.to_nat ((55 - len) mod 64)) ++ be_bytes 8 (8 * len).

(** Big-endian 32-bit words of a list of bytes. *)
Fixpoint words_of (fuel : nat) (bytes : list Z) : list Z :=
  match fuel, bytes with
  | S fuel', a :: b :: c :: d :: rest =>
      (((a * 256 + b) * 256 + c) * 256 + d) :: words_of fuel' rest
  | _, _ => []
  end.

(** The message schedule: [w] holds the words computed so far. *)
Fixpoint schedule (n : nat) (w : list Z) : list Z :=
  match n with
  | O => w
  | S n' =>
      let t := length w in
      let at_ i := nth (t - i) w 0 in
      schedule n' (w ++ [add32 (add32 (sigma1 (at_ 2%nat)) (at_ 7%nat))
                                (add32 (sigma0 (at_ 15%nat)) (at_ 16%nat))])
  end.

Record state : Type := mk_state { a : Z; b : Z; c : Z; d : Z; e : Z; f : Z; g : Z; h : Z }.

Definition step (s : state) (kw : Z * Z) : state :=
  let t1 := add32 (add32 (add32 (h s) (Sigma1 (e s))) (Ch (e s) (f s) (g s)))
                  (add32 (fst kw) (snd kw)) in
  let t2 := add32 (Sigma0 (a s)) (Maj (a s) (b s) (c s)) in
  {| a := add32 t1 t2; b := a s; c := b s; d := c s;
     e := add32 (d s) t1; f := e s; g := f s; h := g s |}.

Definition compress (s : state) (block : list Z) : state :=
  let w := schedule 48 block in
  let s' := fold_left step (combine K w) s in
  {| a := add32 (a s) (a s'); b := add32 (b s) (b s'); c := add32 (c s) (c s');
     d := add32 (d s) (d s'); e := add32 (e s) (e s'); f := add32 (f s) (f s');
     g := add32 (g s) (g s'); h := add32 (h s) (h s') |}.

(** The 16-word blocks of a list of words. *)
Fixpoint blocks (fuel : nat) (ws : list Z) : list (list Z) :=
  match fuel, ws with
  | S fuel', _ :: _ => firstn 16 ws :: blocks fuel' (skipn 16 ws)
  | _, _ => []
  end.

Definition initial : state :=
  {| a := nth 0 H0 0; b := nth 1 H0 0; c := nth 2 H0 0; d := nth 3 H0 0;
     e := nth 4 H0 0; f := nth 5 H0 0; g := nth 6 H0 0; h := nth 7 H0 0 |}.

(** The eight words of the digest of a list of bytes. *)
Definition digest_words (msg : list Z) : list Z :=
  let bytes := pad msg in
  let ws := words_of (length bytes) bytes in
  let s := fold_left compress (blocks (length ws) ws) initial in
  [a s; b s; c s; d s; e s; f s; g s; h s].

Definition hex_digit (n : Z) : ascii :=
  ascii_of_nat (Z.to_nat (if n <? 10 then 48 + n else 87 + n)).

(** [k] lower-case hexadecimal digits of [x]. *)
Fixpoint hex (k : nat) (x : Z) : string :=
  match k with
  | O => EmptyString
  | S k' => String (hex_digit (Z.shiftr x (4 * Z.of_nat k') mod 16)) (hex k' x)
  end.

(** [hashlib.sha256(msg).hexdigest()] *)
Definition hexdigest (msg : list Z) : string :=
  fold_right (fun w s => String.append (hex 8 w) s) EmptyString (digest_words msg).

End Sha256.

(** ** Python's rendering of numbers and strings *)

Module PyStr.

Local Infix "+++" := String.append (right associativity, at level 60).

(** [str(n)] for an [int]. *)
Definition of_int (n : Z) : string := NilZero.string_of_int (Z.to_int n).

Definition zeros (n : Z) : string :=
  fold_right (fun c s => String c s) EmptyString (List.repeat "0"%char (Z.to_nat n)).

(** The characters of [s] before and from position [n]. *)
Fixpoint take (n : nat) (s : string) : string :=
  match n, s with
  | S n', String c s' => String c (take n' s')
  | _, _ => EmptyString
  end.
Fixpoint drop (n : nat) (s : string) : string :=
  match n, s with
  | S n', String _ s' => drop n' s'
  | _, _ => s
  end.

(** The positive rational [num / den] rounded to the nearest integer,
    ties to even. *)
Definition nearest (num den : Z) : Z := Float.rne_div num den.

(** [m * 2^e] as a fraction. *)
Definition fraction (m : positive) (e : Z) : Z * Z :=
  match e with
  | Zneg p => (Zpos m, 2 ^ Zpos p)
  | _ => (Zpos m * 2 ^ e, 1)
  end.

(** The decimal exponent [k] of [num / den]: [10^(k-1) <= num/den < 10^k].
    [k0] is an estimate from the binary logarithms, off by at most 2. *)
Definition decimal_exponent (num den : Z) : Z :=
  let k0 := (Z.log2 num - Z.log2 den) * 30103 / 100000 - 1 in
  let fits k := (* 10^(k-1) <= num/den *)
    if k - 1 >=? 0 then 10 ^ (k - 1) * den <=? num else den <=? num * 10 ^ (1 - k) in
  if fits (k0 + 3) then k0 + 3
  else if fits (k0 + 2) then k0 + 2
  else if fits (k0 + 1) then k0 + 1
  else k0.

(** The float nearest to [c * 10^x]. *)
Definition parse (c x : Z) : float :=
  if x >=? 0 then Float.of_int (c * 10 ^ x) else Float.truediv c (10 ^ (- x)).

(** [num/den * 10^x] rounded to the nearest integer. *)
Definition scale_round (num den x : Z) : Z :=
  if x >=? 0 then nearest (num * 10 ^ x) den else nearest num (den * 10 ^ (- x)).

(** The decimal with [n] significant digits nearest to [v = m * 2^e],
    as digits [c] and decimal point position [k] ([v ~ 0.c * 10^k]),
    when it or its neighbour on the other side of [v] reads back as
    [v]. *)
Definition round_trip (m : positive) (e : Z) (n : Z) : option (Z * Z) :=
  let v := S754_finite false m e in
  let '(num, den) := fraction m e in
  let k := decimal_exponent num den in
  let c := scale_round num den (n - k) in
  let ok c := (10 ^ (n - 1) <=? c) && (c <? 10 ^ n)
              && Float.eqb (parse c (k - n)) v in
  if c =? 10 ^ n then
    if Float.eqb (parse (10 ^ (n - 1)) (k + 1 - n)) v then Some (10 ^ (n - 1), k + 1)
    else None
  else if ok c then Some (c, k)
  else
    let c' := if Float.ltb (parse c (k - n)) v then c + 1 else c - 1 in
    if ok c' then Some (c', k) else None.

(** The shortest digits that read back as [m * 2^e]: at most 17. *)
Fixpoint shortest (fuel : nat) (m : positive) (e : Z) (n : Z) : Z * Z :=
  match fuel with
  | O => (0, 0)
  | S fuel' =>
      match round_trip m e n with
      | Some r => r
      | None => shortest fuel' m e (n + 1)
      end
  end.

(** [repr] of a positive finite float from its shortest digits: fixed
    notation when the decimal point position is in (-4, 16], else
    exponent notation with at least two exponent digits. *)
Definition repr_finite (m : positive) (e : Z) : string :=
  let '(c, k) := shortest 17 m e 1 in
  let ds := of_int c in
  let n := Z.of_nat (String.length ds) in
  if (-4 <? k) && (k <=? 16) then
    if k <=? 0 then "0."%string +++ zeros (- k) +++ ds
    else if k <? n then take (Z.to_nat k) ds +++ "."%string +++ drop (Z.to_nat k) ds
    else ds +++ zeros (k - n) +++ ".0"%string
  else
    let x := k - 1 in
    let mant := if n =? 1 then ds else take 1 ds +++ "."%string +++ drop 1 ds in
    let xs := of_int (Z.abs x) in
    mant +++ "e"%string +++ (if x <? 0 then "-"%string else "+"%string)
         +++ (if Z.abs x <? 10 then "0"%string else EmptyString) +++ xs.

(** [repr(x)] / [str(x)] for a [float]. *)
Definition of_float (x : float) : string :=
  match x with
  | S754_nan => "nan"%string
  | S754_infinity false => "inf"%string
  | S754_infinity true => "-inf"%string
  | S754_zero false => "0.0"%string
  | S754_zero true => "-0.0"%string
  | S754_finite s m e => (if s then "-"%string else EmptyString) +++ repr_finite m e
  end.

(** [format(x, '.0f')] for a [float]: the exact value rounded to the
    nearest integer, ties to even. *)
Definition format_0f (x : float) : string :=
  match x with
  | S754_nan => "nan"%string
  | S754_infinity false => "inf"%string
  | S754_infinity true => "-inf"%string
  | S754_zero false => "0"%string
  | S754_zero true => "-0"%string
  | S754_finite s m e =>
      (if s then "-"%string else EmptyString) +++ of_int (Float.scaled_abs x 0)
  end.

(** [format(v, '.0f')] for a number: an [int] is converted first. *)
Definition number_format_0f (v : number) : string := format_0f (Number.to_float v).

(** [s.encode()]: UTF-8, for code points below 256. *)
Definition utf8_char (c : ascii) : list Z :=
  let n := Z.of_nat (nat_of_ascii c) in
  if n <? 128 then [n] else [Z.lor 0xC0 (Z.shiftr n 6); Z.lor 0x80 (Z.land n 0x3F)].

Fixpoint encode (s : string) : list Z :=
  match s with
  | EmptyString => []
  | String c s' => (utf8_char c ++ encode s')%list
  end.

End PyStr.

(** ** [json.dumps(obj, sort_keys=True)] *)

Module Json.

Local Infix "+++" := String.append (right associativity, at level 60).

(** A JSON value; a dict is the list of its items in insertion order. *)
#[local] Unset Elimination Schemes.
Inductive json : Type :=
| JNull
| JBool (b : bool)
| JNum (n : number)
| JStr (s : string)
| JList (l : list json)
| JDict (items : list (string * json)).
#[local] Set Elimination Schemes.

(** Induction on a JSON value, with the hypothesis for every item of a
    list and every value of a dict. *)
Section Induction.

Variable P : json -> Prop.
Hypothesis HNull : P JNull.
Hypothesis HBool : forall b, P (JBool b).
Hypothesis HNum : forall n, P (JNum n).
Hypothesis HStr : forall s, P (JStr s).
Hypothesis HList : forall l, Forall P l -> P (JList l).
Hypothesis HDict : forall items, Forall (fun kv => P (snd kv)) items -> P (JDict items).

Fixpoint json_ind (v : json) : P v :=
  match v with
  | JNull => HNull
  | JBool b => HBool b
  | JNum n => HNum n
  | JStr s => HStr s
  | JList l =>
      HList l ((fix items (l : list json) : Forall P l :=
                  match l with
                  | [] => @List.Forall_nil _ P
                  | x :: l' => @List.Forall_cons _ P x l' (json_ind x) (items l')
                  end) l)
  | JDict d =>
      HDict d ((fix items (d : list (string * json))
                  : Forall (fun kv => P (snd kv)) d :=
                  match d with
                  | [] => @List.Forall_nil _ _
                  | kv :: d' =>
                      @List.Forall_cons _ (fun kv => P (snd kv)) kv d'
                                        (json_ind (snd kv)) (items d')
                  end) d)
  end.

End Induction.

Definition quote : ascii := ascii_of_nat 34.
Definition backslash : ascii := ascii_of_nat 92.

(** One character of a string literal ([ensure_ascii=True]). *)
Definition escape_char (c : ascii) : string :=
  let n := nat_of_ascii c in
  if (n =? 34)%nat then String backslash (String quote EmptyString)
  else if (n =? 92)%nat then String backslash (String backslash EmptyString)
  else if (n =? 10)%nat then String backslash "n"
  else if (n =? 13)%nat then String backslash "r"
  else if (n =? 9)%nat then String backslash "t"
  else if (n =? 12)%nat then String backslash "f"
  else if (n =? 8)%nat then String backslash "b"
  else if ((n <? 32) || (126 <? n))%nat then
    String backslash ("u"%string +++ Sha256.hex 4 (Z.of_nat n))
  else String c EmptyString.

Fixpoint escape (s : string) : string :=
  match s with
  | EmptyString => EmptyString
  | String c s' => escape_char c +++ escape s'
  end.

Definition dumps_str (s : string) : string :=
  String quote (escape s +++ String quote EmptyString).

Definition dumps_float (x : float) : string :=
  match x with
  | S754_nan => "NaN"%string
  | S754_infinity false => "Infinity"%string
  | S754_infinity true => "-Infinity"%string
  | _ => PyStr.of_float x
  end.

Definition dumps_number (n : number) : string :=
  match n with
  | Int k => PyStr.of_int k
  | Flt x => dumps_float x
  end.

(** [', '.join(l)] *)
Fixpoint join (l : list string) : string :=
  match l with
  | [] => EmptyString
  | [x] => x
  | x :: l' => x +++ ", "%string +++ join l'
  end.

(** [sorted(items)], on the keys: a stable insertion sort. *)
Fixpoint insert_item {A : Type} (x : string * A) (l : list (string * A))
  : list (string * A) :=
  match l with
  | [] => [x]
  | y :: l' => if String.ltb (fst x) (fst y) then x :: l else y :: insert_item x l'
  end.

Definition sort_items {A : Type} (l : list (string * A)) : list (string * A) :=
  fold_right insert_item [] l.

(** The order the items are sorted in. *)
Definition key_lt {A : Type} (x y : string * A) : Prop :=
  String.ltb (fst x) (fst y) = true.

(** The items of a dict are rendered in the order of their keys; the
    values are rendered before the sort, which reads the keys only. *)
Fixpoint dumps (v : json) : string :=
  match v with
  | JNull => "null"%string
  | JBool true => "true"%string
  | JBool false => "false"%string
  | JNum n => dumps_number n
  | JStr s => dumps_str s
  | JList l => "["%string +++ join (List.map dumps l) +++ "]"%string
  | JDict items =>
      "{"%string
      +++ join (List.map (fun kv => dumps_str (fst kv) +++ ": "%string +++ snd kv)
                         (sort_items (List.map (fun kv => (fst kv, dumps (snd kv))) items)))
      +++ "}"%string
  end.

(** [d[key]]: [None] stands for KeyError. *)
Fixpoint get (key : string) (d : list (string * json)) : option json :=
  match d with
  | [] => None
  | (k, v) :: d' => if String.eqb k key then Some v else get key d'
  end.

(** A Python dict has each key once, at any depth. *)
Fixpoint well_formed (v : json) : Prop :=
  match v with
  | JList l => fold_right (fun x P => well_formed x /\ P) True l
  | JDict items =>
      NoDup (List.map fst items)
      /\ fold_right (fun kv P => well_formed (snd kv) /\ P) True items
  | _ => True
  end.

(** Two values are the same up to the insertion order of their dicts:
    [same] relates equal scalars, lists item by item, and dicts with
    the same keys bound to the same values. *)
Fixpoint same (v w : json) : Prop :=
  match v, w with
  | JNull, JNull => True
  | JBool a, JBool b => a = b
  | JNum a, JNum b => a = b
  | JStr a, JStr b => a = b
  | JList l, JList l' =>
      (fix same_list (l : list json) (l' : list json) : Prop :=
         match l, l' with
         | [], [] => True
         | x :: l, y :: l' => same x y /\ same_list l l'
         | _, _ => False
         end) l l'
  | JDict items, JDict items' =>
      length items = length items'
      /\ (fix same_items (items : list (string * json)) : Prop :=
            match items with
            | [] => True
            | kv :: items =>
                match get (fst kv) items' with
                | Some w => same (snd kv) w
                | None => False
                end /\ same_items items
            end) items
  | _, _ => False
  end.

End Json.

Abbreviation json := Json.json.

(** ** [analysis.py]: the document, code and on-chain analyzers *)

Module Analysis.

Import TrustScorer.

(** *** [DocumentAnalyzer] *)

(** What [analyze_pdf] has read of the file when it scores it: the
    number of pages, the number of words and the six key sections its
    regular expressions look for. *)
Record pdf : Type := mk_pdf {
  num_pages : Z;
  word_count : Z;
  has_problem : bool;
  has_solution : bool;
  has_market : bool;
  has_team : bool;
  has_traction : bool;
  has_financials : bool
}.

(** The ['quality_score'] of the dict a document analyzer returns, the
    one key the agent reads.  [None] is a file on which the [try]
    block raises: the [except] branch answers 50. *)
Definition analyze_pdf (file : option pdf) : Z :=
  match file with
  | None => 50
  | Some f =>
      let score := 0 in
      let score :=
        if num_pages f >=? 10 then score + 20
        else if num_pages f >=? 5 then score + 15
        else score + 10 in
      let score :=
        if word_count f >=? 2000 then score + 20
        else if word_count f >=? 1000 then score + 15
        else score + 10 in
      let section_score :=
        fold_right Z.add 0
          (List.map Z.b2z [has_problem f; has_solution f; has_market f;
                           has_team f; has_traction f; has_financials f]) * 10 in
      let score := score + section_score in
      Z.min score 100
  end.

(** The argument is [os.path.getsize(filepath)]. *)
Definition analyze_video (file_size : option Z) : Z :=
  match file_size with
  | None => 50
  | Some file_size =>
      if file_size >? 50 * 1024 * 1024 then 85
      else if file_size >? 20 * 1024 * 1024 then 70
      else if file_size >? 5 * 1024 * 1024 then 55
      else 40
  end.

(** The argument is [len(wb.sheetnames)]. *)
Definition analyze_spreadsheet (num_sheets : option Z) : Z :=
  match num_sheets with
  | None => 50
  | Some num_sheets =>
      if num_sheets >=? 5 then 90
      else if num_sheets >=? 3 then 75
      else if num_sheets >=? 2 then 60
      else 45
  end.

(** *** [CodeAnalyzer] *)

(** What the three requests of [analyze_repository] answer: the fields
    of the repository that are read, the dates of the commits (a
    commit without a date string is [None]) and the number of
    contributors. *)
Record repository : Type := mk_repository {
  stars : Z;
  forks : Z;
  open_issues : Z;
  has_readme : bool;
  has_license : bool;
  commits : list (option datetime);
  num_contributors : Z
}.

(** [commit_date > cutoff_date] with
    [cutoff_date = datetime.utcnow() - timedelta(days=90)]. *)
Definition is_recent (now commit_date : datetime) : bool :=
  Datetime.to_microseconds commit_date
  >? Datetime.to_microseconds now - 90 * 86400000000.

(** The dict [analyze_repository] returns, with the keys the scorer
    reads.  [None] is a repository on which the [try] block raises (a
    failed request, an answer of another shape): the [except] branch
    answers the score 50 alone. *)
Definition analyze_repository (now : datetime) (repo : option repository)
  : analysis_dict :=
  match repo with
  | None => mk_analysis_dict (Some (Int 50)) None None None
  | Some r =>
      let num_commits := Z.of_nat (length (commits r)) in
      let recent_commits :=
        Z.of_nat (length (List.filter (fun c => match c with
                                                | Some commit_date =>
                                                    is_recent now commit_date
                                                | None => false
                                                end) (commits r))) in
      let score := 0 in
      let score :=
        if stars r >=? 100 then score + 15
        else if stars r >=? 50 then score + 12
        else if stars r >=? 10 then score + 8
        else score + 5 in
      let score :=
        if recent_commits >=? 50 then score + 25
        else if recent_commits >=? 20 then score + 20
        else if recent_commits >=? 10 then score + 15
        else score + 10 in
      let score :=
        if num_contributors r >=? 10 then score + 20
        else if num_contributors r >=? 5 then score + 15
        else if num_contributors r >=? 2 then score + 10
        else score + 5 in
      let doc_score := 0 in
      let doc_score := if has_readme r then doc_score + 10 else doc_score in
      let doc_score := if has_license r then doc_score + 10 else doc_score in
      let score := score + doc_score in
      let health_score := 20 in
      let health_score :=
        if open_issues r >? 50 then health_score - 10
        else if open_issues r >? 20 then health_score - 5
        else health_score in
      let score := score + health_score in
      mk_analysis_dict (Some (Int (Z.min score 100))) None
                       (Some (Int num_commits)) (Some (Int (num_contributors r)))
  end.

(** *** [OnChainAnalyzer] *)

(** What the two requests of [analyze_wallet] answer: the number of
    transactions and the balance in SUI. *)
Record wallet : Type := mk_wallet {
  tx_count : Z;
  balance : float
}.

(** [None] is a wallet on which the [try] block raises. *)
Definition analyze_wallet (address : option wallet) : analysis_dict :=
  match address with
  | None => mk_analysis_dict (Some (Int 50)) None None None
  | Some w =>
      let score := 0 in
      let score :=
        if tx_count w >=? 100 then score + 40
        else if tx_count w >=? 50 then score + 30
        else if tx_count w >=? 20 then score + 20
        else if tx_count w >=? 5 then score + 10
        else score + 5 in
      let score :=
        if Number.geb (Flt (balance w)) (Int 1000) then score + 30
        else if Number.geb (Flt (balance w)) (Int 100) then score + 25
        else if Number.geb (Flt (balance w)) (Int 10) then score + 20
        else if Number.geb (Flt (balance w)) (Int 1) then score + 15
        else score + 5 in
      let score := if tx_count w >? 0 then score + 30 else score in
      mk_analysis_dict (Some (Int (Z.min score 100))) (Some (Int (tx_count w)))
                       None None
  end.

End Analysis.

(** ** [agent.py]: the two verification hashes of [NautilusAgent] *)

Module NautilusAgent.

Import Json.
Local Open Scope string_scope.

(** A Python dict with [str] keys, in insertion order. *)
Definition dict : Type := list (string * json).

(** *** The [results] of [analyze_startup] *)

Definition breakdown_json (e : TrustScorer.breakdown_entry) : json :=
  JDict [ ("score", JNum (TrustScorer.score e));
          ("weight", JNum (Flt (TrustScorer.weight e)));
          ("contribution", JNum (Flt (TrustScorer.contribution e))) ].

(** The dict [TrustScorer.calculate_final_score] returns. *)
Definition trust_score_json (t : TrustScorer.trust_score) : json :=
  JDict [ ("overall_score", JNum (Flt (TrustScorer.overall_score t)));
          ("risk_level", JStr (TrustScorer.risk_level t));
          ("investment_recommendation", JStr (TrustScorer.investment_recommendation t));
          ("confidence", JStr (TrustScorer.confidence t));
          ("score_breakdown",
           JDict [ ("off_chain", breakdown_json (TrustScorer.breakdown_off_chain t));
                   ("on_chain", breakdown_json (TrustScorer.breakdown_on_chain t));
                   ("ai_analysis", breakdown_json (TrustScorer.breakdown_ai_analysis t)) ]) ].

Definition option_json (s : option string) : json :=
  match s with
  | Some s => JStr s
  | None => JNull
  end.

(** The dict [results] of [analyze_startup] when the hash is taken:
    the three analyses are the dicts the analyzers returned, with
    their ['score']. *)
Definition analyze_startup_results
  (quilt_id startup_name : string) (wallet_address github_repo : option string)
  (timestamp : string)
  (off_chain_score on_chain_score code_score : number)
  (off_chain_analysis on_chain_analysis code_analysis : dict) : dict :=
  [ ("startup_name", JStr startup_name);
    ("timestamp", JStr timestamp);
    ("quilt_id", JStr quilt_id);
    ("wallet_address", option_json wallet_address);
    ("github_repo", option_json github_repo);
    ("off_chain_analysis", JDict (("score", JNum off_chain_score) :: off_chain_analysis));
    ("on_chain_analysis", JDict (("score", JNum on_chain_score) :: on_chain_analysis));
    ("code_analysis", JDict (("score", JNum code_score) :: code_analysis));
    ("trust_score",
     trust_score_json
       (TrustScorer.calculate_final_score off_chain_score on_chain_score code_score));
    ("component_scores",
     JDict [ ("off_chain", JNum off_chain_score);
             ("on_chain", JNum on_chain_score);
             ("ai_analysis", JNum code_score) ]) ].

(** *** [_generate_verification_hash] *)

(** The dict [hash_data]; [None] stands for the KeyError of a missing
    key of [results]. *)
Definition hash_data (results : dict) : option dict :=
  match get "startup_name" results, get "quilt_id" results,
        get "trust_score" results, get "component_scores" results,
        get "timestamp" results with
  | Some startup_name, Some quilt_id, Some trust_score, Some component_scores,
    Some timestamp =>
      Some [ ("startup_name", startup_name);
             ("quilt_id", quilt_id);
             ("trust_score", trust_score);
             ("component_scores", component_scores);
             ("timestamp", timestamp) ]
  | _, _, _, _, _ => None
  end.

Definition _generate_verification_hash (results : dict) : option string :=
  match hash_data results with
  | Some hash_data =>
      let json_str := dumps (JDict hash_data) in
      Some (Sha256.hexdigest (PyStr.encode json_str))
  | None => None
  end.

(** *** The hash of [analyze_startup_enhanced] *)

(** [format(v, '')] as an f-string applies it to the value of a key:
    [None] stands for a list or a dict, which the model leaves out. *)
Definition py_str (v : json) : option string :=
  match v with
  | JNull => Some "None"
  | JBool true => Some "True"
  | JBool false => Some "False"
  | JNum (Int k) => Some (PyStr.of_int k)
  | JNum (Flt x) => Some (PyStr.of_float x)
  | JStr s => Some s
  | _ => None
  end.

(** [format(v, '.0f')]: [None] stands for the TypeError or ValueError
    on a value that is no number. *)
Definition py_format_0f (v : json) : option string :=
  match v with
  | JBool true => Some (PyStr.number_format_0f (Int 1))
  | JBool false => Some (PyStr.number_format_0f (Int 0))
  | JNum n => Some (PyStr.number_format_0f n)
  | _ => None
  end.

(** [d.get(key, default)] *)
Definition get_default (key : string) (default : json) (d : dict) : json :=
  match get key d with
  | Some v => v
  | None => default
  end.

(** The f-string that is hashed:
    [{startup_name}:{username}:{github_repo}:{authenticity:.0f}:{final_score:.0f}]. *)
Definition enhanced_hash_input
  (startup_name : string) (github_verification : dict) (github_repo : string)
  (certificate_analysis : dict) (final_score : float) : option string :=
  match py_str (get_default "username" (JStr EmptyString) github_verification),
        py_format_0f (get_default "average_authenticity_score" (JNum (Int 0))
                                  certificate_analysis) with
  | Some username, Some authenticity =>
      Some (String.append startup_name
             (String.append ":"
               (String.append username
                 (String.append ":"
                   (String.append github_repo
                     (String.append ":"
                       (String.append authenticity
                         (String.append ":" (PyStr.format_0f final_score)))))))))
  | _, _ => None
  end.

Definition enhanced_verification_hash
  (startup_name : string) (github_verification : dict) (github_repo : string)
  (certificate_analysis : dict) (final_score : float) : option string :=
  match enhanced_hash_input startup_name github_verification github_repo
                            certificate_analysis final_score with
  | Some s => Some (Sha256.hexdigest (PyStr.encode s))
  | None => None
  end.

(** *** Inputs of the two hashes *)

(** The keys of [results] that [hash_data] reads. *)
Definition covered_keys : list string :=
  [ "startup_name"; "quilt_id"; "trust_score"; "component_scores"; "timestamp" ].

(** Two dicts hold the same value for a key: it is missing in both, or
    present in both with well-formed values that are the same up to
    the insertion order of their dicts. *)
Definition same_field (key : string) (d d' : dict) : Prop :=
  match get key d, get key d' with
  | Some v, Some w => well_formed v /\ well_formed w /\ same v w
  | None, None => True
  | _, _ => False
  end.

(** [d[key] = v] *)
Fixpoint set_item (key : string) (v : json) (d : dict) : dict :=
  match d with
  | [] => [(key, v)]
  | (k, w) :: d' =>
      if String.eqb k key then (k, v) :: d' else (k, w) :: set_item key v d'
  end.

(** The same value with the items of every dict inserted in the
    opposite order. *)
Fixpoint reverse_dicts (v : json) : json :=
  match v with
  | JList l => JList (List.map reverse_dicts l)
  | JDict items =>
      JDict (rev (List.map (fun kv => (fst kv, reverse_dicts (snd kv))) items))
  | _ => v
  end.

(** The results of one analysis, the same results with every dict
    built in the opposite order, and five results that differ from the
    first in one covered field each. *)
Definition sample_results : dict :=
  analyze_startup_results "quilt-7f3a" "Acme Robotics" (Some "0x51ab") (Some "acme/robot")
                          "2025-01-15T10:30:00.250000"
                          (Int 90) (Int 85) (Flt (Float.decimal 885 1)) [] [] [].

Definition reordered_results : dict :=
  rev (List.map (fun kv => (fst kv, reverse_dicts (snd kv))) sample_results).

Definition changed_results : list dict :=
  [ set_item "startup_name" (JStr "Acme Robotic") sample_results;
    set_item "quilt_id" (JStr "quilt-7f3b") sample_results;
    set_item "trust_score"
             (trust_score_json
                (TrustScorer.calculate_final_score (Int 90) (Int 85) (Int 88)))
             sample_results;
    set_item "component_scores"
             (JDict [ ("off_chain", JNum (Int 90)); ("on_chain", JNum (Int 86));
                      ("ai_analysis", JNum (Flt (Float.decimal 885 1))) ])
             sample_results;
    set_item "timestamp" (JStr "2025-01-15T10:30:00.250001") sample_results ].

(** The arguments of one enhanced hash, and five that differ from it
    in one covered field each. *)
Record enhanced_input : Type := mk_enhanced {
  input_startup_name : string;
  input_github_verification : dict;
  input_github_repo : string;
  input_certificate_analysis : dict;
  input_final_score : float
}.

Definition enhanced_hash_of (i : enhanced_input) : option string :=
  enhanced_verification_hash (input_startup_name i) (input_github_verification i)
                             (input_github_repo i) (input_certificate_analysis i)
                             (input_final_score i).

Definition sample_verification : dict :=
  [ ("username", JStr "alice"); ("verified", JBool true) ].

Definition sample_certificates : dict :=
  [ ("total_certificates", JNum (Int 2));
    ("average_authenticity_score", JNum (Flt (Float.decimal 875 1))) ].

Definition sample_input : enhanced_input :=
  {| input_startup_name := "Acme Robotics";
     input_github_verification := sample_verification;
     input_github_repo := "acme/robot";
     input_certificate_analysis := sample_certificates;
     input_final_score := Float.decimal 724 1 |}.

Definition changed_inputs : list enhanced_input :=
  [ mk_enhanced "Acme Robotic" sample_verification "acme/robot" sample_certificates
                (Float.decimal 724 1);
    mk_enhanced "Acme Robotics" (set_item "username" (JStr "alicia") sample_verification)
                "acme/robot" sample_certificates (Float.decimal 724 1);
    mk_enhanced "Acme Robotics" sample_verification "acme/robots" sample_certificates
                (Float.decimal 724 1);
    mk_enhanced "Acme Robotics" sample_verification "acme/robot"
                (set_item "average_authenticity_score" (JNum (Int 42)) sample_certificates)
                (Float.decimal 724 1);
    mk_enhanced "Acme Robotics" sample_verification "acme/robot" sample_certificates
                (Float.decimal 556 1) ].

(** *** [_analyze_documents] and [analyze_startup] *)

(** The four documents the agent looks for in a quilt, in the order of
    the dict [documents]: the pitch deck and the whitepaper (PDF), the
    financials (a spreadsheet) and the demo (a video).  [None] is a
    document that [fetch_quilt] could not download, [Some None] one on
    which the analyzer raises. *)
Record quilt : Type := mk_quilt {
  deck : option (option Analysis.pdf);
  whitepaper : option (option Analysis.pdf);
  financials : option (option Z);
  demo : option (option Z)
}.

(** The list [scores]. *)
Definition quality_scores (q : quilt) : list Z :=
  (option_list (option_map Analysis.analyze_pdf (deck q))
   ++ option_list (option_map Analysis.analyze_pdf (whitepaper q))
   ++ option_list (option_map Analysis.analyze_spreadsheet (financials q))
   ++ option_list (option_map Analysis.analyze_video (demo q)))%list.

(** The dict [_analyze_documents] returns, with the keys the scorer
    reads: the score is the [int] 0 without documents and the float
    [sum(scores) / len(scores)] otherwise. *)
Definition _analyze_documents (q : quilt) : TrustScorer.analysis_dict :=
  let scores := quality_scores q in
  let avg_score :=
    match scores with
    | [] => Int 0
    | _ => Flt (Float.truediv (fold_left Z.add scores 0) (Z.of_nat (length scores)))
    end in
  TrustScorer.mk_analysis_dict (Some avg_score) None None None.

(** What the agent finds outside: the documents of a quilt on Walrus,
    the activity of a wallet on Sui and a repository on GitHub. *)
Record world : Type := mk_world {
  world_quilt : string -> quilt;
  world_wallet : string -> option Analysis.wallet;
  world_repository : string -> option Analysis.repository
}.

(** The truth value of an optional [str] argument: [None] and the
    empty string are false. *)
Definition given (s : option string) : bool :=
  match s with
  | Some s => negb (String.eqb s EmptyString)
  | None => false
  end.

(** [{'score': 0}], with or without a ['reason']. *)
Definition score_0 : TrustScorer.analysis_dict :=
  TrustScorer.mk_analysis_dict (Some (Int 0)) None None None.

Definition _analyze_onchain (w : world) (wallet_address : option string)
  : TrustScorer.analysis_dict :=
  if negb (given wallet_address) then score_0
  else Analysis.analyze_wallet (world_wallet w (default EmptyString wallet_address)).

Definition _analyze_code (w : world) (now : datetime) (github_repo : option string)
  : TrustScorer.analysis_dict :=
  if negb (given github_repo) then score_0
  else Analysis.analyze_repository now
         (world_repository w (default EmptyString github_repo)).

(** The three analyses of [analyze_startup]. *)
Definition analyze_startup_analyses (w : world) (now : datetime) (quilt_id : string)
  (wallet_address github_repo : option string)
  : TrustScorer.analysis_dict * TrustScorer.analysis_dict * TrustScorer.analysis_dict :=
  let off_chain_score := _analyze_documents (world_quilt w quilt_id) in
  let on_chain_score :=
    if given wallet_address then _analyze_onchain w wallet_address else score_0 in
  let code_score :=
    if given github_repo then _analyze_code w now github_repo else score_0 in
  (off_chain_score, on_chain_score, code_score).

(** The [results] of [analyze_startup] as the risk report reads them,
    and the ['risk_report'] that is added to them. *)
Definition analyze_startup_report (w : world) (now : datetime) (quilt_id : string)
  (wallet_address github_repo : option string)
  : option (TrustScorer.report_input * TrustScorer.risk_report) :=
  let '(off_chain_score, on_chain_score, code_score) :=
    analyze_startup_analyses w now quilt_id wallet_address github_repo in
  match TrustScorer.startup_report_input off_chain_score on_chain_score code_score with
  | Some results =>
      match TrustScorer.generate_risk_report results with
      | Some risk_report => Some (results, risk_report)
      | None => None
      end
  | None => None
  end.

End NautilusAgent.

(* ================================================================== *)
(** * Part II: lemmas and theorems                                     *)
(* ================================================================== *)

Lemma digits2_pos_bounds (p : positive) :
  2 ^ (Zpos (digits2_pos p) - 1) <= Zpos p < 2 ^ Zpos (digits2_pos p).
Proof.
  induction p as [p IH | p IH |]; simpl digits2_pos.
  - rewrite Pos2Z.inj_succ, Z.pow_succ_r by lia.
    replace (Z.succ (Zpos (digits2_pos p)) - 1) with (Z.succ (Zpos (digits2_pos p) - 1)) by lia.
    rewrite Z.pow_succ_r by lia. lia.
  - rewrite Pos2Z.inj_succ, Z.pow_succ_r by lia.
    replace (Z.succ (Zpos (digits2_pos p)) - 1) with (Z.succ (Zpos (digits2_pos p) - 1)) by lia.
    rewrite Z.pow_succ_r by lia. lia.
  - simpl. lia.
Qed.

Lemma Zdigits2_nonneg (m : Z) : 0 <= Zdigits2 m.
Proof. destruct m; simpl; lia. Qed.

Lemma Zdigits2_le_iff (m d : Z) :
  0 <= m -> 0 <= d -> Zdigits2 m <= d <-> m < 2 ^ d.
Proof.
  intros Hm Hd. destruct m as [| p | p]; [| | lia].
  - simpl. split; intros _; [apply Z.pow_pos_nonneg; lia | lia].
  - simpl. pose proof (digits2_pos_bounds p) as [Hlo Hhi]. split; intros H.
    + eapply Z.lt_le_trans; [exact Hhi |]. apply Z.pow_le_mono_r; lia.
    + destruct (Z_le_gt_dec (Zpos (digits2_pos p)) d) as [|Hgt]; [assumption | exfalso].
      assert (2 ^ d <= 2 ^ (Zpos (digits2_pos p) - 1)) by (apply Z.pow_le_mono_r; lia).
      lia.
Qed.

Lemma shr_1_m (mrs : shr_record) : 0 <= shr_m mrs -> shr_m (shr_1 mrs) = shr_m mrs / 2.
Proof.
  destruct mrs as [m r s]. simpl. intros Hm.
  destruct m as [| [p | p |] |]; try lia; simpl shr_m.
  - reflexivity.
  - rewrite Pos2Z.inj_xI. apply Z.div_unique with 1; lia.
  - rewrite Pos2Z.inj_xO. apply Z.div_unique with 0; lia.
  - reflexivity.
Qed.

Lemma iter_shr_1_m (p : positive) (mrs : shr_record) :
  0 <= shr_m mrs -> shr_m (SpecFloat.iter_pos shr_1 p mrs) = shr_m mrs / 2 ^ Zpos p.
Proof.
  revert mrs. induction p as [p IH | p IH |]; intros mrs Hm; simpl SpecFloat.iter_pos.
  - assert (H1 : 0 <= shr_m (shr_1 mrs)) by (rewrite shr_1_m by assumption; apply Z.div_pos; lia).
    assert (H2 : 0 <= shr_m (SpecFloat.iter_pos shr_1 p (shr_1 mrs)))
      by (rewrite IH by assumption; apply Z.div_pos; [| apply Z.pow_pos_nonneg]; lia).
    rewrite IH, IH, shr_1_m by assumption.
    rewrite !Z.div_div by (try apply Z.pow_pos_nonneg; lia).
    f_equal. replace (Zpos p~1) with (1 + Zpos p + Zpos p) by lia.
    rewrite (Z.pow_add_r 2 (1 + Zpos p) (Zpos p)) by lia.
    rewrite (Z.pow_add_r 2 1 (Zpos p)) by lia. change (2 ^ 1) with 2. lia.
  - assert (H2 : 0 <= shr_m (SpecFloat.iter_pos shr_1 p mrs))
      by (rewrite IH by assumption; apply Z.div_pos; [| apply Z.pow_pos_nonneg]; lia).
    rewrite IH, IH by assumption.
    rewrite !Z.div_div by (try apply Z.pow_pos_nonneg; lia).
    f_equal. replace (Zpos p~0) with (Zpos p + Zpos p) by lia.
    rewrite (Z.pow_add_r 2 (Zpos p) (Zpos p)) by lia. reflexivity.
  - rewrite shr_1_m by assumption. reflexivity.
Qed.

Lemma shr_record_of_loc_m (m : Z) (l : location) : shr_m (shr_record_of_loc m l) = m.
Proof. destruct l as [| []]; reflexivity. Qed.

Lemma shr_fexp_spec (m e : Z) (l : location) :
  0 <= m ->
  let r := shr_fexp Float.prec Float.emax m e l in
  snd r = Z.max e (fexp Float.prec Float.emax (Zdigits2 m + e))
  /\ shr_m (fst r) = m / 2 ^ (snd r - e)
  /\ (snd r = e -> fst r = shr_record_of_loc m l).
Proof.
  intros Hm. unfold shr_fexp, shr.
  destruct (fexp Float.prec Float.emax (Zdigits2 m + e) - e) as [| p | p] eqn:Hn; simpl.
  - split; [lia | split; [| trivial]].
    rewrite Z.sub_diag, Z.div_1_r. apply shr_record_of_loc_m.
  - split; [lia | split; [| lia]].
    rewrite iter_shr_1_m by (rewrite shr_record_of_loc_m; assumption).
    rewrite shr_record_of_loc_m. f_equal. f_equal. lia.
  - split; [lia | split; [| trivial]].
    rewrite Z.sub_diag, Z.div_1_r. apply shr_record_of_loc_m.
Qed.

Lemma round_nearest_even_bounds (m : Z) (l : location) :
  m <= round_nearest_even m l <= m + 1.
Proof. destruct l as [| []]; simpl; try destruct (Z.even m); lia. Qed.

Lemma fexp_eq (e : Z) : fexp Float.prec Float.emax e = Z.max (e - 53) (-1074).
Proof. reflexivity. Qed.

Lemma div_pow2_lt (m a n : Z) : 0 <= n <= a -> m < 2 ^ a -> m / 2 ^ n < 2 ^ (a - n).
Proof.
  intros Hn Hm. apply Z.div_lt_upper_bound; [apply Z.pow_pos_nonneg; lia |].
  rewrite <- Z.pow_add_r by lia. replace (n + (a - n)) with a by lia. assumption.
Qed.

Lemma div_pow2_bounds (m n : Z) :
  0 <= n -> (m / 2 ^ n) * 2 ^ n <= m < (m / 2 ^ n + 1) * 2 ^ n.
Proof.
  intros Hn. assert (Hp : 0 < 2 ^ n) by (apply Z.pow_pos_nonneg; lia).
  pose proof (Z.div_mod m (2 ^ n) ltac:(lia)) as Hdm.
  pose proof (Z.mod_pos_bound m (2 ^ n) Hp). nia.
Qed.

Lemma binary_round_aux_spec (s : bool) (mx ex : Z) (lx : location) :
  0 <= mx -> ex <= 971 -> Zdigits2 mx + ex <= 1023 ->
  exists m e,
    0 <= m
    /\ binary_round_aux Float.prec Float.emax s mx ex lx = Float.of_mantissa s m e
    /\ ex <= e <= 971
    /\ e <= Z.max ex (Z.max (Zdigits2 mx + ex - 52) (-1074))
    /\ Zdigits2 m + e <= Z.max (Zdigits2 mx + ex + 1) (-1073)
    /\ mx - 2 ^ (e - ex + 1) <= m * 2 ^ (e - ex) <= mx + 2 ^ (e - ex + 1)
    /\ (lx = loc_Exact -> e = ex -> m = mx).
Proof.
  intros Hmx Hex HD. unfold binary_round_aux.
  pose proof (shr_fexp_spec mx ex lx Hmx) as H1. cbv zeta in H1.
  destruct (shr_fexp Float.prec Float.emax mx ex lx) as [mrs1 e1].
  simpl fst in H1; simpl snd in H1. destruct H1 as (He1 & Hm1 & Hx1).
  rewrite fexp_eq in He1.
  set (mr := round_nearest_even (shr_m mrs1) (loc_of_shr_record mrs1)).
  pose proof (round_nearest_even_bounds (shr_m mrs1) (loc_of_shr_record mrs1)) as Hmr.
  fold mr in Hmr.
  pose proof (Zdigits2_nonneg mx) as Hd.
  set (d := Zdigits2 mx) in *.
  set (T := Z.max (d + ex + 1) (-1073)).
  assert (Hn1 : 0 <= e1 - ex) by lia.
  pose proof (div_pow2_bounds mx (e1 - ex) Hn1) as Hb1. rewrite <- Hm1 in Hb1.
  assert (Hm1pos : 0 <= shr_m mrs1)
    by (rewrite Hm1; apply Z.div_pos; [| apply Z.pow_pos_nonneg]; lia).
  assert (Hmrpos : 0 <= mr) by lia.
  assert (HTe1 : 0 <= T - e1) by lia.
  assert (Hmx_lt : mx < 2 ^ d) by (apply Zdigits2_le_iff; lia).
  assert (Hmr_lt : mr < 2 ^ (T - e1)).
  { destruct (Z_le_gt_dec (e1 - ex) d) as [Hle | Hgt].
    - pose proof (div_pow2_lt mx d (e1 - ex) ltac:(lia) Hmx_lt) as Hlt.
      rewrite <- Hm1 in Hlt.
      assert (2 ^ (d - (e1 - ex)) < 2 ^ (T - e1)) by (apply Z.pow_lt_mono_r; lia).
      lia.
    - assert (shr_m mrs1 = 0).
      { rewrite Hm1. apply Z.div_small. split; [assumption |].
        eapply Z.lt_le_trans; [exact Hmx_lt |]. apply Z.pow_le_mono_r; lia. }
      assert (2 ^ 1 <= 2 ^ (T - e1)) by (apply Z.pow_le_mono_r; lia).
      change (2 ^ 1) with 2 in *. lia. }
  assert (Hdr : Zdigits2 mr + e1 <= T).
  { assert (Zdigits2 mr <= T - e1) by (apply Zdigits2_le_iff; lia). lia. }
  pose proof (Zdigits2_nonneg mr) as Hdr0.
  pose proof (shr_fexp_spec mr e1 loc_Exact Hmrpos) as H2. cbv zeta in H2.
  destruct (shr_fexp Float.prec Float.emax mr e1 loc_Exact) as [mrs2 e2].
  simpl fst in H2; simpl snd in H2. destruct H2 as (He2 & Hm2 & Hx2).
  rewrite fexp_eq in He2.
  assert (Hn2 : 0 <= e2 - e1) by lia.
  pose proof (div_pow2_bounds mr (e2 - e1) Hn2) as Hb2. rewrite <- Hm2 in Hb2.
  assert (Hm2pos : 0 <= shr_m mrs2)
    by (rewrite Hm2; apply Z.div_pos; [| apply Z.pow_pos_nonneg]; lia).
  assert (HTe2 : 0 <= T - e2) by lia.
  assert (Hm2_lt : shr_m mrs2 < 2 ^ (T - e2)).
  { rewrite Hm2. replace (T - e2) with ((T - e1) - (e2 - e1)) by lia.
    apply div_pow2_lt; [lia | assumption]. }
  exists (shr_m mrs2), e2.
  split; [assumption |].
  split.
  { destruct (shr_m mrs2) as [| p | p] eqn:Hs; [reflexivity | | lia].
    simpl. replace (e2 <=? Float.emax - Float.prec) with true; [reflexivity |].
    symmetry. apply Z.leb_le. unfold Float.emax, Float.prec. lia. }
  split; [lia |].
  split; [lia |].
  split.
  { assert (Zdigits2 (shr_m mrs2) <= T - e2) by (apply Zdigits2_le_iff; lia). lia. }
  split.
  { assert (Hp1 : 0 < 2 ^ (e1 - ex)) by (apply Z.pow_pos_nonneg; lia).
    assert (Hp2 : 0 < 2 ^ (e2 - e1)) by (apply Z.pow_pos_nonneg; lia).
    assert (E1 : 2 ^ (e2 - ex) = 2 ^ (e2 - e1) * 2 ^ (e1 - ex))
      by (rewrite <- Z.pow_add_r by lia; f_equal; lia).
    assert (E2 : 2 ^ (e2 - ex + 1) = 2 * 2 ^ (e2 - ex))
      by (rewrite Z.pow_add_r by lia; change (2 ^ 1) with 2; lia).
    rewrite E2, E1. clear E1 E2.
    set (P1 := 2 ^ (e1 - ex)) in *. set (P2 := 2 ^ (e2 - e1)) in *.
    set (m1 := shr_m mrs1) in *. set (m2 := shr_m mrs2) in *.
    assert (A1 : m2 * P2 * P1 <= mr * P1) by (apply Z.mul_le_mono_nonneg_r; lia).
    assert (A2 : (mr - P2) * P1 <= m2 * P2 * P1) by (apply Z.mul_le_mono_nonneg_r; lia).
    assert (A3 : mr * P1 <= (m1 + 1) * P1) by (apply Z.mul_le_mono_nonneg_r; lia).
    assert (A4 : m1 * P1 <= mr * P1) by (apply Z.mul_le_mono_nonneg_r; lia).
    assert (A5 : 1 * P1 <= P2 * P1) by (apply Z.mul_le_mono_nonneg_r; lia).
    lia. }
  intros Hlx Hee. subst lx.
  assert (Hee1 : e1 = ex) by lia.
  assert (Hmr_eq : mr = mx) by (unfold mr; rewrite (Hx1 Hee1); reflexivity).
  rewrite Hm2, Hmr_eq. replace (e2 - e1) with 0 by lia. apply Z.div_1_r.
Qed.

Lemma binary_round_aux_sign (s : bool) (mx ex : Z) (lx : location) :
  match binary_round_aux Float.prec Float.emax s mx ex lx with
  | S754_zero s' | S754_infinity s' | S754_finite s' _ _ => s' = s
  | S754_nan => True
  end.
Proof.
  unfold binary_round_aux.
  destruct (shr_fexp Float.prec Float.emax mx ex lx) as [mrs1 e1].
  destruct (shr_fexp _ _ _ e1 loc_Exact) as [mrs2 e2].
  destruct (shr_m mrs2); [reflexivity | | exact I].
  destruct (e2 <=? Float.emax - Float.prec); reflexivity.
Qed.

Lemma small_of_mantissa (s : bool) (m e B : Z) :
  0 <= m -> Zdigits2 m + e <= B -> e <= B -> Float.small B (Float.of_mantissa s m e).
Proof. destruct m; simpl; intros; try lia; auto. Qed.

Lemma small_mono (B B' : Z) (x : float) : B <= B' -> Float.small B x -> Float.small B' x.
Proof. destruct x; simpl; intros; try lia; auto. Qed.

Lemma binary_round_aux_small (s : bool) (mx ex : Z) (lx : location) (B : Z) :
  0 <= mx -> ex <= B -> Zdigits2 mx + ex + 1 <= B -> -1073 <= B -> B <= 971 ->
  Float.small B (binary_round_aux Float.prec Float.emax s mx ex lx).
Proof.
  intros Hmx Hex HD Hlo Hhi.
  destruct (binary_round_aux_spec s mx ex lx Hmx ltac:(lia) ltac:(lia))
    as (m & e & Hm & -> & He & He' & Hd & _).
  apply small_of_mantissa; lia.
Qed.

Lemma Zdigits2_mul_le (a b : Z) :
  0 <= a -> 0 <= b -> Zdigits2 (a * b) <= Zdigits2 a + Zdigits2 b.
Proof.
  intros Ha Hb. pose proof (Zdigits2_nonneg a). pose proof (Zdigits2_nonneg b).
  apply Zdigits2_le_iff; [nia | lia |].
  assert (a < 2 ^ Zdigits2 a) by (apply Zdigits2_le_iff; lia).
  assert (b < 2 ^ Zdigits2 b) by (apply Zdigits2_le_iff; lia).
  rewrite Z.pow_add_r by lia. nia.
Qed.

Lemma mul_small (Bx By : Z) (x y : float) :
  Float.small Bx x -> Float.small By y -> -1073 <= Bx + By + 1 <= 971 ->
  Float.small (Bx + By + 1) (Float.mul x y).
Proof.
  destruct x as [sx | sx | | sx mx ex], y as [sy | sy | | sy my ey]; simpl; try tauto.
  intros [Hdx Hex] [Hdy Hey] HB.
  apply binary_round_aux_small; try lia.
  pose proof (Zdigits2_mul_le (Zpos mx) (Zpos my) ltac:(lia) ltac:(lia)) as H.
  simpl in H. simpl. lia.
Qed.

Lemma div_core_bounds (m1 m2 : positive) :
  let r := SFdiv_core_binary Float.prec Float.emax (Zpos m1) 0 (Zpos m2) 0 in
  0 <= fst (fst r) /\ snd (fst r) <= 0
  /\ Zdigits2 (fst (fst r)) + snd (fst r) <= Zpos (digits2_pos m1).
Proof.
  unfold SFdiv_core_binary.
  set (e' := Z.min _ _). assert (He' : e' <= 0) by (unfold e'; lia).
  set (m' := match 0 - 0 - e' with Z0 => _ | Zpos _ => _ | Zneg _ => _ end).
  assert (Hm' : m' = Zpos m1 * 2 ^ (- e')).
  { unfold m'. destruct (0 - 0 - e') as [| p | p] eqn:Hs; try lia.
    - replace (- e') with 0 by lia. lia.
    - rewrite Z.shiftl_mul_pow2 by lia. f_equal. f_equal. lia. }
  pose proof (Z_div_mod m' (Zpos m2) ltac:(lia)) as Hdm.
  destruct (Z.div_eucl m' (Zpos m2)) as [q r]. destruct Hdm as [Hq Hr]. simpl.
  assert (Hp : 0 < 2 ^ (- e')) by (apply Z.pow_pos_nonneg; lia).
  assert (Hq0 : 0 <= q) by nia.
  split; [assumption | split; [assumption |]].
  assert (Zdigits2 q <= Zpos (digits2_pos m1) - e'); [| lia].
  apply Zdigits2_le_iff; [assumption | lia |].
  pose proof (digits2_pos_bounds m1) as [_ Hhi].
  replace (Zpos (digits2_pos m1) - e') with (Zpos (digits2_pos m1) + - e') by lia.
  rewrite Z.pow_add_r by lia.
  assert (q <= m') by nia. nia.
Qed.

Lemma div_small (s1 s2 : bool) (m1 m2 : positive) (B : Z) :
  Zpos (digits2_pos m1) + 1 <= B -> B <= 971 ->
  Float.small B (Float.div (S754_finite s1 m1 0) (S754_finite s2 m2 0)).
Proof.
  intros HB Hhi. unfold Float.div, SFdiv.
  pose proof (div_core_bounds m1 m2) as H. cbv zeta in H.
  destruct (SFdiv_core_binary Float.prec Float.emax (Zpos m1) 0 (Zpos m2) 0)
    as [[mz ez] lz].
  simpl in H. destruct H as (Hmz & Hez & Hd).
  apply binary_round_aux_small; lia.
Qed.

Lemma truediv_small (a b B : Z) :
  0 <= a -> b <> 0 -> Zdigits2 a + 1 <= B -> B <= 971 -> Float.small B (Float.truediv a b).
Proof.
  intros Ha Hb HB Hhi.
  destruct a as [| p | p], b as [| q | q]; try lia; unfold Float.truediv;
    try exact I; apply div_small; simpl in HB; lia.
Qed.

Lemma to_int_small (B : Z) (x : float) : Float.small B x -> exists n, Float.to_int x = Some n.
Proof.
  destruct x as [s | s | | s m [| p | p]]; simpl; try tauto; intros _; eauto.
Qed.

Lemma of_int_100 : Float.of_int 100 = S754_finite false 7036874417766400 (-46).
Proof. reflexivity. Qed.

Lemma small_of_int_100 : Float.small 7 (Float.of_int 100).
Proof. rewrite of_int_100. simpl. lia. Qed.


(** ** The HTTP monad *)

Import GithubAuth.

Lemma logs_ret {A : Type} (a : A) : logs (ret a).
Proof. intros api log. unfold ret. simpl. rewrite app_nil_r. reflexivity. Qed.

Lemma logs_bind {A B : Type} (c : http A) (k : A -> http B) :
  logs c -> (forall a, logs (k a)) -> logs (bind c k).
Proof.
  intros Hc Hk api log. unfold bind.
  rewrite (Hc api log). destruct (c api []) as [a l1]. simpl.
  rewrite (Hk a api (log ++ l1)), (Hk a api l1). simpl.
  rewrite app_assoc. reflexivity.
Qed.

Lemma logs_get_commits (page : Z) : logs (requests_get_commits page).
Proof. intros api log. reflexivity. Qed.

Lemma logs_get_repo : logs requests_get_repo.
Proof. intros api log. reflexivity. Qed.

Lemma logs_get_contributor_stats : logs requests_get_contributor_stats.
Proof. intros api log. reflexivity. Qed.

Lemma result_bind {A B : Type} (c : http A) (k : A -> http B) (api : github_api) :
  logs c -> (forall a, logs (k a)) ->
  result (bind c k) api = result (k (result c api)) api.
Proof.
  intros Hc Hk. unfold result, run, bind.
  destruct (c api []) as [a l1]. simpl. rewrite (Hk a api l1). reflexivity.
Qed.

Lemma requests_bind {A B : Type} (c : http A) (k : A -> http B) (api : github_api) :
  logs c -> (forall a, logs (k a)) ->
  requests (bind c k) api = requests c api ++ requests (k (result c api)) api.
Proof.
  intros Hc Hk. unfold requests, result, run, bind.
  destruct (c api []) as [a l1]. simpl. rewrite (Hk a api l1). reflexivity.
Qed.

Lemma logs_fetch_all_commits (fuel : nat) (all_page : Z) (all_commits : list commit) :
  logs (fetch_all_commits fuel all_page all_commits).
Proof.
  revert all_page all_commits. induction fuel as [| fuel IH]; intros all_page all_commits.
  - apply logs_ret.
  - simpl. apply logs_bind; [apply logs_get_commits |]. intros response.
    destruct (negb (status_code response =? 200)); [apply logs_ret |].
    destruct (json response); [apply logs_ret |].
    destruct (all_page + 1 >? 10); [apply logs_ret | apply IH].
Qed.

Lemma logs_get_user_commits (username : string) : logs (get_user_commits username).
Proof.
  unfold get_user_commits. apply logs_bind; [apply logs_fetch_all_commits |].
  intros a. apply logs_ret.
Qed.

Lemma logs_calculate_ownership_score (user_commits : Z) :
  logs (_calculate_ownership_score user_commits).
Proof.
  unfold _calculate_ownership_score. apply logs_bind; [apply logs_get_repo |].
  intros response. destruct (negb (status_code response =? 200)); [apply logs_ret |].
  apply logs_bind; [apply logs_get_contributor_stats |].
  intros response'. destruct (negb (status_code response' =? 200)); [apply logs_ret |].
  cbv zeta. destruct (sum_totals (json response') =? 0); apply logs_ret.
Qed.

(** The loop never runs out of fuel: from page [all_page] in 1..10 it
    makes at most [11 - all_page] requests, so more fuel changes nothing. *)
Lemma fetch_all_commits_fuel (fuel : nat) (all_page : Z) (all_commits : list commit)
  (api : github_api) (log : list endpoint) :
  1 <= all_page <= 10 -> (Z.to_nat (11 - all_page) <= fuel)%nat ->
  fetch_all_commits fuel all_page all_commits api log
  = fetch_all_commits (Z.to_nat (11 - all_page)) all_page all_commits api log.
Proof.
  revert all_page all_commits log.
  induction fuel as [| fuel IH]; intros all_page all_commits log Hp Hf; [lia |].
  replace (Z.to_nat (11 - all_page)) with (S (Z.to_nat (11 - (all_page + 1)))) by lia.
  simpl. unfold bind, requests_get_commits.
  destruct (negb (status_code (commits_response api all_page) =? 200)); [reflexivity |].
  destruct (json (commits_response api all_page)); [reflexivity |].
  destruct (all_page + 1 >? 10) eqn:Hlast; [reflexivity |].
  apply IH; lia.
Qed.

(** At most ten pages are requested. *)
Lemma fetch_all_commits_requests (fuel : nat) (all_page : Z) (all_commits : list commit)
  (api : github_api) :
  (length (requests (fetch_all_commits fuel all_page all_commits) api) <= fuel)%nat.
Proof.
  revert all_page all_commits. induction fuel as [| fuel IH]; intros all_page all_commits.
  - simpl. lia.
  - simpl. rewrite requests_bind.
    + unfold requests at 1, result, run, requests_get_commits. simpl.
      destruct (negb (status_code (commits_response api all_page) =? 200));
        [simpl; lia |].
      destruct (json (commits_response api all_page)); [simpl; lia |].
      destruct (all_page + 1 >? 10); [simpl; lia |].
      specialize (IH (all_page + 1) (all_commits ++ c :: l)). lia.
    + apply logs_get_commits.
    + intros response.
      destruct (negb (status_code response =? 200)); [apply logs_ret |].
      destruct (json response); [apply logs_ret |].
      destruct (all_page + 1 >? 10); [apply logs_ret | apply logs_fetch_all_commits].
Qed.

(** ** The three scores never raise *)

Lemma nonneg_mul (x y : float) :
  Float.nonneg x -> Float.nonneg y -> Float.nonneg (Float.mul x y).
Proof.
  destruct x as [sx | sx | | sx mx ex], y as [sy | sy | | sy my ey]; simpl;
    intros Hx Hy; subst; try reflexivity; try exact I.
  apply (binary_round_aux_sign false).
Qed.

Lemma nonneg_truediv (a b : Z) : 0 <= a -> 0 < b -> Float.nonneg (Float.truediv a b).
Proof.
  intros Ha Hb. destruct a as [| p | p], b as [| q | q]; try lia; unfold Float.truediv.
  - reflexivity.
  - unfold Float.div, SFdiv.
    destruct (SFdiv_core_binary _ _ _ _ _ _) as [[mz ez] lz].
    apply (binary_round_aux_sign false).
Qed.

Lemma int_min_100_nonneg (x : float) :
  Float.nonneg x -> exists n, int_min_100 x = Some n.
Proof.
  intros Hx. unfold int_min_100.
  destruct x as [s | s | | s m e]; simpl in Hx; subst.
  - destruct (Float.ltb _ _); simpl; eauto.
  - simpl. eauto.
  - simpl. eauto.
  - destruct (Float.ltb _ _); [| eauto]. destruct e; simpl; eauto.
Qed.

Lemma int_min_100_percentage (n d : Z) :
  0 <= n -> 0 < d ->
  exists k, int_min_100 (Float.mul (Float.truediv n d) (Float.of_int 100)) = Some k.
Proof.
  intros Hn Hd. apply int_min_100_nonneg, nonneg_mul.
  - apply nonneg_truediv; assumption.
  - reflexivity.
Qed.

Lemma calculate_consistency_total (commit_dates : list datetime) :
  exists n, _calculate_consistency commit_dates = Some n.
Proof.
  unfold _calculate_consistency.
  destruct commit_dates as [| d1 [| d2 l]]; [eauto | eauto |].
  apply int_min_100_percentage; lia.
Qed.

Lemma calculate_activity_score_total (now : datetime) (commit_dates : list datetime) :
  exists n, _calculate_activity_score now commit_dates = Some n.
Proof.
  unfold _calculate_activity_score.
  destruct commit_dates as [| d1 l]; [eauto |].
  apply int_min_100_percentage; lia.
Qed.

(** The result of the ownership computation, branch by branch. *)
Lemma calculate_ownership_score_result (user_commits : Z) (api : github_api) :
  result (_calculate_ownership_score user_commits) api =
  if negb (status_code (repo_response api) =? 200) then Some (0, 0)
  else if negb (status_code (contributor_stats_response api) =? 200)
       then Some (50, user_commits)
  else
    let total_commits := sum_totals (json (contributor_stats_response api)) in
    if total_commits =? 0 then Some (0, 0)
    else match Float.to_int (Float.mul (Float.truediv user_commits total_commits)
                                       (Float.of_int 100)) with
         | Some n => Some (Z.min 100 n, total_commits)
         | None => None
         end.
Proof.
  unfold result, run, _calculate_ownership_score, bind, requests_get_repo,
    requests_get_contributor_stats.
  destruct (negb (status_code (repo_response api) =? 200)); [reflexivity |].
  destruct (negb (status_code (contributor_stats_response api) =? 200)); [reflexivity |].
  cbv zeta. destruct (sum_totals _ =? 0); reflexivity.
Qed.

(** The requests of the ownership computation: the contributor
    statistics are asked for only after the repository answered 200. *)
Lemma calculate_ownership_score_requests (user_commits : Z) (api : github_api) :
  requests (_calculate_ownership_score user_commits) api =
  if negb (status_code (repo_response api) =? 200) then [GET_repo]
  else [GET_repo; GET_contributor_stats].
Proof.
  unfold requests, run, _calculate_ownership_score, bind, requests_get_repo,
    requests_get_contributor_stats.
  destruct (negb (status_code (repo_response api) =? 200)); [reflexivity |].
  destruct (negb (status_code (contributor_stats_response api) =? 200)); [reflexivity |].
  cbv zeta. destruct (sum_totals _ =? 0); reflexivity.
Qed.

Lemma calculate_ownership_score_total (user_commits : Z) (api : github_api) :
  0 <= user_commits <= Float.sys_maxsize ->
  exists r, result (_calculate_ownership_score user_commits) api = Some r.
Proof.
  intros Hu. rewrite calculate_ownership_score_result.
  destruct (negb _); [eauto |]. destruct (negb _); [eauto |].
  cbv zeta. destruct (sum_totals _ =? 0) eqn:Ht; [eauto |].
  apply Z.eqb_neq in Ht.
  assert (Hsmall : Float.small 72 (Float.mul (Float.truediv user_commits
            (sum_totals (json (contributor_stats_response api)))) (Float.of_int 100))).
  { change 72 with (64 + 7 + 1). apply mul_small; [| apply small_of_int_100 | lia].
    apply truediv_small; [lia | assumption | | lia].
    assert (Zdigits2 user_commits <= 63); [| lia].
    apply Zdigits2_le_iff; [lia | lia |]. unfold Float.sys_maxsize in Hu. lia. }
  destruct (to_int_small _ _ Hsmall) as [n ->]. eauto.
Qed.

(** The result of a verification, in terms of the matched commits. *)
Lemma analyze_commit_pattern_result (now : datetime) (username : string)
  (api : github_api) :
  result (analyze_commit_pattern now username) api =
  let commits := result (get_user_commits username) api in
  match commits with
  | [] => Some no_commits
  | _ =>
      let user_commits := Z.of_nat (length commits) in
      let commit_dates := commit_dates_of commits in
      match _calculate_consistency commit_dates,
            _calculate_activity_score now commit_dates,
            result (_calculate_ownership_score user_commits) api with
      | Some consistency_score, Some activity_score,
        Some (ownership_score, total_commits) =>
          Some {| user_commits := user_commits;
                  total_commits := total_commits;
                  ownership_score := ownership_score;
                  activity_score := activity_score;
                  consistency_score := consistency_score;
                  is_authentic := (user_commits >=? 5) && (consistency_score >=? 50)
                                  && (ownership_score >=? 20);
                  dates := Some (timeline_of user_commits commit_dates) |}
      | _, _, _ => None
      end
  end.
Proof.
  unfold analyze_commit_pattern. rewrite result_bind.
  - cbv zeta. destruct (result (get_user_commits username) api) as [| c l] eqn:Hc;
      [reflexivity |].
    set (dates := commit_dates_of (c :: l)).
    destruct (_calculate_consistency dates) as [cs |]; [| reflexivity].
    destruct (_calculate_activity_score now dates) as [a |];
      [| reflexivity].
    rewrite result_bind.
    + destruct (result (_calculate_ownership_score _) api) as [[o t] |]; reflexivity.
    + apply logs_calculate_ownership_score.
    + intros [[o t] |]; apply logs_ret.
  - apply logs_get_user_commits.
  - intros [| c l]; [apply logs_ret |].
    destruct (_calculate_consistency _); [| apply logs_ret].
    destruct (_calculate_activity_score _ _); [| apply logs_ret].
    apply logs_bind; [apply logs_calculate_ownership_score |].
    intros [[o t] |]; apply logs_ret.
Qed.

(** ** Claims on the ownership verifier *)



Lemma size_list_to_set_small (l : list Z) :
  (2 <= size (list_to_set l : gset Z))%nat -> (2 <= length l)%nat.
Proof.
  destruct l as [| x [| y l]]; intros H; simpl length; try lia; exfalso.
  - rewrite list_to_set_nil, size_empty in H. lia.
  - rewrite list_to_set_cons, list_to_set_nil, union_empty_r_L, size_singleton in H. lia.
Qed.

Lemma consistency_five_weeks :
  int_min_100 (Float.mul (Float.truediv 5 52) (Float.of_int 100)) = Some 9.
Proof. vm_compute. reflexivity. Qed.

Lemma activity_two_recent :
  int_min_100 (Float.mul (Float.truediv 2 10) (Float.of_int 100)) = Some 20.
Proof. vm_compute. reflexivity. Qed.

Lemma ownership_six_of_thirty :
  Float.to_int (Float.mul (Float.truediv 6 30) (Float.of_int 100)) = Some 20.
Proof. vm_compute. reflexivity. Qed.


Lemma scenario_six_commits_holds :
  six_commits_in_five_weeks alice_now "alice" (alice_api 200 200).
Proof.
  unfold six_commits_in_five_weeks. cbv zeta.
  assert (Hc : result (get_user_commits "alice") (alice_api 200 200)
               = List.filter (matches "alice") alice_page) by (vm_compute; reflexivity).
  rewrite Hc.
  split; [vm_compute; reflexivity |].
  split; [vm_compute; reflexivity |].
  split; [vm_compute; reflexivity |].
  repeat split; reflexivity.
Qed.


Lemma alice_verdict :
  exists t,
    result (analyze_commit_pattern alice_now "alice") (alice_api 200 200)
    = Some {| user_commits := 6; total_commits := 30; ownership_score := 20;
              activity_score := 20; consistency_score := 9; is_authentic := false;
              dates := Some t |}.
Proof. eexists. vm_compute. reflexivity. Qed.


Lemma fetch_all_commits_requests_are_commits (fuel : nat) (all_page : Z)
  (all_commits : list commit) (api : github_api) (r : endpoint) :
  In r (requests (fetch_all_commits fuel all_page all_commits) api) ->
  exists page, r = GET_commits page.
Proof.
  revert all_page all_commits. induction fuel as [| fuel IH]; intros all_page all_commits.
  - intros [].
  - simpl fetch_all_commits. rewrite requests_bind.
    + unfold requests at 1, result, run, requests_get_commits. simpl fst. simpl snd.
      intros [<- | Hin]; [eauto |].
      destruct (negb (status_code (commits_response api all_page) =? 200));
        [destruct Hin |].
      destruct (json (commits_response api all_page)); [destruct Hin |].
      destruct (all_page + 1 >? 10); [destruct Hin |].
      eapply IH, Hin.
    + apply logs_get_commits.
    + intros response.
      destruct (negb (status_code response =? 200)); [apply logs_ret |].
      destruct (json response); [apply logs_ret |].
      destruct (all_page + 1 >? 10); [apply logs_ret | apply logs_fetch_all_commits].
Qed.

Lemma get_user_commits_requests_are_commits (username : string) (api : github_api)
  (r : endpoint) :
  In r (requests (get_user_commits username) api) -> exists page, r = GET_commits page.
Proof.
  unfold get_user_commits. rewrite requests_bind;
    [| apply logs_fetch_all_commits | intros a; apply logs_ret].
  unfold requests at 2, run, ret. simpl snd. rewrite app_nil_r.
  apply fetch_all_commits_requests_are_commits.
Qed.

(** The requests of a verification: the pages of commits, then, when a
    commit matched, those of the ownership computation. *)
Lemma analyze_commit_pattern_requests (now : datetime) (username : string)
  (api : github_api) :
  requests (analyze_commit_pattern now username) api =
  requests (get_user_commits username) api
  ++ match result (get_user_commits username) api with
     | [] => []
     | commits => requests (_calculate_ownership_score (Z.of_nat (length commits))) api
     end.
Proof.
  unfold analyze_commit_pattern. rewrite requests_bind.
  - f_equal. destruct (result (get_user_commits username) api) as [| c l];
      [reflexivity |].
    cbv zeta. set (dates := commit_dates_of (c :: l)).
    destruct (calculate_consistency_total dates) as [cs ->].
    destruct (calculate_activity_score_total now dates) as [a ->].
    rewrite requests_bind.
    + destruct (result (_calculate_ownership_score _) api) as [[o t] |];
        unfold requests at 2, run, ret; simpl snd; apply app_nil_r.
    + apply logs_calculate_ownership_score.
    + intros [[o t] |]; apply logs_ret.
  - apply logs_get_user_commits.
  - intros [| c l]; [apply logs_ret |].
    destruct (_calculate_consistency _); [| apply logs_ret].
    destruct (_calculate_activity_score _ _); [| apply logs_ret].
    apply logs_bind; [apply logs_calculate_ownership_score |].
    intros [[o t] |]; apply logs_ret.
Qed.



(** C10.  The ownership computation has a third branch.  When the
    repository request is not answered with 200 it returns (0, 0) and
    never asks for the contributor statistics; when that request
    succeeds and the statistics request fails it returns the neutral
    (50, matched commits); so with failing statistics the neutral
    fallback is returned exactly when the repository request
    succeeded. *)
Theorem repository_failure_returns_zero (user_commits : Z) (api : github_api) :
  (status_code (repo_response api) <> 200 ->
   result (_calculate_ownership_score user_commits) api = Some (0, 0)
   /\ requests (_calculate_ownership_score user_commits) api = [GET_repo])
  /\ (status_code (repo_response api) = 200 ->
      status_code (contributor_stats_response api) <> 200 ->
      result (_calculate_ownership_score user_commits) api = Some (50, user_commits)
      /\ requests (_calculate_ownership_score user_commits) api
         = [GET_repo; GET_contributor_stats])
  /\ (status_code (contributor_stats_response api) <> 200 ->
      (result (_calculate_ownership_score user_commits) api = Some (50, user_commits)
       <-> status_code (repo_response api) = 200)).
Proof.
  rewrite calculate_ownership_score_result, calculate_ownership_score_requests.
  split; [| split].
  - intros Hrepo.
    replace (negb (status_code (repo_response api) =? 200)) with true
      by (symmetry; apply negb_true_iff, Z.eqb_neq; assumption).
    split; reflexivity.
  - intros Hrepo Hstats. rewrite Hrepo. change (negb (200 =? 200)) with false.
    replace (negb (status_code (contributor_stats_response api) =? 200)) with true
      by (symmetry; apply negb_true_iff, Z.eqb_neq; assumption).
    split; reflexivity.
  - intros Hstats.
    replace (negb (status_code (contributor_stats_response api) =? 200)) with true
      by (symmetry; apply negb_true_iff, Z.eqb_neq; assumption).
    destruct (status_code (repo_response api) =? 200) eqn:Hrepo; simpl negb.
    + apply Z.eqb_eq in Hrepo. split; [intros _; assumption | reflexivity].
    + apply Z.eqb_neq in Hrepo. split; [discriminate | intros H; contradiction].
Qed.

Lemma repository_failure_returns_zero_witness :
  status_code (repo_response (alice_api 404 200)) <> 200
  /\ result (_calculate_ownership_score 6) (alice_api 404 200) = Some (0, 0)
  /\ requests (_calculate_ownership_score 6) (alice_api 404 200) = [GET_repo].
Proof.
  assert (H : status_code (repo_response (alice_api 404 200)) <> 200)
    by (vm_compute; discriminate).
  split; [exact H |].
  exact (proj1 (repository_failure_returns_zero 6 (alice_api 404 200)) H).
Defined.

(** ** Comparisons *)

Lemma float_compare_finite (x y : float) :
  Float.is_finite x = true -> Float.is_finite y = true ->
  Float.compare x y = Some (Float.to_Q x ?= Float.to_Q y)%Q.
Proof. destruct x, y; simpl; intros; try discriminate; reflexivity. Qed.

Lemma float_leb_ltb_trans (x y z : float) :
  Float.leb x y = true -> Float.ltb y z = true -> Float.ltb x z = true.
Proof.
  unfold Float.leb, Float.ltb.
  destruct (Float.is_finite x) eqn:Fx, (Float.is_finite y) eqn:Fy,
    (Float.is_finite z) eqn:Fz.
  - rewrite !float_compare_finite by assumption.
    destruct (Qcompare_spec (Float.to_Q x) (Float.to_Q y)) as [Hxy | Hxy | Hxy];
      try discriminate;
      destruct (Qcompare_spec (Float.to_Q y) (Float.to_Q z)) as [Hyz | Hyz | Hyz];
      try discriminate; intros _ _;
      destruct (Qcompare_spec (Float.to_Q x) (Float.to_Q z)) as [Hxz | Hxz | Hxz];
      try reflexivity; exfalso; lra.
  - destruct x as [| | |], y as [| | |], z as [[] | [] | |]; try discriminate;
      simpl; intros; try discriminate; try reflexivity.
  - destruct x as [| | |], y as [| [] | |], z as [| | |]; try discriminate;
      simpl; intros; try discriminate; try reflexivity.
  - destruct x as [| | |], y as [| [] | |], z as [| [] | |]; try discriminate;
      simpl; intros; try discriminate; try reflexivity.
  - destruct x as [| [] | |], y as [| | |], z as [| | |]; try discriminate;
      simpl; intros; try discriminate; try reflexivity.
  - destruct x as [| [] | |], y as [| | |], z as [| [] | |]; try discriminate;
      simpl; intros; try discriminate; try reflexivity.
  - destruct x as [| [] | |], y as [| [] | |], z as [| | |]; try discriminate;
      simpl; intros; try discriminate; try reflexivity.
  - destruct x as [| [] | |], y as [| [] | |], z as [| [] | |]; try discriminate;
      simpl; intros; try discriminate; try reflexivity.
Qed.

Lemma number_leb_ltb_trans (a b c : number) :
  Number.leb a b = true -> Number.ltb b c = true -> Number.ltb a c = true.
Proof. apply float_leb_ltb_trans. Qed.

Lemma float_leb_trans (x y z : float) :
  Float.leb x y = true -> Float.leb y z = true -> Float.leb x z = true.
Proof.
  unfold Float.leb.
  destruct (Float.is_finite x) eqn:Fx, (Float.is_finite y) eqn:Fy,
    (Float.is_finite z) eqn:Fz.
  - rewrite !float_compare_finite by assumption.
    destruct (Qcompare_spec (Float.to_Q x) (Float.to_Q y)) as [Hxy | Hxy | Hxy];
      try discriminate;
      destruct (Qcompare_spec (Float.to_Q y) (Float.to_Q z)) as [Hyz | Hyz | Hyz];
      try discriminate; intros _ _;
      destruct (Qcompare_spec (Float.to_Q x) (Float.to_Q z)) as [Hxz | Hxz | Hxz];
      try reflexivity; exfalso; lra.
  - destruct x as [| | |], y as [| | |], z as [[] | [] | |]; try discriminate;
      simpl; intros; try discriminate; try reflexivity.
  - destruct x as [| | |], y as [| [] | |], z as [| | |]; try discriminate;
      simpl; intros; try discriminate; try reflexivity.
  - destruct x as [| | |], y as [| [] | |], z as [| [] | |]; try discriminate;
      simpl; intros; try discriminate; try reflexivity.
  - destruct x as [| [] | |], y as [| | |], z as [| | |]; try discriminate;
      simpl; intros; try discriminate; try reflexivity.
  - destruct x as [| [] | |], y as [| | |], z as [| [] | |]; try discriminate;
      simpl; intros; try discriminate; try reflexivity.
  - destruct x as [| [] | |], y as [| [] | |], z as [| | |]; try discriminate;
      simpl; intros; try discriminate; try reflexivity.
  - destruct x as [| [] | |], y as [| [] | |], z as [| [] | |]; try discriminate;
      simpl; intros; try discriminate; try reflexivity.
Qed.

(** A score that passes a threshold passes every lower threshold. *)
Lemma geb_of_int_mono (x : float) (a b : Z) :
  Float.leb (Float.of_int a) (Float.of_int b) = true ->
  Float.geb x (Float.of_int b) = true -> Float.geb x (Float.of_int a) = true.
Proof. unfold Float.geb. intros Hab Hb. exact (float_leb_trans _ _ _ Hab Hb). Qed.

(** ** Claims on the risk and confidence tiers *)

(** C5.  The risk tier is the threshold lookup of the profile on the
    overall score the aggregation computed: in the 3-category profile
    [>= 80] gives LOW, else [>= 60] MEDIUM, else [>= 40] HIGH, else
    CRITICAL; in the 5-category profile [>= 75] gives low, else
    [>= 50] medium, else high. *)
Theorem risk_tier_is_threshold_lookup
  (off_chain_score on_chain_score ai_score : number)
  (now : datetime)
  (category_results : RealtimeScorer.category -> option RealtimeScorer.category_result) :
  let overall := TrustScorer.weighted_score off_chain_score on_chain_score ai_score in
  let tier :=
    TrustScorer.risk_level
      (TrustScorer.calculate_final_score off_chain_score on_chain_score ai_score) in
  let final := RealtimeScorer.final_score category_results in
  let level :=
    RealtimeScorer.risk_level (RealtimeScorer.calculate_final_score now category_results) in
  ((Float.geb overall (Float.of_int 80) = true -> tier = "LOW"%string)
   /\ (Float.geb overall (Float.of_int 80) = false ->
       Float.geb overall (Float.of_int 60) = true -> tier = "MEDIUM"%string)
   /\ (Float.geb overall (Float.of_int 60) = false ->
       Float.geb overall (Float.of_int 40) = true -> tier = "HIGH"%string)
   /\ (Float.geb overall (Float.of_int 40) = false -> tier = "CRITICAL"%string))
  /\ ((Float.geb final (Float.of_int 75) = true -> level = "low"%string)
      /\ (Float.geb final (Float.of_int 75) = false ->
          Float.geb final (Float.of_int 50) = true -> level = "medium"%string)
      /\ (Float.geb final (Float.of_int 50) = false -> level = "high"%string)).
Proof.
  cbv zeta. split.
  - unfold TrustScorer.calculate_final_score.
    set (overall := TrustScorer.weighted_score off_chain_score on_chain_score ai_score).
    assert (H86 : Float.geb overall (Float.of_int 80) = true ->
                  Float.geb overall (Float.of_int 60) = true)
      by (apply geb_of_int_mono; vm_compute; reflexivity).
    assert (H64 : Float.geb overall (Float.of_int 60) = true ->
                  Float.geb overall (Float.of_int 40) = true)
      by (apply geb_of_int_mono; vm_compute; reflexivity).
    destruct (Float.geb overall (Float.of_int 80)) eqn:H80;
      destruct (Float.geb overall (Float.of_int 60)) eqn:H60;
      destruct (Float.geb overall (Float.of_int 40)) eqn:H40;
      cbn [TrustScorer.risk_level];
      try (discriminate (H86 eq_refl)); try (discriminate (H64 eq_refl));
      repeat split; intros; try discriminate; reflexivity.
  - unfold RealtimeScorer.calculate_final_score.
    set (final := RealtimeScorer.final_score category_results).
    assert (H75_50 : Float.geb final (Float.of_int 75) = true ->
                     Float.geb final (Float.of_int 50) = true)
      by (apply geb_of_int_mono; vm_compute; reflexivity).
    destruct (Float.geb final (Float.of_int 75)) eqn:H75;
      destruct (Float.geb final (Float.of_int 50)) eqn:H50;
      cbn [RealtimeScorer.risk_level];
      try (discriminate (H75_50 eq_refl));
      repeat split; intros; try discriminate; reflexivity.
Qed.

Lemma risk_tier_is_threshold_lookup_witness :
  Float.geb (TrustScorer.weighted_score (Int 90) (Int 85) (Int 88)) (Float.of_int 80) = true
  /\ TrustScorer.risk_level (TrustScorer.calculate_final_score (Int 90) (Int 85) (Int 88))
     = "LOW"%string
  /\ Float.geb (RealtimeScorer.final_score RealtimeScorer.gap_scores) (Float.of_int 75)
     = false
  /\ Float.geb (RealtimeScorer.final_score RealtimeScorer.gap_scores) (Float.of_int 50)
     = true
  /\ RealtimeScorer.risk_level
       (RealtimeScorer.calculate_final_score alice_now RealtimeScorer.gap_scores)
     = "medium"%string.
Proof.
  assert (H80 : Float.geb (TrustScorer.weighted_score (Int 90) (Int 85) (Int 88))
                          (Float.of_int 80) = true) by (vm_compute; reflexivity).
  assert (H75 : Float.geb (RealtimeScorer.final_score RealtimeScorer.gap_scores)
                          (Float.of_int 75) = false) by (vm_compute; reflexivity).
  assert (H50 : Float.geb (RealtimeScorer.final_score RealtimeScorer.gap_scores)
                          (Float.of_int 50) = true) by (vm_compute; reflexivity).
  pose proof (risk_tier_is_threshold_lookup (Int 90) (Int 85) (Int 88) alice_now
                                            RealtimeScorer.gap_scores) as H.
  cbv zeta in H. destruct H as [[HA _] [_ [HB _]]].
  split; [exact H80 | split; [exact (HA H80) |]].
  split; [exact H75 | split; [exact H50 | exact (HB H75 H50)]].
Defined.

Lemma float_ltb_leb_trans (x y z : float) :
  Float.ltb x y = true -> Float.leb y z = true -> Float.ltb x z = true.
Proof.
  unfold Float.leb, Float.ltb.
  destruct (Float.is_finite x) eqn:Fx, (Float.is_finite y) eqn:Fy,
    (Float.is_finite z) eqn:Fz.
  - rewrite !float_compare_finite by assumption.
    destruct (Qcompare_spec (Float.to_Q x) (Float.to_Q y)) as [Hxy | Hxy | Hxy];
      try discriminate;
      destruct (Qcompare_spec (Float.to_Q y) (Float.to_Q z)) as [Hyz | Hyz | Hyz];
      try discriminate; intros _ _;
      destruct (Qcompare_spec (Float.to_Q x) (Float.to_Q z)) as [Hxz | Hxz | Hxz];
      try reflexivity; exfalso; lra.
  - destruct x as [| | |], y as [| | |], z as [[] | [] | |]; try discriminate;
      simpl; intros; try discriminate; try reflexivity.
  - destruct x as [| | |], y as [| [] | |], z as [| | |]; try discriminate;
      simpl; intros; try discriminate; try reflexivity.
  - destruct x as [| | |], y as [| [] | |], z as [| [] | |]; try discriminate;
      simpl; intros; try discriminate; try reflexivity.
  - destruct x as [| [] | |], y as [| | |], z as [| | |]; try discriminate;
      simpl; intros; try discriminate; try reflexivity.
  - destruct x as [| [] | |], y as [| | |], z as [| [] | |]; try discriminate;
      simpl; intros; try discriminate; try reflexivity.
  - destruct x as [| [] | |], y as [| [] | |], z as [| | |]; try discriminate;
      simpl; intros; try discriminate; try reflexivity.
  - destruct x as [| [] | |], y as [| [] | |], z as [| [] | |]; try discriminate;
      simpl; intros; try discriminate; try reflexivity.
Qed.

(** The scenario of the specification, evaluated. *)
Lemma scenario_90_85_88 :
  let r := TrustScorer.calculate_final_score (Int 90) (Int 85) (Int 88) in
  TrustScorer.weighted_score (Int 90) (Int 85) (Int 88) = Float.decimal 876 1
  /\ TrustScorer.overall_score r = Float.decimal 876 1
  /\ TrustScorer.confidence r = "HIGH"%string
  /\ TrustScorer.risk_level r = "LOW"%string.
Proof. vm_compute. repeat split; reflexivity. Qed.

(** Scores for which the three readings of the variance give three
    different tiers. *)
Lemma scenario_50_50_71 :
  TrustScorer.confidence (TrustScorer.calculate_final_score (Int 50) (Int 50) (Int 71))
  = "MEDIUM"%string
  /\ Float.ltb (TrustScorer.variance_about_mean [Int 50; Int 50; Int 71])
               (Float.of_int 100) = true
  /\ Float.ltb (TrustScorer.variance_of_weighted (Int 50) (Int 50) (Int 71))
               (Float.of_int 400) = false.
Proof. vm_compute. repeat split; reflexivity. Qed.




(** ** Fraud likelihood *)

(** The three additive contributions. *)
Lemma calculate_fraud_likelihood_sum (results : TrustScorer.analysis_results) :
  TrustScorer._calculate_fraud_likelihood results =
  Z.min
    ((if Number.ltb (TrustScorer.get_score (TrustScorer.off_chain_analysis results))
                    (Int 30) then 30 else 0)
     + (if Number.ltb (TrustScorer.get_score (TrustScorer.on_chain_analysis results))
                      (Int 20) then 40 else 0)
     + (if Number.ltb (TrustScorer.get_score (TrustScorer.code_analysis results))
                      (Int 20) then 30 else 0))
    100.
Proof.
  unfold TrustScorer._calculate_fraud_likelihood. cbv zeta.
  destruct (Number.ltb _ (Int 30)), (Number.ltb _ (Int 20)), (Number.ltb _ (Int 20));
    reflexivity.
Qed.

(** C7.  The fraud likelihood is the sum of three independent
    contributions, 30 when the documents score is below 30, 40 when the
    on-chain score is below 20 and 30 when the code score is below 20,
    clamped to 100; it never exceeds 100; and it does not decrease when
    each of the three scores decreases or stays. *)
Theorem fraud_likelihood_additive_and_monotone
  (results results' : TrustScorer.analysis_results) :
  let docs r := TrustScorer.get_score (TrustScorer.off_chain_analysis r) in
  let chain r := TrustScorer.get_score (TrustScorer.on_chain_analysis r) in
  let code r := TrustScorer.get_score (TrustScorer.code_analysis r) in
  Number.leb (docs results') (docs results) = true ->
  Number.leb (chain results') (chain results) = true ->
  Number.leb (code results') (code results) = true ->
  TrustScorer._calculate_fraud_likelihood results =
    Z.min ((if Number.ltb (docs results) (Int 30) then 30 else 0)
           + (if Number.ltb (chain results) (Int 20) then 40 else 0)
           + (if Number.ltb (code results) (Int 20) then 30 else 0)) 100
  /\ 0 <= TrustScorer._calculate_fraud_likelihood results <= 100
  /\ TrustScorer._calculate_fraud_likelihood results
     <= TrustScorer._calculate_fraud_likelihood results'.
Proof.
  cbv zeta. intros Hd Hc Hk.
  rewrite !calculate_fraud_likelihood_sum.
  pose proof (fun c => number_leb_ltb_trans _ _ c Hd) as Td.
  pose proof (fun c => number_leb_ltb_trans _ _ c Hc) as Tc.
  pose proof (fun c => number_leb_ltb_trans _ _ c Hk) as Tk.
  specialize (Td (Int 30)). specialize (Tc (Int 20)). specialize (Tk (Int 20)).
  destruct (Number.ltb (TrustScorer.get_score (TrustScorer.off_chain_analysis results))
                       (Int 30));
    [rewrite (Td eq_refl) |
     destruct (Number.ltb (TrustScorer.get_score (TrustScorer.off_chain_analysis results'))
                          (Int 30))];
    (destruct (Number.ltb (TrustScorer.get_score (TrustScorer.on_chain_analysis results))
                          (Int 20));
     [rewrite (Tc eq_refl) |
      destruct (Number.ltb (TrustScorer.get_score (TrustScorer.on_chain_analysis results'))
                           (Int 20))]);
    (destruct (Number.ltb (TrustScorer.get_score (TrustScorer.code_analysis results))
                          (Int 20));
     [rewrite (Tk eq_refl) |
      destruct (Number.ltb (TrustScorer.get_score (TrustScorer.code_analysis results'))
                           (Int 20))]);
    lia.
Qed.

Lemma fraud_likelihood_additive_and_monotone_witness :
  let docs r := TrustScorer.get_score (TrustScorer.off_chain_analysis r) in
  let chain r := TrustScorer.get_score (TrustScorer.on_chain_analysis r) in
  let code r := TrustScorer.get_score (TrustScorer.code_analysis r) in
  Number.leb (docs TrustScorer.weaker_documents) (docs TrustScorer.weak_documents) = true
  /\ Number.leb (chain TrustScorer.weaker_documents) (chain TrustScorer.weak_documents) = true
  /\ Number.leb (code TrustScorer.weaker_documents) (code TrustScorer.weak_documents) = true
  /\ TrustScorer._calculate_fraud_likelihood TrustScorer.weak_documents = 70
  /\ TrustScorer._calculate_fraud_likelihood TrustScorer.weaker_documents = 100
  /\ TrustScorer._calculate_fraud_likelihood TrustScorer.weak_documents
     <= TrustScorer._calculate_fraud_likelihood TrustScorer.weaker_documents.
Proof.
  cbv zeta.
  assert (H1 : Number.leb
            (TrustScorer.get_score (TrustScorer.off_chain_analysis TrustScorer.weaker_documents))
            (TrustScorer.get_score (TrustScorer.off_chain_analysis TrustScorer.weak_documents))
            = true) by (vm_compute; reflexivity).
  assert (H2 : Number.leb
            (TrustScorer.get_score (TrustScorer.on_chain_analysis TrustScorer.weaker_documents))
            (TrustScorer.get_score (TrustScorer.on_chain_analysis TrustScorer.weak_documents))
            = true) by (vm_compute; reflexivity).
  assert (H3 : Number.leb
            (TrustScorer.get_score (TrustScorer.code_analysis TrustScorer.weaker_documents))
            (TrustScorer.get_score (TrustScorer.code_analysis TrustScorer.weak_documents))
            = true) by (vm_compute; reflexivity).
  split; [exact H1 | split; [exact H2 | split; [exact H3 |]]].
  split; [vm_compute; reflexivity | split; [vm_compute; reflexivity |]].
  exact (proj2 (proj2 (fraud_likelihood_additive_and_monotone
                         TrustScorer.weak_documents TrustScorer.weaker_documents H1 H2 H3))).
Defined.

(** ** Defaults of the category scorers *)

(** C8 (as amended).  On missing data the GitHub, social and on-chain
    scorers return the neutral default, score 0.5 and confidence 0.3;
    the media scorer returns its own default, score 0.7 and confidence
    0.5; the governance scorer has no default and returns score 0.0 and
    confidence 0.0. *)
Theorem missing_data_defaults :
  let neutral (r : RealtimeScorer.category_result) :=
    RealtimeScorer.score r = Float.decimal 5 1
    /\ RealtimeScorer.confidence r = Float.decimal 3 1 in
  neutral (RealtimeScorer.analyze_github_realtime None)
  /\ (forall data : RealtimeScorer.github_data,
        RealtimeScorer.github_success data = false ->
        neutral (RealtimeScorer.analyze_github_realtime (Some data)))
  /\ neutral (RealtimeScorer.analyze_social_realtime None)
  /\ neutral (RealtimeScorer.analyze_onchain_realtime None)
  /\ (RealtimeScorer.score (RealtimeScorer.analyze_media_realtime None)
        = Float.decimal 7 1
      /\ RealtimeScorer.confidence (RealtimeScorer.analyze_media_realtime None)
        = Float.decimal 5 1)
  /\ (RealtimeScorer.analyze_media_realtime (Some (RealtimeScorer.mk_media []))
      = RealtimeScorer.analyze_media_realtime None)
  /\ (RealtimeScorer.score (RealtimeScorer.analyze_governance_realtime None None)
        = Float.decimal 0 1
      /\ RealtimeScorer.confidence (RealtimeScorer.analyze_governance_realtime None None)
        = Float.decimal 0 1).
Proof.
  cbv zeta. repeat split; try reflexivity;
    unfold RealtimeScorer.analyze_github_realtime;
    match goal with H : RealtimeScorer.github_success _ = false |- _ => rewrite H end;
    reflexivity.
Qed.

Lemma missing_data_defaults_witness :
  let data :=
    RealtimeScorer.mk_github false
      (RealtimeScorer.mk_repo (Some 5000) (Some 900) (Some 12) None None None None) in
  RealtimeScorer.github_success data = false
  /\ RealtimeScorer.score (RealtimeScorer.analyze_github_realtime (Some data))
     = Float.decimal 5 1
  /\ RealtimeScorer.confidence (RealtimeScorer.analyze_github_realtime (Some data))
     = Float.decimal 3 1.
Proof.
  cbv zeta. pose proof missing_data_defaults as H. cbv zeta in H.
  destruct H as (_ & H & _).
  split; [reflexivity |].
  exact (H (RealtimeScorer.mk_github false
              (RealtimeScorer.mk_repo (Some 5000) (Some 900) (Some 12) None None None None))
           eq_refl).
Defined.

(** C8 as stated fails: without media data the media scorer does not
    return score 0.5 and confidence 0.3, and without founder and
    governance data the governance scorer returns zeros. *)
Lemma media_default_is_not_neutral :
  ~ (RealtimeScorer.score (RealtimeScorer.analyze_media_realtime None) = Float.decimal 5 1
     /\ RealtimeScorer.confidence (RealtimeScorer.analyze_media_realtime None)
        = Float.decimal 3 1)
  /\ ~ (RealtimeScorer.score (RealtimeScorer.analyze_governance_realtime None None)
          = Float.decimal 5 1
        /\ RealtimeScorer.confidence (RealtimeScorer.analyze_governance_realtime None None)
          = Float.decimal 3 1).
Proof.
  split; intros [H _]; vm_compute in H; discriminate H.
Qed.

(** * Rounding errors of the score arithmetic *)

(** ** Exact values of floats *)

Lemma Qpower2_pos (e : Z) : (0 < 2 ^ e)%Q.
Proof. apply Qpower_0_lt. reflexivity. Qed.

Lemma Qpower2_add (a b : Z) : (2 ^ (a + b) == 2 ^ a * 2 ^ b)%Q.
Proof. apply Qpower_plus. discriminate. Qed.

Lemma Qpower2_le (a b : Z) : a <= b -> (2 ^ a <= 2 ^ b)%Q.
Proof. intros H. apply Qpower_le_compat_l; [assumption | discriminate]. Qed.

Lemma inject_Z_pow2 (n : Z) : 0 <= n -> (inject_Z (2 ^ n) == 2 ^ n)%Q.
Proof. intros H. apply (Zpower_Qpower 2 n H). Qed.

Lemma to_Q_finite (s : bool) (m : positive) (e : Z) :
  (Float.to_Q (S754_finite s m e) == inject_Z (cond_Zopp s (Zpos m)) * 2 ^ e)%Q.
Proof.
  destruct e as [| p | p]; unfold Float.to_Q.
  - change (2 ^ 0)%Q with 1%Q. ring.
  - rewrite inject_Z_mult, inject_Z_pow2 by lia. reflexivity.
  - rewrite Qmake_Qdiv. unfold Qdiv. apply Qmult_comp; [reflexivity |].
    change (2 ^ Zneg p)%Q with (/ (2 ^ Zpos p))%Q.
    apply Qinv_comp. rewrite Pos2Z.inj_pow. apply inject_Z_pow2. lia.
Qed.

Lemma to_Q_of_mantissa (s : bool) (m e : Z) :
  0 <= m ->
  (Float.to_Q (Float.of_mantissa s m e) == inject_Z (cond_Zopp s m) * 2 ^ e)%Q.
Proof.
  intros Hm. destruct m as [| p | p]; [| apply to_Q_finite | lia].
  unfold Float.of_mantissa, Float.to_Q.
  destruct s; simpl cond_Zopp; change (inject_Z 0) with 0%Q; rewrite Qmult_0_l;
    reflexivity.
Qed.

Lemma inject_Z_cond_Zopp (s : bool) (m : Z) :
  (inject_Z (cond_Zopp s m) == (if s then -1 else 1) * inject_Z m)%Q.
Proof. destruct s; simpl; [rewrite inject_Z_opp |]; ring. Qed.

(** The rounding error of [binary_round_aux] on an exact input [mx * 2^ex]
    below [2^B]. *)
Lemma binary_round_aux_error (s : bool) (mx ex B : Z) :
  0 <= mx -> ex <= 971 -> Zdigits2 mx + ex <= B -> -1022 <= B <= 1023 ->
  (Qabs (Float.to_Q (binary_round_aux Float.prec Float.emax s mx ex loc_Exact)
         - inject_Z (cond_Zopp s mx) * 2 ^ ex) <= 2 ^ (B - 51))%Q.
Proof.
  intros Hmx Hex HD HB.
  destruct (binary_round_aux_spec s mx ex loc_Exact Hmx Hex ltac:(lia))
    as (m & e & Hm & -> & He & He' & Hd & Hacc & Hexact).
  rewrite to_Q_of_mantissa by assumption.
  rewrite !inject_Z_cond_Zopp.
  destruct (Z.eq_dec e ex) as [-> | Hne].
  - rewrite (Hexact eq_refl eq_refl).
    assert (E : ((if s then -1 else 1) * inject_Z mx * 2 ^ ex
                 - (if s then -1 else 1) * inject_Z mx * 2 ^ ex == 0)%Q) by ring.
    rewrite E. change (Qabs 0) with 0%Q. apply Qlt_le_weak, Qpower2_pos.
  - assert (He1 : e + 1 <= B - 51) by lia.
    assert (Hpe : (2 ^ e == 2 ^ (e - ex) * 2 ^ ex)%Q)
      by (rewrite <- Qpower2_add; replace (e - ex + ex) with e by lia; reflexivity).
    assert (E : ((if s then -1 else 1) * inject_Z m * 2 ^ e
                 - (if s then -1 else 1) * inject_Z mx * 2 ^ ex
                 == (if s then -1 else 1) * (inject_Z (m * 2 ^ (e - ex) - mx) * 2 ^ ex))%Q).
    { unfold Z.sub at 1. rewrite inject_Z_plus, inject_Z_mult, inject_Z_opp.
      rewrite inject_Z_pow2 by lia. rewrite Hpe. ring. }
    rewrite E, Qabs_Qmult, Qabs_Qmult.
    assert (Hs : (Qabs (if s then -1 else 1) == 1)%Q) by (destruct s; reflexivity).
    rewrite Hs, Qmult_1_l.
    rewrite (Qabs_pos (2 ^ ex)) by (apply Qlt_le_weak, Qpower2_pos).
    apply Qle_trans with (2 ^ (e + 1))%Q; [| apply Qpower2_le; lia].
    replace (e + 1) with ((e - ex + 1) + ex) by lia. rewrite Qpower2_add.
    apply Qmult_le_compat_r; [| apply Qlt_le_weak, Qpower2_pos].
    rewrite <- inject_Z_pow2 by lia.
    apply Qabs_Qle_condition. rewrite <- inject_Z_opp, <- !Zle_Qle. lia.
Qed.

Lemma shl_align_spec (mx : positive) (ex ex' : Z) :
  snd (shl_align mx ex ex') = Z.min ex ex'
  /\ Zpos (fst (shl_align mx ex ex')) = Zpos mx * 2 ^ (ex - Z.min ex ex').
Proof.
  unfold shl_align. destruct (ex' - ex) as [| d | d] eqn:Hd; simpl.
  - replace (Z.min ex ex') with ex by lia. rewrite Z.sub_diag. lia.
  - replace (Z.min ex ex') with ex by lia. rewrite Z.sub_diag. lia.
  - replace (Z.min ex ex') with ex' by lia. split; [reflexivity |].
    rewrite (Pos.iter_swap_gen _ _ Zpos xO (Z.mul 2)) by reflexivity.
    change (Pos.iter (Z.mul 2) (Zpos mx) d) with (Z.shiftl (Zpos mx) (Zpos d)).
    rewrite Z.shiftl_mul_pow2 by lia. f_equal. f_equal. lia.
Qed.

Lemma Zdigits2_shift_le (m k d : Z) :
  0 <= m -> 0 <= k -> Zdigits2 m <= d -> Zdigits2 (m * 2 ^ k) <= d + k.
Proof.
  intros Hm Hk Hd. pose proof (Zdigits2_nonneg m).
  assert (0 < 2 ^ k) by (apply Z.pow_pos_nonneg; lia).
  apply Zdigits2_le_iff; [nia | lia |].
  assert (m < 2 ^ d) by (apply Zdigits2_le_iff; lia).
  rewrite Z.pow_add_r by lia. nia.
Qed.

Lemma binary_round_error (s : bool) (mx : positive) (ex B : Z) :
  ex <= 971 -> Zpos (digits2_pos mx) + ex <= B -> -1022 <= B -> B + 1 <= 971 ->
  (Qabs (Float.to_Q (binary_round Float.prec Float.emax s mx ex)
         - inject_Z (cond_Zopp s (Zpos mx)) * 2 ^ ex) <= 2 ^ (B - 51))%Q
  /\ Float.small (B + 1) (binary_round Float.prec Float.emax s mx ex).
Proof.
  intros Hex HD Hlo Hhi. unfold binary_round.
  pose proof (shl_align_spec mx ex (fexp Float.prec Float.emax (Zpos (digits2_pos mx) + ex)))
    as [He Hm].
  destruct (shl_align mx ex _) as [mz ez]. simpl fst in Hm. simpl snd in He.
  set (ez' := Z.min ex _) in *. assert (Hez : ez' <= ex) by (unfold ez'; lia).
  subst ez.
  assert (Hdz : Zdigits2 (Zpos mz) + ez' <= B).
  { rewrite Hm.
    pose proof (Zdigits2_shift_le (Zpos mx) (ex - ez') (Zpos (digits2_pos mx))
                  ltac:(lia) ltac:(lia) ltac:(simpl; lia)). lia. }
  split.
  - assert (E : (inject_Z (cond_Zopp s (Zpos mx)) * 2 ^ ex
                 == inject_Z (cond_Zopp s (Zpos mz)) * 2 ^ ez')%Q).
    { rewrite !inject_Z_cond_Zopp, Hm, inject_Z_mult, inject_Z_pow2 by lia.
      replace ex with ((ex - ez') + ez') at 1 by lia. rewrite Qpower2_add. ring. }
    rewrite E. apply binary_round_aux_error; lia.
  - apply binary_round_aux_small; lia.
Qed.

Lemma binary_normalize_error (m e B : Z) (szero : bool) :
  e <= 971 -> Zdigits2 m + e <= B -> -1022 <= B -> B + 1 <= 971 ->
  (Qabs (Float.to_Q (binary_normalize Float.prec Float.emax m e szero)
         - inject_Z m * 2 ^ e) <= 2 ^ (B - 51))%Q
  /\ Float.small (B + 1) (binary_normalize Float.prec Float.emax m e szero).
Proof.
  intros He HD Hlo Hhi. destruct m as [| p | p]; unfold binary_normalize.
  - split; [| exact I]. unfold Float.to_Q. change (inject_Z 0) with 0%Q.
    assert (E : (0 - 0 * 2 ^ e == 0)%Q) by ring. rewrite E.
    apply Qlt_le_weak, Qpower2_pos.
  - apply (binary_round_error false p e B); assumption.
  - apply (binary_round_error true p e B); assumption.
Qed.

Lemma small_of_int (n B : Z) :
  Zdigits2 n <= B -> -1022 <= B -> B + 1 <= 971 -> Float.small (B + 1) (Float.of_int n).
Proof.
  intros HD Hlo Hhi. apply (binary_normalize_error n 0 B false); lia.
Qed.

Lemma mul_error (Bx By : Z) (x y : float) :
  Float.small Bx x -> Float.small By y -> -1022 <= Bx + By <= 971 ->
  (Qabs (Float.to_Q (Float.mul x y) - Float.to_Q x * Float.to_Q y)
   <= 2 ^ (Bx + By - 51))%Q.
Proof.
  intros Hx Hy HB.
  assert (Hzero : forall q : Q, (q == 0)%Q -> (Qabs q <= 2 ^ (Bx + By - 51))%Q).
  { intros q ->. apply Qlt_le_weak, Qpower2_pos. }
  destruct x as [sx | sx | | sx mx ex], y as [sy | sy | | sy my ey];
    simpl in Hx, Hy; try tauto;
    try (apply Hzero; unfold Float.mul, SFmul, Float.to_Q; ring).
  destruct Hx as [Hdx Hex], Hy as [Hdy Hey].
  unfold Float.mul, SFmul.
  assert (E : (Float.to_Q (S754_finite sx mx ex) * Float.to_Q (S754_finite sy my ey)
               == inject_Z (cond_Zopp (xorb sx sy) (Zpos (mx * my))) * 2 ^ (ex + ey))%Q).
  { rewrite !to_Q_finite, !inject_Z_cond_Zopp, Pos2Z.inj_mul, inject_Z_mult, Qpower2_add.
    destruct sx, sy; simpl xorb; cbv iota; ring. }
  rewrite E. apply binary_round_aux_error; try lia.
  pose proof (Zdigits2_mul_le (Zpos mx) (Zpos my) ltac:(lia) ltac:(lia)) as H.
  simpl in H. simpl Zdigits2. lia.
Qed.

Lemma Zdigits2_abs (m : Z) : Zdigits2 m = Zdigits2 (Z.abs m).
Proof. destruct m; reflexivity. Qed.

Lemma add_error (B : Z) (x y : float) :
  Float.small B x -> Float.small B y -> -1023 <= B -> B + 2 <= 971 ->
  (Qabs (Float.to_Q (Float.add x y) - (Float.to_Q x + Float.to_Q y)) <= 2 ^ (B - 50))%Q
  /\ Float.small (B + 2) (Float.add x y).
Proof.
  intros Hx Hy Hlo Hhi.
  assert (Hzero : forall q : Q, (q == 0)%Q -> (Qabs q <= 2 ^ (B - 50))%Q).
  { intros q ->. apply Qlt_le_weak, Qpower2_pos. }
  destruct x as [sx | sx | | sx mx ex], y as [sy | sy | | sy my ey];
    simpl in Hx, Hy; try tauto.
  - split; [apply Hzero; destruct sx, sy; unfold Float.add, SFadd, Float.to_Q; ring |].
    destruct sx, sy; exact I.
  - split; [apply Hzero; unfold Float.add, SFadd; rewrite to_Q_finite;
            unfold Float.to_Q; ring |].
    simpl. lia.
  - split; [apply Hzero; unfold Float.add, SFadd; rewrite to_Q_finite;
            unfold Float.to_Q; ring |].
    simpl. lia.
  - destruct Hx as [Hdx Hex], Hy as [Hdy Hey].
    unfold Float.add, SFadd.
    set (ez := Z.min ex ey).
    pose proof (shl_align_spec mx ex ez) as [_ HX].
    pose proof (shl_align_spec my ey ez) as [_ HY].
    replace (Z.min ex ez) with ez in HX by (unfold ez; lia).
    replace (Z.min ey ez) with ez in HY by (unfold ez; lia).
    set (X := Zpos (fst (shl_align mx ex ez))) in *.
    set (Y := Zpos (fst (shl_align my ey ez))) in *.
    assert (Hez : ez <= ex /\ ez <= ey) by (unfold ez; lia).
    assert (HXlt : X < 2 ^ (B - ez)).
    { apply Zdigits2_le_iff; [lia | lia |]. rewrite HX.
      pose proof (Zdigits2_shift_le (Zpos mx) (ex - ez) (Zpos (digits2_pos mx))
                    ltac:(lia) ltac:(lia) ltac:(simpl; lia)). lia. }
    assert (HYlt : Y < 2 ^ (B - ez)).
    { apply Zdigits2_le_iff; [lia | lia |]. rewrite HY.
      pose proof (Zdigits2_shift_le (Zpos my) (ey - ez) (Zpos (digits2_pos my))
                    ltac:(lia) ltac:(lia) ltac:(simpl; lia)). lia. }
    set (M := cond_Zopp sx X + cond_Zopp sy Y).
    assert (HM : Zdigits2 M + ez <= B + 1).
    { rewrite Zdigits2_abs.
      assert (Zdigits2 (Z.abs M) <= B - ez + 1); [| lia].
      apply Zdigits2_le_iff; [lia | lia |].
      rewrite Z.pow_add_r by lia. change (2 ^ 1) with 2.
      unfold M. destruct sx, sy; simpl cond_Zopp; lia. }
    assert (E : (Float.to_Q (S754_finite sx mx ex) + Float.to_Q (S754_finite sy my ey)
                 == inject_Z M * 2 ^ ez)%Q).
    { rewrite !to_Q_finite. unfold M.
      rewrite inject_Z_plus, !inject_Z_cond_Zopp.
      assert (E1 : (inject_Z (Zpos mx) * 2 ^ ex == inject_Z X * 2 ^ ez)%Q).
      { rewrite HX, inject_Z_mult, inject_Z_pow2 by lia.
        replace ex with ((ex - ez) + ez) at 1 by lia. rewrite Qpower2_add. ring. }
      assert (E2 : (inject_Z (Zpos my) * 2 ^ ey == inject_Z Y * 2 ^ ez)%Q).
      { rewrite HY, inject_Z_mult, inject_Z_pow2 by lia.
        replace ey with ((ey - ez) + ez) at 1 by lia. rewrite Qpower2_add. ring. }
      rewrite <- !Qmult_assoc, E1, E2. ring. }
    rewrite E.
    replace (B - 50) with ((B + 1) - 51) by lia.
    replace (B + 2) with ((B + 1) + 1) by lia.
    apply binary_normalize_error; lia.
Qed.

(** ** Rounding to decimal places *)

Lemma rne_div_error (a b : Z) : 0 < b -> 2 * Z.abs (Float.rne_div a b * b - a) <= b.
Proof.
  intros Hb. unfold Float.rne_div.
  pose proof (Z.div_mod a b ltac:(lia)) as Hdm.
  pose proof (Z.mod_pos_bound a b Hb) as Hr.
  destruct (Z.compare_spec (2 * (a mod b)) b) as [Heq | Hlt | Hgt];
    [destruct (Z.even (a / b)) | |]; nia.
Qed.

Lemma round_units_error (x : float) (n : Z) :
  0 <= n -> Float.is_finite x = true ->
  (Qabs (inject_Z (Float.round_units x n) - inject_Z (10 ^ n) * Float.to_Q x) <= 1 # 2)%Q.
Proof.
  intros Hn Hx.
  assert (Hzero : forall q : Q, (q == 0)%Q -> (Qabs q <= 1 # 2)%Q)
    by (intros q ->; discriminate).
  destruct x as [s | s | | s m e]; try discriminate Hx.
  - apply Hzero. unfold Float.round_units, Float.to_Q. change (inject_Z 0) with 0%Q. ring.
  - rewrite to_Q_finite. unfold Float.round_units.
    destruct e as [| p | p]; unfold Float.scaled_abs.
    + apply Hzero. rewrite !inject_Z_cond_Zopp, inject_Z_mult.
      change (2 ^ 0)%Q with 1%Q. ring.
    + apply Hzero. rewrite !inject_Z_cond_Zopp, !inject_Z_mult, inject_Z_pow2 by lia.
      ring.
    + set (b := 2 ^ Zpos p). assert (Hb : 0 < b) by (apply Z.pow_pos_nonneg; lia).
      set (k := Float.rne_div (Zpos m * 10 ^ n) b).
      pose proof (rne_div_error (Zpos m * 10 ^ n) b Hb) as Hk. fold k in Hk.
      assert (Hinv : (inject_Z b * 2 ^ Zneg p == 1)%Q).
      { unfold b. rewrite inject_Z_pow2 by lia. rewrite <- Qpower2_add.
        replace (Zpos p + Zneg p) with 0 by lia. reflexivity. }
      assert (E : (inject_Z (cond_Zopp s k)
                   - inject_Z (10 ^ n) * (inject_Z (cond_Zopp s (Zpos m)) * 2 ^ Zneg p)
                   == (if s then -1 else 1)
                      * (inject_Z (k * b - Zpos m * 10 ^ n) * 2 ^ Zneg p))%Q).
      { rewrite !inject_Z_cond_Zopp. unfold Z.sub.
        rewrite inject_Z_plus, inject_Z_opp, !inject_Z_mult.
        assert (E1 : (inject_Z k == inject_Z k * (inject_Z b * 2 ^ Zneg p))%Q)
          by (rewrite Hinv; ring).
        rewrite E1 at 1. ring. }
      rewrite E, !Qabs_Qmult.
      assert (Hs : (Qabs (if s then -1 else 1) == 1)%Q) by (destruct s; reflexivity).
      rewrite Hs, Qmult_1_l.
      rewrite (Qabs_pos (2 ^ Zneg p)) by (apply Qlt_le_weak, Qpower2_pos).
      apply Qle_trans with ((inject_Z b * (1 # 2)) * 2 ^ Zneg p)%Q.
      * apply Qmult_le_compat_r; [| apply Qlt_le_weak, Qpower2_pos].
        apply Qabs_Qle_condition.
        assert (Hhalf : forall z : Z, 2 * Z.abs z <= b ->
                  (- (inject_Z b * (1 # 2)) <= inject_Z z <= inject_Z b * (1 # 2))%Q).
        { intros z Hz. unfold Qle, Qopp, Qmult, inject_Z. simpl. lia. }
        apply Hhalf. exact Hk.
      * assert (E2 : (inject_Z b * (1 # 2) * 2 ^ Zneg p
                      == (1 # 2) * (inject_Z b * 2 ^ Zneg p))%Q) by ring.
        rewrite E2, Hinv. discriminate.
Qed.

Lemma round_denotes (x : float) (n : Z) :
  0 <= n -> Float.is_finite x = true ->
  Float.denotes (Float.round x n) (Float.round_units x n) n.
Proof.
  intros Hn Hx.
  assert (Hzero : forall s, Float.denotes (S754_zero s) 0 n).
  { intros [|]; [right; split; reflexivity | left].
    unfold Float.decimal, Float.truediv.
    assert (0 < 10 ^ n) by (apply Z.pow_pos_nonneg; lia).
    destruct (10 ^ n); try lia. reflexivity. }
  destruct x as [s | s | | s m e]; try discriminate Hx.
  - apply Hzero.
  - unfold Float.round, Float.round_units.
    destruct (Float.scaled_abs (S754_finite s m e) n) as [| k | k].
    + destruct s; apply Hzero.
    + left. reflexivity.
    + left. reflexivity.
Qed.

(** ** Scores in their documented range are small *)

Lemma small_is_finite (B : Z) (x : float) : Float.small B x -> Float.is_finite x = true.
Proof. destruct x; simpl; intros; try reflexivity; tauto. Qed.

Lemma small_of_bounds (x : float) (B : Z) :
  0 <= B ->
  Float.leb (S754_zero false) x = true -> Float.leb x (Float.of_mantissa false 1 B) = true ->
  Float.small (B + 1) x.
Proof.
  intros HB Hlo Hhi.
  destruct x as [s | s | | s m e]; try exact I.
  - destruct s; discriminate.
  - discriminate.
  - unfold Float.leb in Hlo, Hhi.
    rewrite float_compare_finite in Hlo, Hhi by reflexivity.
    assert (H0 : (0 <= Float.to_Q (S754_finite s m e))%Q).
    { destruct (Qcompare_spec (Float.to_Q (S754_zero false)) (Float.to_Q (S754_finite s m e)))
        as [H | H | H]; try discriminate; unfold Float.to_Q at 1 in H;
        [rewrite <- H; apply Qle_refl | apply Qlt_le_weak; assumption]. }
    assert (H1 : (Float.to_Q (S754_finite s m e) <= 2 ^ B)%Q).
    { destruct (Qcompare_spec (Float.to_Q (S754_finite s m e))
                              (Float.to_Q (Float.of_mantissa false 1 B)))
        as [H | H | H]; try discriminate;
        rewrite to_Q_of_mantissa in H by lia; simpl cond_Zopp in H;
        change (inject_Z 1) with 1%Q in H; rewrite Qmult_1_l in H;
        [rewrite H; apply Qle_refl | apply Qlt_le_weak; assumption]. }
    rewrite to_Q_finite, inject_Z_cond_Zopp in H0, H1.
    pose proof (Qpower2_pos e) as Hpe.
    assert (Hm1 : (1 <= inject_Z (Zpos m))%Q) by (rewrite <- (Zle_Qle 1); lia).
    destruct s.
    { exfalso. assert (0 < inject_Z (Zpos m) * 2 ^ e)%Q; [| lra].
      apply Qmult_lt_0_compat; [lra | assumption]. }
    rewrite Qmult_1_l in H1.
    assert (He : e <= B).
    { destruct (Z_le_gt_dec e B) as [| Hgt]; [assumption | exfalso].
      assert (2 ^ (B + 1) <= 2 ^ e)%Q by (apply Qpower2_le; lia).
      assert (E : (2 ^ (B + 1) == 2 * 2 ^ B)%Q)
        by (rewrite Qpower2_add; change (2 ^ 1)%Q with 2%Q; ring).
      pose proof (Qpower2_pos B).
      assert (1 * 2 ^ e <= inject_Z (Zpos m) * 2 ^ e)%Q
        by (apply Qmult_le_compat_r; [assumption | apply Qlt_le_weak; assumption]).
      lra. }
    simpl. split; [| lia].
    assert (Zdigits2 (Zpos m) <= B + 1 - e); [| simpl in *; lia].
    apply Zdigits2_le_iff; [lia | lia |].
    rewrite Zlt_Qlt. rewrite inject_Z_pow2 by lia.
    assert (E : (2 ^ (B + 1 - e) * 2 ^ e == 2 * 2 ^ B)%Q).
    { rewrite <- Qpower2_add. replace (B + 1 - e + e) with (1 + B) by lia.
      rewrite Qpower2_add. change (2 ^ 1)%Q with 2%Q. ring. }
    pose proof (Qpower2_pos B).
    assert (Hlt : (inject_Z (Zpos m) * 2 ^ e < 2 ^ (B + 1 - e) * 2 ^ e)%Q) by lra.
    apply Qmult_lt_r in Hlt; assumption.
Qed.

(** ** The round trip from the breakdown to the overall score *)

Lemma round_units_bounds (x : float) :
  Float.is_finite x = true ->
  (inject_Z (Float.round_units x 2) - (1 # 2) <= 100 * Float.to_Q x
   <= inject_Z (Float.round_units x 2) + (1 # 2))%Q.
Proof.
  intros Hx. pose proof (round_units_error x 2 ltac:(lia) Hx) as H.
  change (inject_Z (10 ^ 2)) with 100%Q in H.
  apply Qabs_Qle_condition in H. lra.
Qed.

Lemma Z_of_Q_bounds (z n : Z) :
  (inject_Z z < inject_Z n + 1)%Q -> (- inject_Z n - 1 < inject_Z z)%Q -> - n <= z <= n.
Proof.
  intros Hhi Hlo.
  assert (E1 : (inject_Z n + 1 == inject_Z (n + 1))%Q)
    by (rewrite inject_Z_plus; reflexivity).
  assert (E2 : (- inject_Z n - 1 == inject_Z (- n - 1))%Q)
    by (unfold Z.sub; rewrite inject_Z_plus, !inject_Z_opp; reflexivity).
  rewrite E1 in Hhi. rewrite E2 in Hlo.
  rewrite <- Zlt_Qlt in Hhi, Hlo. lia.
Qed.

Lemma in_range_small (v : number) :
  TrustScorer.in_range v = true -> Float.small 9 (Number.to_float v).
Proof.
  unfold TrustScorer.in_range, Number.leb. intros H. apply andb_prop in H as [Hlo Hhi].
  assert (Hs : Float.small 8 (Number.as_exact v)).
  { apply (small_of_bounds _ 7); [lia | exact Hlo |].
    eapply float_leb_trans; [exact Hhi | vm_compute; reflexivity]. }
  destruct v as [n | x]; [| simpl; eapply small_mono; [| exact Hs]; lia].
  simpl. apply (small_of_int n 8); try lia.
  destruct n; simpl in *; lia.
Qed.

Lemma in_unit_small (x : float) :
  RealtimeScorer.in_unit x = true -> Float.small 1 x.
Proof.
  unfold RealtimeScorer.in_unit. intros H. apply andb_prop in H as [Hlo Hhi].
  apply (small_of_bounds _ 0); [lia | exact Hlo |].
  eapply float_leb_trans; [exact Hhi | vm_compute; reflexivity].
Qed.

Lemma weight_small (k : Z) :
  In k [10; 20; 30; 40] -> Float.small (-1) (Float.decimal k 2).
Proof.
  intros [<- | [<- | [<- | [<- | []]]]]; vm_compute; split; discriminate.
Qed.

Lemma to_Q_of_int_100 : (Float.to_Q (Float.of_int 100) == 100)%Q.
Proof. vm_compute. reflexivity. Qed.

Lemma weighted_score_error (a b c : number) :
  TrustScorer.in_range a = true -> TrustScorer.in_range b = true ->
  TrustScorer.in_range c = true ->
  let p1 := TrustScorer.weighted a TrustScorer.weights_off_chain in
  let p2 := TrustScorer.weighted b TrustScorer.weights_on_chain in
  let p3 := TrustScorer.weighted c TrustScorer.weights_ai_analysis in
  Float.is_finite p1 = true /\ Float.is_finite p2 = true /\ Float.is_finite p3 = true
  /\ Float.is_finite (TrustScorer.weighted_score a b c) = true
  /\ (Qabs (Float.to_Q (TrustScorer.weighted_score a b c)
            - (Float.to_Q p1 + Float.to_Q p2 + Float.to_Q p3)) <= 2 ^ (-38))%Q.
Proof.
  intros Ha Hb Hc p1 p2 p3.
  assert (Hw : forall v k, TrustScorer.in_range v = true -> In k [10; 20; 30; 40] ->
                 Float.small 9 (TrustScorer.weighted v (Float.decimal k 2))).
  { intros v k Hv Hk. unfold TrustScorer.weighted.
    apply (mul_small 9 (-1)); [apply in_range_small, Hv | apply weight_small, Hk | lia]. }
  assert (H1 : Float.small 9 p1) by (apply Hw; [assumption | simpl; tauto]).
  assert (H2 : Float.small 9 p2) by (apply Hw; [assumption | simpl; tauto]).
  assert (H3 : Float.small 9 p3) by (apply Hw; [assumption | simpl; tauto]).
  destruct (add_error 9 p1 p2 H1 H2 ltac:(lia) ltac:(lia)) as [E12 S12].
  destruct (add_error 11 (Float.add p1 p2) p3 S12 (small_mono 9 11 _ ltac:(lia) H3)
              ltac:(lia) ltac:(lia)) as [E123 S123].
  change (Float.add (Float.add p1 p2) p3) with (TrustScorer.weighted_score a b c)
    in E123, S123.
  repeat split; try (eapply small_is_finite; eassumption).
  apply Qabs_Qle_condition in E12, E123. apply Qabs_Qle_condition.
  change (9 - 50) with (-41) in E12. change (11 - 50) with (-39) in E123.
  assert (P41 : (2 ^ (-41) + 2 ^ (-39) <= 2 ^ (-38))%Q) by (vm_compute; discriminate).
  lra.
Qed.

Lemma breakdown_round_trip (a b c : number) :
  TrustScorer.in_range a = true -> TrustScorer.in_range b = true ->
  TrustScorer.in_range c = true ->
  let r := TrustScorer.calculate_final_score a b c in
  let k1 := Float.round_units (TrustScorer.weighted a TrustScorer.weights_off_chain) 2 in
  let k2 := Float.round_units (TrustScorer.weighted b TrustScorer.weights_on_chain) 2 in
  let k3 := Float.round_units (TrustScorer.weighted c TrustScorer.weights_ai_analysis) 2 in
  let ko := Float.round_units (TrustScorer.weighted_score a b c) 2 in
  Float.denotes (TrustScorer.contribution (TrustScorer.breakdown_off_chain r)) k1 2
  /\ Float.denotes (TrustScorer.contribution (TrustScorer.breakdown_on_chain r)) k2 2
  /\ Float.denotes (TrustScorer.contribution (TrustScorer.breakdown_ai_analysis r)) k3 2
  /\ Float.denotes (TrustScorer.overall_score r) ko 2
  /\ - 2 <= k1 + k2 + k3 - ko <= 2.
Proof.
  intros Ha Hb Hc r k1 k2 k3 ko.
  destruct (weighted_score_error a b c Ha Hb Hc) as (F1 & F2 & F3 & Fo & E).
  assert (Hr : TrustScorer.overall_score r
               = Float.round (TrustScorer.weighted_score a b c) 2
               /\ TrustScorer.breakdown_off_chain r
                  = TrustScorer.entry a TrustScorer.weights_off_chain
               /\ TrustScorer.breakdown_on_chain r
                  = TrustScorer.entry b TrustScorer.weights_on_chain
               /\ TrustScorer.breakdown_ai_analysis r
                  = TrustScorer.entry c TrustScorer.weights_ai_analysis).
  { unfold r, TrustScorer.calculate_final_score.
    repeat match goal with |- context [if ?t then _ else _] => destruct t end;
      repeat split; reflexivity. }
  destruct Hr as (-> & -> & -> & ->).
  unfold TrustScorer.entry. cbn [TrustScorer.contribution].
  split; [apply round_denotes; [lia | assumption] |].
  split; [apply round_denotes; [lia | assumption] |].
  split; [apply round_denotes; [lia | assumption] |].
  split; [apply round_denotes; [lia | assumption] |].
  pose proof (round_units_bounds _ F1) as B1. pose proof (round_units_bounds _ F2) as B2.
  pose proof (round_units_bounds _ F3) as B3. pose proof (round_units_bounds _ Fo) as Bo.
  fold k1 in B1. fold k2 in B2. fold k3 in B3. fold ko in Bo.
  apply Qabs_Qle_condition in E.
  assert (P : (100 * 2 ^ (-38) < 1 # 2)%Q) by (vm_compute; reflexivity).
  apply (Z_of_Q_bounds _ 2);
    unfold Z.sub; rewrite !inject_Z_plus, inject_Z_opp;
    change (inject_Z 2) with 2%Q; lra.
Qed.

(** *** The five-category profile *)

Import RealtimeScorer.

Lemma float_sum_five (p1 p2 p3 p4 p5 : float) :
  Float.small 1 p1 -> Float.small 1 p2 -> Float.small 1 p3 ->
  Float.small 1 p4 -> Float.small 1 p5 ->
  Float.small 11 (float_sum [p1; p2; p3; p4; p5])
  /\ (Qabs (Float.to_Q (float_sum [p1; p2; p3; p4; p5])
            - (Float.to_Q p1 + Float.to_Q p2 + Float.to_Q p3 + Float.to_Q p4
               + Float.to_Q p5)) <= 2 ^ (-40))%Q.
Proof.
  intros H1 H2 H3 H4 H5. unfold float_sum. cbn [fold_left].
  assert (H0 : Float.small 1 (Float.of_int 0)) by exact I.
  assert (Z0 : (Float.to_Q (Float.of_int 0) == 0)%Q) by reflexivity.
  destruct (add_error 1 _ p1 H0 H1 ltac:(lia) ltac:(lia)) as [E1 S1].
  destruct (add_error 3 _ p2 S1 (small_mono 1 3 _ ltac:(lia) H2) ltac:(lia) ltac:(lia))
    as [E2 S2].
  destruct (add_error 5 _ p3 S2 (small_mono 1 5 _ ltac:(lia) H3) ltac:(lia) ltac:(lia))
    as [E3 S3].
  destruct (add_error 7 _ p4 S3 (small_mono 1 7 _ ltac:(lia) H4) ltac:(lia) ltac:(lia))
    as [E4 S4].
  destruct (add_error 9 _ p5 S4 (small_mono 1 9 _ ltac:(lia) H5) ltac:(lia) ltac:(lia))
    as [E5 S5].
  split; [exact S5 |].
  apply Qabs_Qle_condition in E1, E2, E3, E4, E5. apply Qabs_Qle_condition.
  change (1 - 50) with (-49) in E1. change (3 - 50) with (-47) in E2.
  change (5 - 50) with (-45) in E3. change (7 - 50) with (-43) in E4.
  change (9 - 50) with (-41) in E5.
  assert (P : (2 ^ (-49) + 2 ^ (-47) + 2 ^ (-45) + 2 ^ (-43) + 2 ^ (-41) <= 2 ^ (-40))%Q)
    by (vm_compute; discriminate).
  lra.
Qed.

Lemma times_100_error (B : Z) (x : float) :
  Float.small B x -> -1022 <= B + 7 -> B + 8 <= 971 ->
  Float.is_finite (Float.mul x (Float.of_int 100)) = true
  /\ (Qabs (Float.to_Q (Float.mul x (Float.of_int 100)) - 100 * Float.to_Q x)
      <= 2 ^ (B - 44))%Q.
Proof.
  intros Hx Hlo Hhi. split.
  - apply (small_is_finite (B + 7 + 1)).
    apply mul_small; [assumption | exact small_of_int_100 | lia].
  - pose proof (mul_error B 7 x _ Hx small_of_int_100 ltac:(lia)) as E.
    replace (B + 7 - 51) with (B - 44) in E by lia.
    rewrite to_Q_of_int_100 in E.
    assert (E' : (100 * Float.to_Q x == Float.to_Q x * 100)%Q) by ring.
    rewrite E'. exact E.
Qed.

Lemma category_round_trip (now : Datetime.datetime)
  (category_results : category -> option category_result) :
  (forall c r, category_results c = Some r -> in_unit (score r) = true) ->
  let r := calculate_final_score now category_results in
  Forall2 (fun cs k => Float.denotes (reported_contribution (snd cs)) k 2)
          (category_scores r) (contribution_hundredths category_results)
  /\ Float.denotes (trust_score r) (trust_score_hundredths category_results) 2
  /\ - 3 <= fold_right Z.add 0 (contribution_hundredths category_results)
            - trust_score_hundredths category_results <= 3.
Proof.
  intros Hin r.
  set (x := fun c => score (default missing_category (category_results c))).
  assert (Hx : forall c, Float.small 1 (x c)).
  { intros c. apply in_unit_small. unfold x.
    destruct (category_results c) as [res |] eqn:E; [exact (Hin c res E) |].
    vm_compute. reflexivity. }
  assert (Hp : forall c k, In k [10; 20; 30; 40] ->
                 Float.small 1 (Float.mul (x c) (Float.decimal k 2))).
  { intros c k Hk. apply (mul_small 1 (-1)); [apply Hx | apply weight_small, Hk | lia]. }
  assert (Hr : trust_score r = Float.round (final_score category_results) 2
               /\ category_scores r
                  = List.map (fun '(cat, weight) =>
                      (cat,
                       {| reported_score :=
                            Float.round (Float.mul (x cat) (Float.of_int 100)) 2;
                          reported_weight := Float.mul weight (Float.of_int 100);
                          reported_contribution :=
                            Float.round (Float.mul (Float.mul (x cat) weight)
                                                   (Float.of_int 100)) 2;
                          reported_confidence :=
                            Float.round (confidence (default missing_category
                                                       (category_results cat))) 3 |}))
                      weights).
  { unfold r, calculate_final_score.
    repeat match goal with |- context [if ?t then _ else _] => destruct t end;
      split; reflexivity. }
  destruct Hr as [-> ->].
  unfold trust_score_hundredths, contribution_hundredths, final_score, weighted_scores,
    weights.
  cbn [List.map fold_right snd reported_contribution]. fold (x media_authenticity).
  fold (x tech_credibility). fold (x governance_transparency). fold (x onchain_behavior).
  fold (x social_signals).
  set (p1 := Float.mul (x media_authenticity) (Float.decimal 30 2)).
  set (p2 := Float.mul (x tech_credibility) (Float.decimal 20 2)).
  set (p3 := Float.mul (x governance_transparency) (Float.decimal 20 2)).
  set (p4 := Float.mul (x onchain_behavior) (Float.decimal 20 2)).
  set (p5 := Float.mul (x social_signals) (Float.decimal 10 2)).
  assert (H1 : Float.small 1 p1) by (apply Hp; simpl; tauto).
  assert (H2 : Float.small 1 p2) by (apply Hp; simpl; tauto).
  assert (H3 : Float.small 1 p3) by (apply Hp; simpl; tauto).
  assert (H4 : Float.small 1 p4) by (apply Hp; simpl; tauto).
  assert (H5 : Float.small 1 p5) by (apply Hp; simpl; tauto).
  destruct (float_sum_five p1 p2 p3 p4 p5 H1 H2 H3 H4 H5) as [SS ES].
  destruct (times_100_error 11 _ SS ltac:(lia) ltac:(lia)) as [FF EF].
  destruct (times_100_error 1 _ H1 ltac:(lia) ltac:(lia)) as [F1 E1].
  destruct (times_100_error 1 _ H2 ltac:(lia) ltac:(lia)) as [F2 E2].
  destruct (times_100_error 1 _ H3 ltac:(lia) ltac:(lia)) as [F3 E3].
  destruct (times_100_error 1 _ H4 ltac:(lia) ltac:(lia)) as [F4 E4].
  destruct (times_100_error 1 _ H5 ltac:(lia) ltac:(lia)) as [F5 E5].
  split.
  { repeat (constructor; [cbn [snd reported_contribution]; apply round_denotes;
                            [lia | assumption] |]).
    constructor. }
  split; [apply round_denotes; [lia | assumption] |].
  pose proof (round_units_bounds _ F1) as B1. pose proof (round_units_bounds _ F2) as B2.
  pose proof (round_units_bounds _ F3) as B3. pose proof (round_units_bounds _ F4) as B4.
  pose proof (round_units_bounds _ F5) as B5. pose proof (round_units_bounds _ FF) as BF.
  apply Qabs_Qle_condition in ES, EF, E1, E2, E3, E4, E5.
  change (11 - 44) with (-33) in EF. change (1 - 44) with (-43) in E1, E2, E3, E4, E5.
  assert (P : (5 * 2 ^ (-43) + 2 ^ (-33) + 100 * 2 ^ (-40) < 1 # 2)%Q)
    by (vm_compute; reflexivity).
  set (k1 := Float.round_units (Float.mul p1 (Float.of_int 100)) 2) in *.
  set (k2 := Float.round_units (Float.mul p2 (Float.of_int 100)) 2) in *.
  set (k3 := Float.round_units (Float.mul p3 (Float.of_int 100)) 2) in *.
  set (k4 := Float.round_units (Float.mul p4 (Float.of_int 100)) 2) in *.
  set (k5 := Float.round_units (Float.mul p5 (Float.of_int 100)) 2) in *.
  set (ko := Float.round_units
               (Float.mul (float_sum [p1; p2; p3; p4; p5]) (Float.of_int 100)) 2) in *.
  apply (Z_of_Q_bounds _ 3);
    unfold Z.sub; rewrite !inject_Z_plus, inject_Z_opp;
    change (inject_Z 3) with 3%Q; change (inject_Z 0) with 0%Q; lra.
Qed.

(** C4 (as amended).  Every contribution field and the overall score are
    the doubles of a number of hundredths; for scores in their range
    the hundredths of the contributions add up to those of the overall
    score within 2 (0.02) in the three-category profile and within 3
    (0.03) in the five-category profile. *)
Theorem contributions_sum_to_overall_within_rounding
  (off_chain_score on_chain_score ai_score : number)
  (now : Datetime.datetime) (category_results : category -> option category_result) :
  TrustScorer.in_range off_chain_score = true ->
  TrustScorer.in_range on_chain_score = true ->
  TrustScorer.in_range ai_score = true ->
  (forall c r, category_results c = Some r -> in_unit (score r) = true) ->
  (let r := TrustScorer.calculate_final_score off_chain_score on_chain_score ai_score in
   let k1 := Float.round_units
               (TrustScorer.weighted off_chain_score TrustScorer.weights_off_chain) 2 in
   let k2 := Float.round_units
               (TrustScorer.weighted on_chain_score TrustScorer.weights_on_chain) 2 in
   let k3 := Float.round_units
               (TrustScorer.weighted ai_score TrustScorer.weights_ai_analysis) 2 in
   let ko := Float.round_units
               (TrustScorer.weighted_score off_chain_score on_chain_score ai_score) 2 in
   Float.denotes (TrustScorer.contribution (TrustScorer.breakdown_off_chain r)) k1 2
   /\ Float.denotes (TrustScorer.contribution (TrustScorer.breakdown_on_chain r)) k2 2
   /\ Float.denotes (TrustScorer.contribution (TrustScorer.breakdown_ai_analysis r)) k3 2
   /\ Float.denotes (TrustScorer.overall_score r) ko 2
   /\ - 2 <= k1 + k2 + k3 - ko <= 2)
  /\ (let r := calculate_final_score now category_results in
      Forall2 (fun cs k => Float.denotes (reported_contribution (snd cs)) k 2)
              (category_scores r) (contribution_hundredths category_results)
      /\ Float.denotes (trust_score r) (trust_score_hundredths category_results) 2
      /\ - 3 <= fold_right Z.add 0 (contribution_hundredths category_results)
                - trust_score_hundredths category_results <= 3).
Proof.
  intros Ha Hb Hc Hin. split.
  - exact (breakdown_round_trip _ _ _ Ha Hb Hc).
  - exact (category_round_trip now _ Hin).
Qed.

Lemma tie_scores_in_range :
  let '(a, b, c) := TrustScorer.tie_scores in
  TrustScorer.in_range a = true /\ TrustScorer.in_range b = true
  /\ TrustScorer.in_range c = true.
Proof. vm_compute. repeat split; reflexivity. Qed.

Lemma gap_scores_in_unit (c : category) (r : category_result) :
  gap_scores c = Some r -> in_unit (score r) = true.
Proof.
  intros H.
  assert (X : from_option (fun r => in_unit (score r)) true (gap_scores c) = true)
    by (destruct c; vm_compute; reflexivity).
  rewrite H in X. exact X.
Qed.

Lemma tie_scores_hundredths :
  let '(a, b, c) := TrustScorer.tie_scores in
  Float.round_units (TrustScorer.weighted a TrustScorer.weights_off_chain) 2 = 38
  /\ Float.round_units (TrustScorer.weighted b TrustScorer.weights_on_chain) 2 = 38
  /\ Float.round_units (TrustScorer.weighted c TrustScorer.weights_ai_analysis) 2 = 38
  /\ Float.round_units (TrustScorer.weighted_score a b c) 2 = 112.
Proof. vm_compute. repeat split; reflexivity. Qed.

Lemma gap_scores_hundredths :
  contribution_hundredths gap_scores = [1654; 321; 869; 1870; 836]
  /\ trust_score_hundredths gap_scores = 5547.
Proof. vm_compute. split; reflexivity. Qed.

Lemma contributions_sum_to_overall_within_rounding_witness :
  (let '(a, b, c) := TrustScorer.tie_scores in
   TrustScorer.in_range a = true /\ TrustScorer.in_range b = true
   /\ TrustScorer.in_range c = true
   /\ Float.denotes (TrustScorer.overall_score (TrustScorer.calculate_final_score a b c))
                    112 2)
  /\ (forall c r, gap_scores c = Some r -> in_unit (score r) = true)
  /\ Float.denotes (trust_score (calculate_final_score GithubAuth.alice_now gap_scores))
                   5547 2.
Proof.
  pose proof tie_scores_in_range as Hr. pose proof tie_scores_hundredths as Hk.
  destruct TrustScorer.tie_scores as [[a b] c].
  destruct Hr as (Ha & Hb & Hc). destruct Hk as (_ & _ & _ & Ho).
  pose proof (contributions_sum_to_overall_within_rounding
                a b c GithubAuth.alice_now gap_scores Ha Hb Hc gap_scores_in_unit)
    as [HA HB].
  cbv zeta in HA, HB. destruct HA as (_ & _ & _ & HA & _). destruct HB as (_ & HB & _).
  rewrite Ho in HA. rewrite (proj2 gap_scores_hundredths) in HB.
  split; [split; [exact Ha | split; [exact Hb | split; [exact Hc | exact HA]]] |].
  split; [exact gap_scores_in_unit | exact HB].
Defined.

(** C4 as stated fails: the reported contributions can exceed the
    reported overall score by 0.02 in the three-category profile and by
    0.03 in the five-category profile, more than the tolerance 0.01 on
    the exact values of the reported floats. *)
Lemma contributions_differ_from_overall_by_more_than_a_hundredth :
  (let '(a, b, c) := TrustScorer.tie_scores in
   let r := TrustScorer.calculate_final_score a b c in
   TrustScorer.in_range a = true /\ TrustScorer.in_range b = true
   /\ TrustScorer.in_range c = true
   /\ TrustScorer.contribution (TrustScorer.breakdown_off_chain r) = Float.decimal 38 2
   /\ TrustScorer.contribution (TrustScorer.breakdown_on_chain r) = Float.decimal 38 2
   /\ TrustScorer.contribution (TrustScorer.breakdown_ai_analysis r) = Float.decimal 38 2
   /\ TrustScorer.overall_score r = Float.decimal 112 2
   /\ (1 # 100 < Float.to_Q (TrustScorer.contribution (TrustScorer.breakdown_off_chain r))
                 + Float.to_Q (TrustScorer.contribution (TrustScorer.breakdown_on_chain r))
                 + Float.to_Q (TrustScorer.contribution
                                 (TrustScorer.breakdown_ai_analysis r))
                 - Float.to_Q (TrustScorer.overall_score r))%Q)
  /\ (let r := calculate_final_score GithubAuth.alice_now gap_scores in
      (forall c res, gap_scores c = Some res -> in_unit (score res) = true)
      /\ List.map (fun cs => reported_contribution (snd cs)) (category_scores r)
         = List.map (fun k => Float.decimal k 2) [1654; 321; 869; 1870; 836]
      /\ trust_score r = Float.decimal 5547 2
      /\ (1 # 100 < fold_right Qplus 0%Q
                      (List.map (fun cs => Float.to_Q (reported_contribution (snd cs)))
                                (category_scores r))
                    - Float.to_Q (trust_score r))%Q).
Proof.
  split.
  - vm_compute. repeat split; reflexivity.
  - cbv zeta. split; [exact gap_scores_in_unit |].
    split; [vm_compute; reflexivity |].
    split; [vm_compute; reflexivity |].
    vm_compute. reflexivity.
Qed.

(** * The verification hashes *)

(** ** The order of the keys *)

Lemma ascii_compare_refl (a : ascii) : Ascii.compare a a = Eq.
Proof. unfold Ascii.compare. apply N.compare_refl. Qed.

Lemma ascii_compare_trans (a b c : ascii) :
  Ascii.compare a b = Lt -> Ascii.compare b c = Lt -> Ascii.compare a c = Lt.
Proof. unfold Ascii.compare. rewrite !N.compare_lt_iff. lia. Qed.

Lemma string_compare_trans (s1 s2 s3 : string) :
  String.compare s1 s2 = Lt -> String.compare s2 s3 = Lt -> String.compare s1 s3 = Lt.
Proof.
  revert s2 s3. induction s1 as [| a s1 IH]; intros [| b s2] [| c s3]; simpl;
    try discriminate; auto.
  destruct (Ascii.compare a b) eqn:Eab; try discriminate;
    destruct (Ascii.compare b c) eqn:Ebc; try discriminate; intros H1 H2.
  - apply Ascii.compare_eq_iff in Eab, Ebc. subst. rewrite ascii_compare_refl. eauto.
  - apply Ascii.compare_eq_iff in Eab. subst. rewrite Ebc. reflexivity.
  - apply Ascii.compare_eq_iff in Ebc. subst. rewrite Eab. reflexivity.
  - rewrite (ascii_compare_trans a b c Eab Ebc). reflexivity.
Qed.

Lemma string_ltb_trans (s1 s2 s3 : string) :
  String.ltb s1 s2 = true -> String.ltb s2 s3 = true -> String.ltb s1 s3 = true.
Proof.
  unfold String.ltb. intros H1 H2.
  destruct (String.compare s1 s2) eqn:E1; try discriminate.
  destruct (String.compare s2 s3) eqn:E2; try discriminate.
  rewrite (string_compare_trans _ _ _ E1 E2). reflexivity.
Qed.

Lemma string_ltb_total (s t : string) :
  s <> t -> String.ltb s t = false -> String.ltb t s = true.
Proof.
  unfold String.ltb. intros Hne. rewrite (String.compare_antisym s t).
  destruct (String.compare t s) eqn:E; simpl; try discriminate; auto.
  apply String.compare_eq_iff in E. congruence.
Qed.

Lemma string_ltb_asym (s t : string) :
  String.ltb s t = true -> String.ltb t s = true -> False.
Proof.
  unfold String.ltb. rewrite (String.compare_antisym s t).
  destruct (String.compare t s); simpl; discriminate.
Qed.

(** ** Sorting the items of a dict *)

Import Json.

Section Sorting.

Context {A : Type}.

Implicit Types (x : string * A) (l : list (string * A)).

Lemma insert_item_perm x l : insert_item x l ≡ₚ x :: l.
Proof.
  induction l as [| y l IH]; simpl; [reflexivity |].
  destruct (String.ltb (fst x) (fst y)); [reflexivity |].
  rewrite IH. apply perm_swap.
Qed.

Lemma sort_items_perm l : sort_items l ≡ₚ l.
Proof.
  induction l as [| x l IH]; simpl; [reflexivity |].
  rewrite insert_item_perm. apply perm_skip, IH.
Qed.

Lemma insert_item_sorted x l :
  StronglySorted key_lt l -> (forall y, In y l -> fst y <> fst x) ->
  StronglySorted key_lt (insert_item x l).
Proof.
  induction l as [| y l IH]; simpl; intros Hs Hne.
  - repeat constructor.
  - inversion Hs as [| ? ? Hl Hy]; subst.
    destruct (String.ltb (fst x) (fst y)) eqn:E.
    + constructor; [exact Hs |]. constructor; [exact E |].
      eapply Forall_impl; [exact Hy |]. intros z Hz. unfold key_lt in *.
      eapply string_ltb_trans; eassumption.
    + constructor; [apply IH; [exact Hl | intros z Hz; apply Hne; right; exact Hz] |].
      rewrite insert_item_perm. constructor; [| exact Hy].
      apply string_ltb_total; [| exact E].
      intros Heq. apply (Hne y); [left; reflexivity | symmetry; exact Heq].
Qed.

Lemma sort_items_sorted l :
  NoDup (List.map fst l) -> StronglySorted key_lt (sort_items l).
Proof.
  rewrite NoDup_ListNoDup.
  induction l as [| x l IH]; simpl; intros Hnd; [constructor |].
  inversion Hnd as [| ? ? Hx Hl]; subst.
  apply insert_item_sorted; [apply IH, Hl |].
  intros y Hy Heq. apply Hx. rewrite <- Heq. apply in_map.
  apply (Permutation_in _ (sort_items_perm l)), Hy.
Qed.

Lemma sort_items_unique l l' :
  NoDup (List.map fst l) -> l ≡ₚ l' -> sort_items l = sort_items l'.
Proof.
  intros Hnd Hp.
  assert (Hnd' : NoDup (List.map fst l')).
  { rewrite NoDup_ListNoDup in *.
    eapply Permutation_NoDup; [| exact Hnd]. apply Permutation_map, Hp. }
  apply (StronglySorted_unique_strong key_lt).
  - intros x1 x2 _ _ H1 H2. destruct (string_ltb_asym _ _ H1 H2).
  - apply sort_items_sorted, Hnd.
  - apply sort_items_sorted, Hnd'.
  - rewrite !sort_items_perm. exact Hp.
Qed.

End Sorting.

(** ** Looking a key up *)

Lemma get_In (key : string) (d : list (string * json)) (v : json) :
  get key d = Some v -> In (key, v) d.
Proof.
  induction d as [| [k w] d IH]; simpl; [discriminate |].
  destruct (String.eqb k key) eqn:E.
  - apply String.eqb_eq in E. intros [= ->]. left. congruence.
  - intros H. right. apply IH, H.
Qed.

Lemma In_get (key : string) (d : list (string * json)) (v : json) :
  NoDup (List.map fst d) -> In (key, v) d -> get key d = Some v.
Proof.
  rewrite NoDup_ListNoDup.
  induction d as [| [k w] d IH]; simpl; [tauto |].
  intros Hnd Hin. inversion Hnd as [| ? ? Hk Hd]; subst.
  destruct (String.eqb k key) eqn:E.
  - apply String.eqb_eq in E. subst k. destruct Hin as [[= ->] | Hin]; [reflexivity |].
    destruct Hk. apply (in_map fst) in Hin. exact Hin.
  - destruct Hin as [[= -> _] | Hin]; [rewrite String.eqb_refl in E; discriminate |].
    apply IH; assumption.
Qed.

Lemma get_permutation (key : string) (d d' : list (string * json)) :
  NoDup (List.map fst d) -> d ≡ₚ d' -> get key d = get key d'.
Proof.
  intros Hnd Hp.
  assert (Hnd' : NoDup (List.map fst d')).
  { rewrite NoDup_ListNoDup in *.
    eapply Permutation_NoDup; [| exact Hnd]. apply Permutation_map, Hp. }
  destruct (get key d) as [v |] eqn:E.
  - symmetry. apply In_get; [exact Hnd' |].
    apply (Permutation_in _ Hp), get_In, E.
  - destruct (get key d') as [v |] eqn:E'; [| reflexivity].
    apply get_In in E'. apply (Permutation_in _ (Permutation_sym Hp)) in E'.
    apply (In_get _ _ _ Hnd) in E'. congruence.
Qed.

Lemma get_well_formed (key : string) (d : list (string * json)) (v : json) :
  fold_right (fun kv P => well_formed (snd kv) /\ P) True d ->
  get key d = Some v -> well_formed v.
Proof.
  induction d as [| [k w] d IH]; simpl; [discriminate |].
  intros [Hw Hd]. destruct (String.eqb k key); [intros [= <-]; exact Hw | apply IH, Hd].
Qed.

(** ** The rendering does not depend on the insertion order *)

Lemma dumps_same (v : json) :
  forall w, well_formed v -> well_formed w -> same v w -> dumps v = dumps w.
Proof.
  induction v as [| b | n | s | l IH | items IH] using json_ind;
    intros [| b' | n' | s' | l' | items'] Wv Ww S; simpl in S; try contradiction;
    try (subst; reflexivity).
  - assert (E : List.map dumps l = List.map dumps l').
    { simpl in Wv, Ww. revert l' Ww S.
      induction IH as [| x l Hx Hl IHl]; intros [| y l'] Ww S; simpl in *;
        try contradiction; [reflexivity |].
      f_equal; [apply Hx; tauto | apply IHl; tauto]. }
    simpl. rewrite E. reflexivity.
  - destruct Wv as [Nv Wv]. destruct Ww as [Nw Ww]. destruct S as [Hlen S].
    assert (Hin : forall kv, In kv items ->
              exists w, In (fst kv, w) items' /\ dumps (snd kv) = dumps w).
    { clear Nv Hlen. induction IH as [| kv items Hkv Hl IHl]; simpl in *; [tauto |].
      intros kv' [<- | Hkv'].
      - destruct S as [S _]. destruct (get (fst kv) items') as [w |] eqn:G;
          [| contradiction].
        exists w. split; [apply get_In, G |].
        apply Hkv; [tauto | eapply get_well_formed; eassumption | exact S].
      - apply IHl; tauto. }
    assert (E : sort_items (List.map (fun kv => (fst kv, dumps (snd kv))) items)
                = sort_items (List.map (fun kv => (fst kv, dumps (snd kv))) items')).
    { assert (Hk : forall d : list (string * json),
                List.map fst (List.map (fun kv => (fst kv, dumps (snd kv))) d)
                = List.map fst d).
      { intros d. rewrite List.map_map. reflexivity. }
      apply sort_items_unique; [rewrite Hk; exact Nv |].
      apply NoDup_Permutation_bis.
      - eapply List.NoDup_map_inv. rewrite Hk. apply NoDup_ListNoDup, Nv.
      - rewrite !List.length_map. lia.
      - intros e He. apply List.in_map_iff in He as (kv & <- & Hkv).
        destruct (Hin kv Hkv) as (w & Hw & ->).
        apply List.in_map_iff. exists (fst kv, w). split; [reflexivity | exact Hw]. }
    simpl. rewrite E. reflexivity.
Qed.

(** ** The two hashes *)

Import NautilusAgent.

Ltac solve_nodup :=
  apply NoDup_ListNoDup;
  repeat (constructor; [simpl; intuition discriminate |]); constructor.

Lemma hash_data_same (results results' : dict) :
  Forall (fun key => same_field key results results') covered_keys ->
  match hash_data results, hash_data results' with
  | Some d, Some d' => dumps (JDict d) = dumps (JDict d')
  | None, None => True
  | _, _ => False
  end.
Proof.
  unfold covered_keys, same_field, hash_data. intros H.
  apply Forall_cons_1 in H as [H1 H]. apply Forall_cons_1 in H as [H2 H].
  apply Forall_cons_1 in H as [H3 H]. apply Forall_cons_1 in H as [H4 H].
  apply Forall_cons_1 in H as [H5 _].
  destruct (get "startup_name" results) as [v1 |],
           (get "startup_name" results') as [w1 |]; try contradiction;
    destruct (get "quilt_id" results) as [v2 |],
             (get "quilt_id" results') as [w2 |]; try contradiction;
    destruct (get "trust_score" results) as [v3 |],
             (get "trust_score" results') as [w3 |]; try contradiction;
    destruct (get "component_scores" results) as [v4 |],
             (get "component_scores" results') as [w4 |]; try contradiction;
    destruct (get "timestamp" results) as [v5 |],
             (get "timestamp" results') as [w5 |]; try contradiction;
    try exact I.
  cbv beta iota.
  apply dumps_same.
  - split; [solve_nodup | simpl; tauto].
  - split; [solve_nodup | simpl; tauto].
  - simpl. tauto.
Qed.

Lemma generate_verification_hash_same (results results' : dict) :
  Forall (fun key => same_field key results results') covered_keys ->
  _generate_verification_hash results = _generate_verification_hash results'.
Proof.
  intros H. apply hash_data_same in H. unfold _generate_verification_hash.
  destruct (hash_data results) as [d |], (hash_data results') as [d' |];
    try contradiction; [| reflexivity].
  cbv zeta. rewrite H. reflexivity.
Qed.

Lemma enhanced_verification_hash_permutation
  (startup_name github_repo : string)
  (github_verification github_verification' : dict)
  (certificate_analysis certificate_analysis' : dict) (final_score : float) :
  NoDup (List.map fst github_verification) ->
  github_verification ≡ₚ github_verification' ->
  NoDup (List.map fst certificate_analysis) ->
  certificate_analysis ≡ₚ certificate_analysis' ->
  enhanced_verification_hash startup_name github_verification github_repo
                             certificate_analysis final_score
  = enhanced_verification_hash startup_name github_verification' github_repo
                               certificate_analysis' final_score.
Proof.
  intros Ng Pg Nc Pc.
  unfold enhanced_verification_hash, enhanced_hash_input, get_default.
  rewrite (get_permutation "username" _ _ Ng Pg).
  rewrite (get_permutation "average_authenticity_score" _ _ Nc Pc).
  reflexivity.
Qed.

Lemma string_length_append (s t : string) :
  String.length (String.append s t) = (String.length s + String.length t)%nat.
Proof. induction s as [| c s IH]; simpl; [reflexivity | rewrite IH; reflexivity]. Qed.

Lemma hex_length (k : nat) (x : Z) : String.length (Sha256.hex k x) = k.
Proof.
  induction k as [| k IH]; [reflexivity |].
  cbn [Sha256.hex String.length]. rewrite IH. reflexivity.
Qed.

Lemma hexdigest_length (msg : list Z) : String.length (Sha256.hexdigest msg) = 64%nat.
Proof.
  unfold Sha256.hexdigest, Sha256.digest_words. cbv zeta. cbn [fold_right].
  rewrite !string_length_append, !hex_length. reflexivity.
Qed.

Lemma sample_results_hash :
  _generate_verification_hash sample_results
  = Some "59314575850c68360543ffe1eda3a51d4b3f48c92faf3f7b19ae962b8bd49f25"%string.
Proof. vm_compute. reflexivity. Qed.

Lemma sample_input_hash :
  enhanced_hash_of sample_input
  = Some "b267cf83286a8d34689a8f38713f491b5967b61670cb1afb6c1b1ba6bc4c5145"%string.
Proof. vm_compute. reflexivity. Qed.

Lemma changed_results_hashes :
  Forall (fun r => _generate_verification_hash r
                   <> _generate_verification_hash sample_results) changed_results.
Proof.
  rewrite sample_results_hash. unfold changed_results.
  repeat (apply List.Forall_cons; [vm_compute; discriminate |]). apply List.Forall_nil.
Qed.

Lemma changed_inputs_hashes :
  Forall (fun i => enhanced_hash_of i <> enhanced_hash_of sample_input) changed_inputs.
Proof.
  rewrite sample_input_hash. unfold changed_inputs.
  repeat (apply List.Forall_cons; [vm_compute; discriminate |]). apply List.Forall_nil.
Qed.

Lemma reordered_results_same :
  Forall (fun key => same_field key sample_results reordered_results) covered_keys.
Proof.
  unfold covered_keys.
  repeat (apply List.Forall_cons;
          [vm_compute; repeat split; try reflexivity; solve_nodup |]).
  apply List.Forall_nil.
Qed.


Lemma sample_verification_keys : NoDup (List.map fst sample_verification).
Proof. solve_nodup. Qed.

Lemma sample_certificates_keys : NoDup (List.map fst sample_certificates).
Proof. solve_nodup. Qed.


(** The enhanced hash reads the two scores through [:.0f]: scores that
    round to the same whole number give the same hash. *)
Lemma enhanced_hash_rounds_scores (final_score : float) :
  PyStr.format_0f final_score = PyStr.format_0f (input_final_score sample_input) ->
  enhanced_hash_of (mk_enhanced "Acme Robotics" sample_verification "acme/robot"
                                sample_certificates final_score)
  = enhanced_hash_of sample_input.
Proof.
  intros H. unfold enhanced_hash_of, enhanced_verification_hash, enhanced_hash_input.
  cbn [input_startup_name input_github_verification input_github_repo
       input_certificate_analysis input_final_score sample_input] in *.
  rewrite H. reflexivity.
Qed.

Lemma enhanced_hash_rounds_scores_witness :
  enhanced_hash_of (mk_enhanced "Acme Robotics" sample_verification "acme/robot"
                                sample_certificates (Float.decimal 7235 2))
  = enhanced_hash_of sample_input.
Proof. apply enhanced_hash_rounds_scores. vm_compute. reflexivity. Defined.

(** * Percentages

    The three scores of the commit verifier are percentages
    [int((a / b) * 100)] on floats. *)

(** ** The rounding error of a quotient *)

Lemma binary_round_aux_error_inexact (s : bool) (mx ex B : Z) (lx : location) :
  0 <= mx -> ex <= 971 -> Zdigits2 mx + ex <= B -> ex + 52 <= B -> -1022 <= B <= 1023 ->
  (Qabs (Float.to_Q (binary_round_aux Float.prec Float.emax s mx ex lx)
         - inject_Z (cond_Zopp s mx) * 2 ^ ex) <= 2 ^ (B - 51))%Q.
Proof.
  intros Hmx Hex HD Hex' HB.
  destruct (binary_round_aux_spec s mx ex lx Hmx Hex ltac:(lia))
    as (m & e & Hm & -> & He & He' & Hd & Hacc & _).
  rewrite to_Q_of_mantissa by assumption.
  rewrite !inject_Z_cond_Zopp.
  assert (He1 : e + 1 <= B - 51) by lia.
  assert (Hpe : (2 ^ e == 2 ^ (e - ex) * 2 ^ ex)%Q)
    by (rewrite <- Qpower2_add; replace (e - ex + ex) with e by lia; reflexivity).
  assert (E : ((if s then -1 else 1) * inject_Z m * 2 ^ e
               - (if s then -1 else 1) * inject_Z mx * 2 ^ ex
               == (if s then -1 else 1) * (inject_Z (m * 2 ^ (e - ex) - mx) * 2 ^ ex))%Q).
  { unfold Z.sub at 1. rewrite inject_Z_plus, inject_Z_mult, inject_Z_opp.
    rewrite inject_Z_pow2 by lia. rewrite Hpe. ring. }
  rewrite E, Qabs_Qmult, Qabs_Qmult.
  assert (Hs : (Qabs (if s then -1 else 1) == 1)%Q) by (destruct s; reflexivity).
  rewrite Hs, Qmult_1_l.
  rewrite (Qabs_pos (2 ^ ex)) by (apply Qlt_le_weak, Qpower2_pos).
  apply Qle_trans with (2 ^ (e + 1))%Q; [| apply Qpower2_le; lia].
  replace (e + 1) with ((e - ex + 1) + ex) by lia. rewrite Qpower2_add.
  apply Qmult_le_compat_r; [| apply Qlt_le_weak, Qpower2_pos].
  rewrite <- inject_Z_pow2 by lia.
  apply Qabs_Qle_condition. rewrite <- inject_Z_opp, <- !Zle_Qle. lia.
Qed.

(** The quotient and the exponent [SFdiv] hands to the rounding. *)
Lemma div_core_spec (m1 m2 : positive) :
  let r := SFdiv_core_binary Float.prec Float.emax (Zpos m1) 0 (Zpos m2) 0 in
  let q := fst (fst r) in
  let e := snd (fst r) in
  let d := Zpos (digits2_pos m1) - Zpos (digits2_pos m2) in
  -1021 <= d ->
  0 <= q /\ e <= 0 /\ e <= Z.max (d - 53) (-1074)
  /\ Zdigits2 q + e <= d + 1
  /\ q * Zpos m2 <= Zpos m1 * 2 ^ (- e) < (q + 1) * Zpos m2.
Proof.
  unfold SFdiv_core_binary. cbv zeta.
  change (Zdigits2 (Zpos m1)) with (Zpos (digits2_pos m1)).
  change (Zdigits2 (Zpos m2)) with (Zpos (digits2_pos m2)).
  set (d := Zpos (digits2_pos m1) - Zpos (digits2_pos m2)). intros Hdlow.
  replace (Zpos (digits2_pos m1) + 0 - (Zpos (digits2_pos m2) + 0)) with d by (unfold d; lia).
  rewrite fexp_eq.
  set (e' := Z.min _ _).
  assert (He' : e' <= 0) by (unfold e'; lia).
  assert (He'' : e' <= Z.max (d - 53) (-1074)) by (unfold e'; lia).
  set (m' := match 0 - 0 - e' with Z0 => _ | Zpos _ => _ | Zneg _ => _ end).
  assert (Hm' : m' = Zpos m1 * 2 ^ (- e')).
  { unfold m'. destruct (0 - 0 - e') as [| p | p] eqn:Hs; try lia.
    - replace (- e') with 0 by lia. lia.
    - rewrite Z.shiftl_mul_pow2 by lia. f_equal. f_equal. lia. }
  pose proof (Z_div_mod m' (Zpos m2) ltac:(lia)) as Hdm.
  destruct (Z.div_eucl m' (Zpos m2)) as [q r]. destruct Hdm as [Hq Hr]. simpl.
  assert (Hp : 0 < 2 ^ (- e')) by (apply Z.pow_pos_nonneg; lia).
  assert (Hq0 : 0 <= q) by nia.
  split; [assumption |]. split; [assumption |]. split; [assumption |].
  split; [| rewrite <- Hm'; nia].
  assert (Zdigits2 q <= d + 1 - e'); [| lia].
  pose proof (digits2_pos_bounds m1) as [_ H1].
  pose proof (digits2_pos_bounds m2) as [H2 _].
  assert (Hd2 : 1 <= Zpos (digits2_pos m2)) by lia.
  assert (Hlow : 0 <= d + 1 - e').
  { destruct (Z_le_gt_dec 0 (d + 1 - e')) as [| Hneg]; [assumption | exfalso].
    unfold e' in Hneg. lia. }
  apply Zdigits2_le_iff; [assumption | assumption |].
  (* q * m2 <= m1 * 2^(-e') < 2^d1 * 2^(-e') and 2^(d2-1) <= m2 *)
  assert (Hq' : q * Zpos m2 < 2 ^ Zpos (digits2_pos m1) * 2 ^ (- e')) by nia.
  assert (E : 2 ^ Zpos (digits2_pos m1) * 2 ^ (- e')
              = 2 ^ (d + 1 - e') * 2 ^ (Zpos (digits2_pos m2) - 1)).
  { rewrite <- !Z.pow_add_r by lia. f_equal. unfold d. lia. }
  rewrite E in Hq'.
  assert (Hpp : 0 < 2 ^ (d + 1 - e')) by (apply Z.pow_pos_nonneg; lia).
  nia.
Qed.

Lemma Qpower2_inv (e : Z) : (2 ^ e * 2 ^ (- e) == 1)%Q.
Proof. rewrite <- Qpower2_add. replace (e + - e) with 0 by lia. reflexivity. Qed.

Lemma truediv_error (a b B : Z) :
  0 <= a -> 0 < b -> -1021 <= Zdigits2 a - Zdigits2 b ->
  Zdigits2 a - Zdigits2 b + 1 <= B -> -1022 <= B -> B + 1 <= 971 ->
  (Qabs (Float.to_Q (Float.truediv a b) - inject_Z a / inject_Z b) <= 2 ^ (B - 50))%Q
  /\ Float.small (B + 1) (Float.truediv a b).
Proof.
  intros Ha Hb Hlow HB Hlo Hhi.
  destruct b as [| q | q]; try lia. destruct a as [| p | p]; try lia.
  - split; [| exact I]. unfold Float.truediv, Float.to_Q.
    assert (E : (0 - inject_Z 0 / inject_Z (Zpos q) == 0)%Q)
      by (change (inject_Z 0) with 0%Q; unfold Qdiv; ring).
    rewrite E. change (Qabs 0) with 0%Q. apply Qlt_le_weak, Qpower2_pos.
  - unfold Float.truediv, Float.div, SFdiv.
    change (Zdigits2 (Zpos p)) with (Zpos (digits2_pos p)) in *.
    change (Zdigits2 (Zpos q)) with (Zpos (digits2_pos q)) in *.
    pose proof (div_core_spec p q) as H. cbv zeta in H. specialize (H Hlow).
    destruct (SFdiv_core_binary Float.prec Float.emax (Zpos p) 0 (Zpos q) 0)
      as [[mz ez] lz].
    simpl fst in H. simpl snd in H. destruct H as (Hmz & Hez & Hez' & Hd & Hq).
    change (xorb false false) with false.
    split; [| apply binary_round_aux_small; lia].
    pose proof (binary_round_aux_error_inexact false mz ez B lz Hmz ltac:(lia)
                  ltac:(lia) ltac:(lia) ltac:(lia)) as Hr.
    simpl cond_Zopp in Hr.
    set (x := Float.to_Q (binary_round_aux Float.prec Float.emax false mz ez lz)) in *.
    set (T := (2 ^ ez)%Q) in *.
    assert (HT : (0 < T)%Q) by apply Qpower2_pos.
    assert (Hqpos : (0 < inject_Z (Zpos q))%Q) by (rewrite <- (Zlt_Qlt 0); lia).
    assert (HTT : (T * inject_Z (2 ^ (- ez)) == 1)%Q)
      by (rewrite inject_Z_pow2 by lia; apply Qpower2_inv).
    destruct Hq as [Hq1 Hq2].
    rewrite Zle_Qle in Hq1. rewrite Zlt_Qlt in Hq2. rewrite !inject_Z_mult in Hq1, Hq2.
    rewrite inject_Z_plus in Hq2. change (inject_Z 1) with 1%Q in Hq2.
    set (P := inject_Z (Zpos p)) in *. set (D := inject_Z (Zpos q)) in *.
    set (M := inject_Z mz) in *. set (T' := inject_Z (2 ^ (- ez))) in *.
    assert (L1 : (M * T <= P / D)%Q).
    { apply Qle_shift_div_l; [assumption |].
      assert (E : (M * T * D == T * (M * D))%Q) by ring. rewrite E.
      assert (E2 : (P == T * (P * T'))%Q).
      { assert (E3 : (T * (P * T') == P * (T * T'))%Q) by ring.
        rewrite E3, HTT. ring. }
      rewrite E2. apply Qmult_le_l; assumption. }
    assert (L2 : (P / D < (M + 1) * T)%Q).
    { apply Qlt_shift_div_r; [assumption |].
      assert (E : ((M + 1) * T * D == T * ((M + 1) * D))%Q) by ring. rewrite E.
      assert (E2 : (P == T * (P * T'))%Q).
      { assert (E3 : (T * (P * T') == P * (T * T'))%Q) by ring.
        rewrite E3, HTT. ring. }
      rewrite E2. apply Qmult_lt_l; assumption. }
    assert (HTB : (T <= 2 ^ (B - 52))%Q) by (apply Qpower2_le; lia).
    assert (Hsum : (2 ^ (B - 51) + 2 ^ (B - 52) <= 2 ^ (B - 50))%Q).
    { replace (B - 51) with ((B - 52) + 1) by lia.
      replace (B - 50) with ((B - 52) + 2) by lia.
      rewrite !Qpower2_add. change (2 ^ 1)%Q with 2%Q. change (2 ^ 2)%Q with 4%Q.
      pose proof (Qpower2_pos (B - 52)). lra. }
    apply Qabs_Qle_condition in Hr. apply Qabs_Qle_condition.
    set (PD := (P / D)%Q) in *. lra.
Qed.

(** ** [int(x)] on a non-negative float *)

Lemma inject_Z_succ (k : Z) : (inject_Z k + 1 == inject_Z (k + 1))%Q.
Proof. rewrite inject_Z_plus. reflexivity. Qed.

Lemma to_int_floor (B : Z) (x : float) :
  Float.small B x -> Float.nonneg x ->
  exists k, Float.to_int x = Some k /\ 0 <= k
            /\ (inject_Z k <= Float.to_Q x < inject_Z k + 1)%Q.
Proof.
  destruct x as [s | s | | s m e]; simpl Float.small; try tauto; intros _ Hs.
  - exists 0. split; [reflexivity |]. split; [lia |]. unfold Float.to_Q. split.
    + apply Qle_refl.
    + reflexivity.
  - simpl in Hs. subst s. destruct e as [| p | p]; simpl Float.to_int; simpl cond_Zopp.
    + exists (Zpos m). split; [reflexivity |]. split; [lia |]. unfold Float.to_Q.
      simpl cond_Zopp. split; [apply Qle_refl |].
      rewrite inject_Z_succ, <- Zlt_Qlt. lia.
    + exists (Zpos m * 2 ^ Zpos p). split; [reflexivity |].
      assert (0 < 2 ^ Zpos p) by (apply Z.pow_pos_nonneg; lia).
      split; [nia |]. unfold Float.to_Q. simpl cond_Zopp. split; [apply Qle_refl |].
      rewrite inject_Z_succ, <- Zlt_Qlt. lia.
    + exists (Zpos m / 2 ^ Zpos p).
      assert (Hp : 0 < 2 ^ Zpos p) by (apply Z.pow_pos_nonneg; lia).
      split; [reflexivity |]. split; [apply Z.div_pos; lia |].
      unfold Float.to_Q. simpl cond_Zopp.
      pose proof (Z.div_mod (Zpos m) (2 ^ Zpos p) ltac:(lia)) as Hdm.
      pose proof (Z.mod_pos_bound (Zpos m) (2 ^ Zpos p) Hp) as Hr.
      assert (Hd : Zpos (2 ^ p) = 2 ^ Zpos p) by apply Pos2Z.inj_pow.
      unfold Qle, Qlt, Qplus, inject_Z. simpl Qnum. simpl Qden.
      rewrite !Z.mul_1_r, Hd. split; nia.
Qed.

Lemma float_ltb_spec (B B' : Z) (x y : float) :
  Float.small B x -> Float.small B' y ->
  Float.ltb x y = true <-> (Float.to_Q x < Float.to_Q y)%Q.
Proof.
  intros Hx Hy. unfold Float.ltb.
  rewrite float_compare_finite by (eapply small_is_finite; eassumption).
  destruct (Qcompare_spec (Float.to_Q x) (Float.to_Q y)) as [H | H | H];
    split; intros H'; try discriminate; try reflexivity; try assumption.
  - rewrite H in H'. destruct (Qlt_irrefl _ H').
  - destruct (Qlt_irrefl _ (Qlt_trans _ _ _ H H')).
Qed.

(** [int(min(100, x))] is [min(100, int(x))]. *)
Lemma int_min_100_min (B : Z) (x : float) (k : Z) :
  Float.small B x -> Float.nonneg x -> Float.to_int x = Some k ->
  GithubAuth.int_min_100 x = Some (Z.min 100 k).
Proof.
  intros Hx Hn Hk. destruct (to_int_floor B x Hx Hn) as (k' & Hk' & Hk0 & Hlo & Hhi).
  assert (k' = k) by congruence. subst k'.
  unfold GithubAuth.int_min_100.
  pose proof (float_ltb_spec B 7 x (Float.of_int 100) Hx small_of_int_100) as Hlt.
  rewrite to_Q_of_int_100 in Hlt.
  destruct (Float.ltb x (Float.of_int 100)).
  - rewrite Hk. f_equal.
    assert (inject_Z k < inject_Z 100)%Q
      by (eapply Qle_lt_trans; [exact Hlo | apply Hlt; reflexivity]).
    rewrite <- Zlt_Qlt in H. lia.
  - f_equal.
    assert (~ (Float.to_Q x < 100)%Q) by (intros H; apply Hlt in H; discriminate).
    assert (inject_Z 100 < inject_Z k + 1)%Q.
    { apply Qle_lt_trans with (Float.to_Q x); [| exact Hhi].
      apply Qnot_lt_le. assumption. }
    rewrite inject_Z_succ, <- Zlt_Qlt in H0. lia.
Qed.

(** ** The percentage [(a / b) * 100] *)

Lemma percentage_error (a b B : Z) :
  0 <= a -> 0 < b -> -1021 <= Zdigits2 a - Zdigits2 b ->
  Zdigits2 a - Zdigits2 b + 1 <= B -> -1022 <= B -> B + 9 <= 971 ->
  let x := Float.mul (Float.truediv a b) (Float.of_int 100) in
  (Qabs (Float.to_Q x - 100 * (inject_Z a / inject_Z b)) <= 2 ^ (B - 42))%Q
  /\ Float.small (B + 9) x /\ Float.nonneg x.
Proof.
  intros Ha Hb Hlow HB Hlo Hhi x.
  destruct (truediv_error a b B Ha Hb Hlow HB Hlo ltac:(lia)) as [Ey Sy].
  pose proof (mul_error (B + 1) 7 _ _ Sy small_of_int_100 ltac:(lia)) as Ex.
  fold x in Ex. rewrite to_Q_of_int_100 in Ex.
  split; [| split].
  - replace (B + 1 + 7 - 51) with (B - 43) in Ex by lia.
    assert (P : (100 * 2 ^ (B - 50) + 2 ^ (B - 43) <= 2 ^ (B - 42))%Q).
    { replace (B - 43) with ((B - 50) + 7) by lia.
      replace (B - 42) with ((B - 50) + 8) by lia.
      rewrite !Qpower2_add. change (2 ^ 7)%Q with 128%Q. change (2 ^ 8)%Q with 256%Q.
      pose proof (Qpower2_pos (B - 50)). lra. }
    apply Qabs_Qle_condition in Ey, Ex. apply Qabs_Qle_condition.
    set (y := Float.to_Q (Float.truediv a b)) in *.
    set (q := (inject_Z a / inject_Z b)%Q) in *. lra.
  - replace (B + 9) with ((B + 1) + 7 + 1) by lia.
    apply mul_small; [assumption | exact small_of_int_100 | lia].
  - apply nonneg_mul; [apply nonneg_truediv; assumption | reflexivity].
Qed.

Lemma Zdigits2_mono (a b : Z) : 0 <= a <= b -> Zdigits2 a <= Zdigits2 b.
Proof.
  intros H. pose proof (Zdigits2_nonneg b).
  apply Zdigits2_le_iff; [lia | assumption |].
  assert (b < 2 ^ Zdigits2 b) by (apply Zdigits2_le_iff; lia). lia.
Qed.

Lemma Zdigits2_double (b : Z) : 0 <= b -> Zdigits2 (2 * b) <= Zdigits2 b + 1.
Proof.
  intros H. pose proof (Zdigits2_nonneg b).
  apply Zdigits2_le_iff; [lia | lia |].
  assert (b < 2 ^ Zdigits2 b) by (apply Zdigits2_le_iff; lia).
  rewrite Z.pow_add_r by lia. lia.
Qed.

Lemma Zdigits2_lower (a : Z) : 0 < a -> 2 ^ (Zdigits2 a - 1) <= a.
Proof.
  destruct a as [| p | p]; try lia. intros _. simpl.
  pose proof (digits2_pos_bounds p) as [H _]. exact H.
Qed.

(** Up to twice the whole, the percentage is the integer percentage or
    one less. *)
Lemma percentage_floor (a b : Z) :
  0 <= a <= 2 * b -> 0 < b <= 2 ^ 38 ->
  exists k, Float.to_int (Float.mul (Float.truediv a b) (Float.of_int 100)) = Some k
            /\ GithubAuth.int_min_100 (Float.mul (Float.truediv a b) (Float.of_int 100))
               = Some (Z.min 100 k)
            /\ 100 * a / b - 1 <= k <= 100 * a / b.
Proof.
  intros Ha Hb.
  assert (Hd2 : Zdigits2 b <= 39).
  { apply Zdigits2_le_iff; [lia | lia |].
    assert (2 ^ 38 < 2 ^ 39) by (apply Z.pow_lt_mono_r; lia). lia. }
  pose proof (Zdigits2_nonneg a) as Hd1.
  assert (Hd : Zdigits2 a <= Zdigits2 b + 1).
  { etransitivity; [apply (Zdigits2_mono a (2 * b)); lia | apply Zdigits2_double; lia]. }
  destruct (percentage_error a b 2 ltac:(lia) ltac:(lia) ltac:(lia) ltac:(lia)
              ltac:(lia) ltac:(lia)) as (E & S & N).
  cbv zeta in E, S, N.
  set (x := Float.mul (Float.truediv a b) (Float.of_int 100)) in *.
  destruct (to_int_floor _ x S N) as (k & Hk & Hk0 & Hlo & Hhi).
  exists k. split; [exact Hk |]. split; [apply (int_min_100_min _ _ _ S N Hk) |].
  set (f := 100 * a / b).
  pose proof (Z.div_mod (100 * a) b ltac:(lia)) as Hdm.
  pose proof (Z.mod_pos_bound (100 * a) b ltac:(lia)) as Hr. fold f in Hdm.
  assert (Hbpos : (0 < inject_Z b)%Q) by (rewrite <- (Zlt_Qlt 0); lia).
  set (q := (inject_Z a / inject_Z b)%Q) in *.
  assert (Hq1 : (inject_Z f <= 100 * q)%Q).
  { unfold q. assert (E1 : (100 * (inject_Z a / inject_Z b)
                            == inject_Z (100 * a) / inject_Z b)%Q).
    { rewrite inject_Z_mult. change (inject_Z 100) with 100%Q. unfold Qdiv. ring. }
    rewrite E1. apply Qle_shift_div_l; [assumption |].
    rewrite <- inject_Z_mult, <- Zle_Qle. lia. }
  assert (Hq2 : (100 * q <= inject_Z f + 1 - / inject_Z b)%Q).
  { unfold q. assert (E1 : (100 * (inject_Z a / inject_Z b)
                            == inject_Z (100 * a) / inject_Z b)%Q).
    { rewrite inject_Z_mult. change (inject_Z 100) with 100%Q. unfold Qdiv. ring. }
    assert (E2 : (inject_Z f + 1 - / inject_Z b
                  == inject_Z ((f + 1) * b - 1) / inject_Z b)%Q).
    { unfold Z.sub. rewrite inject_Z_plus, inject_Z_mult, inject_Z_plus, inject_Z_opp.
      change (inject_Z 1) with 1%Q. field. intros H0. rewrite H0 in Hbpos.
      destruct (Qlt_irrefl _ Hbpos). }
    rewrite E1, E2. unfold Qdiv. apply Qmult_le_compat_r.
    - rewrite <- Zle_Qle. lia.
    - apply Qlt_le_weak, Qinv_lt_0_compat. assumption. }
  assert (Hb38 : (2 ^ (-38) <= / inject_Z b)%Q).
  { assert (E1 : (2 ^ (-38) == / inject_Z (2 ^ 38))%Q) by reflexivity.
    rewrite E1.
    assert (Hle : (inject_Z b <= inject_Z (2 ^ 38))%Q) by (rewrite <- Zle_Qle; lia).
    assert (Hp : (0 < inject_Z (2 ^ 38))%Q) by reflexivity.
    apply Qle_shift_inv_l; [assumption |].
    assert (E2 : (/ inject_Z (2 ^ 38) * inject_Z b == inject_Z b / inject_Z (2 ^ 38))%Q)
      by (unfold Qdiv; ring).
    rewrite E2. apply Qle_shift_div_r; [assumption |]. rewrite Qmult_1_l. exact Hle. }
  change (2 - 42) with (-40) in E.
  assert (P : (2 ^ (-40) < 2 ^ (-38))%Q) by reflexivity.
  assert (P0 : (0 < 2 ^ (-40))%Q) by reflexivity.
  assert (P1 : (2 ^ (-40) < 1)%Q) by reflexivity.
  apply Qabs_Qle_condition in E.
  set (xq := Float.to_Q x) in *. set (ib := (/ inject_Z b)%Q) in *.
  set (e40 := (2 ^ (-40))%Q) in *. set (e38 := (2 ^ (-38))%Q) in *.
  assert (Hk1 : (inject_Z k < inject_Z f + 1)%Q) by lra.
  assert (Hk2 : (inject_Z f - 1 < inject_Z k + 1)%Q) by lra.
  rewrite inject_Z_succ, <- Zlt_Qlt in Hk1.
  assert (E3 : (inject_Z f - 1 == inject_Z (f - 1))%Q)
    by (unfold Z.sub; rewrite inject_Z_plus; reflexivity).
  rewrite E3, inject_Z_succ, <- Zlt_Qlt in Hk2. lia.
Qed.

(** From 110% of the whole on, the percentage is at least 100. *)
Lemma percentage_cap (a b : Z) :
  0 < b -> 11 * b <= 10 * a -> a <= Float.sys_maxsize ->
  exists k, Float.to_int (Float.mul (Float.truediv a b) (Float.of_int 100)) = Some k
            /\ GithubAuth.int_min_100 (Float.mul (Float.truediv a b) (Float.of_int 100))
               = Some (Z.min 100 k)
            /\ 100 <= k.
Proof.
  intros Hb Hab Ha.
  assert (Hd1 : Zdigits2 a <= 63).
  { apply Zdigits2_le_iff; [lia | lia |]. unfold Float.sys_maxsize in Ha. lia. }
  assert (Hd2 : 1 <= Zdigits2 b) by (destruct b; simpl; lia).
  assert (Hd : Zdigits2 b <= Zdigits2 a) by (apply Zdigits2_mono; lia).
  set (B := Zdigits2 a - Zdigits2 b + 1).
  destruct (percentage_error a b B ltac:(lia) ltac:(lia) ltac:(lia) ltac:(lia)
              ltac:(lia) ltac:(lia)) as (E & S & N).
  cbv zeta in E, S, N.
  set (x := Float.mul (Float.truediv a b) (Float.of_int 100)) in *.
  destruct (to_int_floor _ x S N) as (k & Hk & Hk0 & Hlo & Hhi).
  exists k. split; [exact Hk |]. split; [apply (int_min_100_min _ _ _ S N Hk) |].
  assert (Hbpos : (0 < inject_Z b)%Q) by (rewrite <- (Zlt_Qlt 0); lia).
  set (q := (inject_Z a / inject_Z b)%Q) in *.
  assert (Hq1 : (11 # 10 <= q)%Q).
  { unfold q. apply Qle_shift_div_l; [assumption |].
    assert (E1 : ((11 # 10) * inject_Z b == inject_Z (11 * b) / 10)%Q)
      by (rewrite inject_Z_mult; change (inject_Z 11) with 11%Q; field).
    rewrite E1. apply Qle_shift_div_r; [reflexivity |].
    change 10%Q with (inject_Z 10). rewrite <- inject_Z_mult, <- Zle_Qle. lia. }
  assert (Hq2 : (2 ^ (B - 2) <= q)%Q).
  { unfold q. apply Qle_shift_div_l; [assumption |].
    apply Qle_trans with (inject_Z (2 ^ (Zdigits2 a - 1))).
    - rewrite inject_Z_pow2 by lia.
      replace (Zdigits2 a - 1) with ((B - 2) + Zdigits2 b) by (unfold B; lia).
      rewrite Qpower2_add. apply Qmult_le_l; [apply Qpower2_pos |].
      rewrite <- inject_Z_pow2 by lia. rewrite <- Zle_Qle.
      assert (b < 2 ^ Zdigits2 b) by (apply Zdigits2_le_iff; lia). lia.
    - rewrite <- Zle_Qle. apply Zdigits2_lower. lia. }
  assert (HE : (2 ^ (B - 42) <= q * (1 # 1000))%Q).
  { replace (B - 42) with ((B - 2) + (-40)) by lia. rewrite Qpower2_add.
    apply Qle_trans with (2 ^ (B - 2) * (1 # 1000))%Q.
    - apply Qmult_le_l; [apply Qpower2_pos | discriminate].
    - apply Qmult_le_compat_r; [assumption | discriminate]. }
  apply Qabs_Qle_condition in E.
  set (xq := Float.to_Q x) in *. set (e := (2 ^ (B - 42))%Q) in *.
  assert (Hk1 : (inject_Z 100 < inject_Z k + 1)%Q)
    by (change (inject_Z 100) with 100%Q; lra).
  rewrite inject_Z_succ, <- Zlt_Qlt in Hk1. lia.
Qed.

(** The percentage score of [a] out of [b]: [min(100, int((a / b) * 100))]
    is the integer percentage capped at 100, or one less. *)
Lemma percentage_score (a b : Z) :
  0 <= a <= Float.sys_maxsize -> 0 < b <= 2 ^ 38 ->
  exists k, Float.to_int (Float.mul (Float.truediv a b) (Float.of_int 100)) = Some k
            /\ GithubAuth.int_min_100 (Float.mul (Float.truediv a b) (Float.of_int 100))
               = Some (Z.min 100 k)
            /\ Z.min 100 (100 * a / b) - 1 <= Z.min 100 k <= Z.min 100 (100 * a / b).
Proof.
  intros Ha Hb. destruct (Z_le_gt_dec a (2 * b)) as [Hle | Hgt].
  - destruct (percentage_floor a b ltac:(lia) Hb) as (k & Hk & Hm & Hf).
    exists k. split; [exact Hk |]. split; [exact Hm | lia].
  - destruct (percentage_cap a b ltac:(lia) ltac:(lia) ltac:(lia)) as (k & Hk & Hm & Hf).
    exists k. split; [exact Hk |]. split; [exact Hm |].
    assert (200 <= 100 * a / b) by (apply Z.div_le_lower_bound; lia). lia.
Qed.

Lemma forallb_below (P : Z -> bool) (n : nat) :
  forallb P (List.map Z.of_nat (seq 0 n)) = true ->
  forall a, 0 <= a < Z.of_nat n -> P a = true.
Proof.
  intros H a Ha. rewrite forallb_forall in H. apply H.
  apply List.in_map_iff. exists (Z.to_nat a). split; [lia | apply in_seq; lia].
Qed.

(** Out of 10 and out of 52 the percentage is exact. *)
Lemma percentage_of_10 (r : Z) :
  0 <= r <= Float.sys_maxsize ->
  GithubAuth.int_min_100 (Float.mul (Float.truediv r 10) (Float.of_int 100))
  = Some (Z.min 100 (10 * r)).
Proof.
  intros Hr. destruct (Z_le_gt_dec r 20) as [Hle | Hgt].
  - pose proof (forallb_below
      (fun r => match GithubAuth.int_min_100
                        (Float.mul (Float.truediv r 10) (Float.of_int 100)) with
                | Some k => k =? Z.min 100 (10 * r)
                | None => false
                end) 21 ltac:(vm_compute; reflexivity) r ltac:(lia)) as H.
    cbv beta in H. destruct (GithubAuth.int_min_100 _) as [k |]; [| discriminate].
    apply Z.eqb_eq in H. congruence.
  - destruct (percentage_cap r 10 ltac:(lia) ltac:(lia) ltac:(lia)) as (k & _ & -> & Hk).
    f_equal. lia.
Qed.

Lemma percentage_of_52 (w : Z) :
  0 <= w <= Float.sys_maxsize ->
  GithubAuth.int_min_100 (Float.mul (Float.truediv w 52) (Float.of_int 100))
  = Some (Z.min 100 (100 * w / 52)).
Proof.
  intros Hw. destruct (Z_le_gt_dec w 104) as [Hle | Hgt].
  - pose proof (forallb_below
      (fun w => match GithubAuth.int_min_100
                        (Float.mul (Float.truediv w 52) (Float.of_int 100)) with
                | Some k => k =? Z.min 100 (100 * w / 52)
                | None => false
                end) 105 ltac:(vm_compute; reflexivity) w ltac:(lia)) as H.
    cbv beta in H. destruct (GithubAuth.int_min_100 _) as [k |]; [| discriminate].
    apply Z.eqb_eq in H. congruence.
  - destruct (percentage_cap w 52 ltac:(lia) ltac:(lia) ltac:(lia)) as (k & _ & -> & Hk).
    f_equal. assert (200 <= 100 * w / 52) by (apply Z.div_le_lower_bound; lia). lia.
Qed.

Import GithubAuth.

(** * The commit verifier *)

(** ** The pages of commits *)

Lemma fetch_all_commits_pages (api : github_api) (fuel p : nat)
  (all_commits : list commit) (log : list endpoint) :
  (1 <= p)%nat -> (p + fuel = 11)%nat ->
  exists n : nat,
    (n <= fuel)%nat
    /\ Forall (fun q => page_ok api (Z.of_nat q) = true) (seq p n)
    /\ ((n < fuel)%nat -> page_ok api (Z.of_nat (p + n)) = false)
    /\ fetch_all_commits fuel (Z.of_nat p) all_commits api log
       = (all_commits
          ++ concat (List.map (fun q => json (commits_response api (Z.of_nat q))) (seq p n)),
          log ++ List.map (fun q => GET_commits (Z.of_nat q)) (seq p (Nat.min fuel (n + 1)))).
Proof.
  revert p all_commits log.
  induction fuel as [| fuel IH]; intros p all_commits log Hp Hf.
  - exists 0%nat. split; [lia |]. split; [constructor |]. split; [lia |].
    simpl. unfold ret. rewrite !app_nil_r. reflexivity.
  - simpl fetch_all_commits. unfold bind, requests_get_commits.
    unfold page_ok in *. cbv beta iota zeta.
    destruct (status_code (commits_response api (Z.of_nat p)) =? 200) eqn:Hs;
      simpl negb; cbv iota.
    2:{ exists 0%nat. split; [lia |]. split; [constructor |].
        split; [intros _; rewrite Nat.add_0_r, Hs; reflexivity |].
        replace (Nat.min (S fuel) (0 + 1)) with 1%nat by lia.
        unfold ret. simpl. rewrite app_nil_r. reflexivity. }
    destruct (json (commits_response api (Z.of_nat p))) as [| c l] eqn:Hj.
    { exists 0%nat. split; [lia |]. split; [constructor |].
      split; [intros _; rewrite Nat.add_0_r, Hs, Hj; reflexivity |].
      replace (Nat.min (S fuel) (0 + 1)) with 1%nat by lia.
      unfold ret. simpl. rewrite app_nil_r. reflexivity. }
    destruct (Z.of_nat p + 1 >? 10) eqn:Hlast.
    + assert (p = 10%nat) by lia. subst p. assert (fuel = 0%nat) by lia. subst fuel.
      exists 1%nat. split; [lia |].
      split; [constructor; [rewrite Hs, Hj; reflexivity | constructor] |].
      split; [lia |].
      unfold ret. simpl. rewrite Hj, app_nil_r. reflexivity.
    + assert (Hp' : (p + 1 <= 10)%nat) by lia.
      replace (Z.of_nat p + 1) with (Z.of_nat (S p)) by lia.
      destruct (IH (S p) (all_commits ++ c :: l) (log ++ [GET_commits (Z.of_nat p)])
                   ltac:(lia) ltac:(lia)) as (n & Hn & Hok & Hstop & Hrun).
      exists (S n). split; [lia |].
      split; [constructor; [rewrite Hs, Hj; reflexivity | exact Hok] |].
      split; [intros Hlt; replace (p + S n)%nat with (S p + n)%nat by lia;
              apply Hstop; lia |].
      change (negb true) with false. cbv iota. rewrite Hrun. f_equal.
      * simpl. rewrite Hj, <- app_assoc. reflexivity.
      * replace (Nat.min (S fuel) (S n + 1)) with (S (Nat.min fuel (n + 1))) by lia.
        simpl. rewrite <- app_assoc. reflexivity.
Qed.

Lemma get_user_commits_pages (username : string) (api : github_api) :
  exists n : nat,
    (n <= 10)%nat
    /\ Forall (fun p => page_ok api (Z.of_nat p) = true) (seq 1 n)
    /\ ((n < 10)%nat -> page_ok api (Z.of_nat (n + 1)) = false)
    /\ requests (get_user_commits username) api
       = List.map (fun p => GET_commits (Z.of_nat p)) (seq 1 (Nat.min 10 (n + 1)))
    /\ result (get_user_commits username) api
       = List.filter (matches username) (commits_of_pages api n).
Proof.
  destruct (fetch_all_commits_pages api 10 1 [] [] ltac:(lia) ltac:(lia))
    as (n & Hn & Hok & Hstop & Hrun).
  exists n. split; [exact Hn |]. split; [exact Hok |].
  split; [intros H; replace (n + 1)%nat with (1 + n)%nat by lia; apply Hstop, H |].
  unfold requests, result, run, get_user_commits, bind.
  change (Z.of_nat 1) with 1 in Hrun. rewrite Hrun. unfold ret. simpl fst. simpl snd.
  split; reflexivity.
Qed.



(** ** The three scores *)

Lemma size_list_to_set_le (l : list Z) : (size (list_to_set l : gset Z) <= length l)%nat.
Proof.
  induction l as [| x l IH].
  - rewrite list_to_set_nil, size_empty. simpl. lia.
  - rewrite list_to_set_cons, size_union_alt, size_singleton. simpl length.
    pose proof (subseteq_size (list_to_set l ∖ {[x]} : gset Z) (list_to_set l)
                  ltac:(apply subseteq_difference_l; reflexivity)).
    lia.
Qed.

(** The consistency score is 0 for fewer than two dated commits, and
    otherwise the whole percentage of 52 that the number of distinct
    ISO week numbers makes, capped at 100: the float computation loses
    nothing. *)
Theorem consistency_score_is_percentage_of_52_weeks (commit_dates : list datetime) :
  Z.of_nat (length commit_dates) <= Float.sys_maxsize ->
  let weeks := Z.of_nat (size (list_to_set (Datetime.isoweek <$> commit_dates) : gset Z)) in
  _calculate_consistency commit_dates
  = Some (if (length commit_dates <? 2)%nat then 0 else Z.min 100 (100 * weeks / 52)).
Proof.
  intros Hlen weeks. unfold _calculate_consistency.
  destruct commit_dates as [| d1 [| d2 l]]; [reflexivity | reflexivity |].
  cbv zeta. fold weeks.
  change (length (d1 :: d2 :: l) <? 2)%nat with false. cbv iota.
  apply percentage_of_52. split; [lia |].
  pose proof (size_list_to_set_le (Datetime.isoweek <$> (d1 :: d2 :: l))) as H.
  rewrite length_fmap in H. unfold weeks. lia.
Qed.

(** The activity score is ten times the number of commits of the last
    90 days, capped at 100. *)
Theorem activity_score_is_ten_per_recent_commit (now : datetime)
  (commit_dates : list datetime) :
  Z.of_nat (length commit_dates) <= Float.sys_maxsize ->
  let recent_commits :=
    Z.of_nat (length (List.filter (fun date => Datetime.sub_days now date <=? 90)
                                  commit_dates)) in
  _calculate_activity_score now commit_dates = Some (Z.min 100 (10 * recent_commits)).
Proof.
  intros Hlen recent_commits. unfold _calculate_activity_score.
  destruct commit_dates as [| d l]; [reflexivity |].
  cbv zeta. fold recent_commits. apply percentage_of_10. split; [lia |].
  pose proof (List.filter_length_le (fun date => Datetime.sub_days now date <=? 90)
                                    (d :: l)) as H.
  unfold recent_commits. lia.
Qed.

(** The ownership score is the whole percentage of the repository's
    commits that the user's commits make, capped at 100, or one less:
    the float product can fall just below a whole number that the
    exact percentage reaches. *)
Theorem ownership_score_is_percentage_or_one_less (user_commits : Z) (api : github_api) :
  0 <= user_commits <= Float.sys_maxsize ->
  status_code (repo_response api) = 200 ->
  status_code (contributor_stats_response api) = 200 ->
  0 < sum_totals (json (contributor_stats_response api)) <= 2 ^ 38 ->
  let total_commits := sum_totals (json (contributor_stats_response api)) in
  exists ownership_score,
    result (_calculate_ownership_score user_commits) api
    = Some (ownership_score, total_commits)
    /\ Z.min 100 (100 * user_commits / total_commits) - 1 <= ownership_score
       <= Z.min 100 (100 * user_commits / total_commits).
Proof.
  intros Hu Hrepo Hstats Ht total_commits.
  rewrite calculate_ownership_score_result, Hrepo, Hstats.
  change (negb (200 =? 200)) with false. cbv iota zeta. fold total_commits.
  replace (total_commits =? 0) with false by (symmetry; apply Z.eqb_neq; lia).
  destruct (percentage_score user_commits total_commits Hu Ht) as (k & -> & _ & Hk).
  exists (Z.min 100 k). split; [reflexivity | exact Hk].
Qed.

Lemma ownership_score_is_percentage_or_one_less_witness :
  0 <= 29 <= Float.sys_maxsize
  /\ status_code (repo_response fifty_commits_api) = 200
  /\ status_code (contributor_stats_response fifty_commits_api) = 200
  /\ sum_totals (json (contributor_stats_response fifty_commits_api)) = 50
  /\ 100 * 29 / 50 = 58
  /\ result (_calculate_ownership_score 29) fifty_commits_api = Some (57, 50).
Proof.
  assert (H1 : 0 <= 29 <= Float.sys_maxsize) by (vm_compute; split; discriminate).
  assert (H4 : 0 < sum_totals (json (contributor_stats_response fifty_commits_api))
               <= 2 ^ 38) by (vm_compute; split; [reflexivity | discriminate]).
  destruct (ownership_score_is_percentage_or_one_less 29 fifty_commits_api
              H1 eq_refl eq_refl H4) as (s & Hs & _).
  split; [exact H1 |]. split; [reflexivity |]. split; [reflexivity |].
  split; [reflexivity |]. split; [reflexivity |].
  rewrite Hs. vm_compute in Hs. injection Hs as <-. reflexivity.
Defined.

Lemma length_omap_le {A B : Type} (f : A -> option B) (l : list A) :
  (length (omap f l) <= length l)%nat.
Proof.
  induction l as [| x l IH]; [simpl; lia |].
  change (omap f (x :: l))
    with (match f x with Some y => y :: omap f l | None => omap f l end).
  destruct (f x); simpl length; lia.
Qed.

Lemma consistency_below_26_weeks (w : Z) (k : Z) :
  0 <= w < 26 ->
  int_min_100 (Float.mul (Float.truediv w 52) (Float.of_int 100)) = Some k -> k < 50.
Proof.
  intros Hw Hk.
  pose proof (forallb_below
    (fun w => match int_min_100 (Float.mul (Float.truediv w 52) (Float.of_int 100)) with
              | Some k => k <? 50
              | None => false
              end) 26 ltac:(vm_compute; reflexivity) w ltac:(lia)) as H.
  cbv beta in H. rewrite Hk in H. apply Z.ltb_lt, H.
Qed.

(** A verdict is authentic only when the matched commits fall in at
    least 26 different ISO week numbers, hence only with at least 26
    matched commits: the threshold of 5 commits never decides. *)
Theorem authentic_verdict_needs_26_weeks (now : datetime) (username : string)
  (api : github_api) (v : verdict) :
  result (analyze_commit_pattern now username) api = Some v ->
  is_authentic v = true ->
  let commit_dates := commit_dates_of (result (get_user_commits username) api) in
  26 <= Z.of_nat (size (list_to_set (Datetime.isoweek <$> commit_dates) : gset Z))
  /\ 26 <= user_commits v.
Proof.
  intros Hv Hauth commit_dates. rewrite analyze_commit_pattern_result in Hv.
  cbv zeta in Hv. fold commit_dates in Hv.
  destruct (result (get_user_commits username) api) as [| c l] eqn:Hc.
  { injection Hv as <-. discriminate Hauth. }
  destruct (_calculate_consistency commit_dates) as [cs |] eqn:Hcs; [| discriminate].
  destruct (_calculate_activity_score now commit_dates) as [a |]; [| discriminate].
  destruct (result (_calculate_ownership_score _) api) as [[o t] |]; [| discriminate].
  injection Hv as <-. cbn [is_authentic user_commits] in *.
  apply andb_prop in Hauth as [Hauth _]. apply andb_prop in Hauth as [_ H50].
  apply Z.geb_le in H50.
  set (w := Z.of_nat (size (list_to_set (Datetime.isoweek <$> commit_dates) : gset Z))).
  assert (Hw : 26 <= w).
  { destruct (Z_le_gt_dec 26 w) as [| Hlt]; [assumption | exfalso].
    unfold _calculate_consistency in Hcs.
    destruct commit_dates as [| d1 [| d2 dl]];
      [injection Hcs as <-; lia | injection Hcs as <-; lia |].
    cbv zeta in Hcs. fold w in Hcs.
    pose proof (consistency_below_26_weeks w cs ltac:(lia) Hcs). lia. }
  split; [exact Hw |].
  pose proof (size_list_to_set_le (Datetime.isoweek <$> commit_dates)) as H1.
  rewrite length_fmap in H1.
  pose proof (length_omap_le author_date (c :: l)) as H2.
  fold (commit_dates_of (c :: l)) in H2. fold commit_dates in H2. unfold w in Hw.
  simpl length in H2. lia.
Qed.

Lemma carol_verdict :
  exists t,
    result (analyze_commit_pattern alice_now "carol") carol_api
    = Some {| user_commits := 28; total_commits := 40; ownership_score := 70;
              activity_score := 0; consistency_score := 53; is_authentic := true;
              dates := Some t |}.
Proof. eexists. vm_compute. reflexivity. Qed.

Lemma authentic_verdict_needs_26_weeks_witness :
  exists v,
    result (analyze_commit_pattern alice_now "carol") carol_api = Some v
    /\ is_authentic v = true /\ 26 <= user_commits v.
Proof.
  destruct carol_verdict as (t & Ht). eexists. split; [exact Ht |].
  split; [reflexivity |].
  exact (proj2 (authentic_verdict_needs_26_weeks alice_now "carol" carol_api _ Ht eq_refl)).
Defined.

Lemma consistency_score_is_percentage_of_52_weeks_witness :
  Z.of_nat (length (commit_dates_of carol_page)) <= Float.sys_maxsize
  /\ Z.of_nat (size (list_to_set (Datetime.isoweek <$> commit_dates_of carol_page)
                     : gset Z)) = 28
  /\ _calculate_consistency (commit_dates_of carol_page) = Some 53.
Proof.
  assert (H : Z.of_nat (length (commit_dates_of carol_page)) <= Float.sys_maxsize)
    by (vm_compute; discriminate).
  assert (Hw : Z.of_nat (size (list_to_set (Datetime.isoweek <$> commit_dates_of carol_page)
                               : gset Z)) = 28) by (vm_compute; reflexivity).
  split; [exact H |]. split; [exact Hw |].
  rewrite (consistency_score_is_percentage_of_52_weeks _ H). cbv zeta. rewrite Hw.
  reflexivity.
Defined.

Lemma activity_score_is_ten_per_recent_commit_witness :
  let commit_dates := commit_dates_of (List.filter (matches "alice") alice_page) in
  Z.of_nat (length commit_dates) <= Float.sys_maxsize
  /\ length (List.filter (fun date => Datetime.sub_days alice_now date <=? 90)
                         commit_dates) = 2%nat
  /\ _calculate_activity_score alice_now commit_dates = Some 20.
Proof.
  cbv zeta.
  assert (H : Z.of_nat (length (commit_dates_of
                                  (List.filter (matches "alice") alice_page)))
              <= Float.sys_maxsize) by (vm_compute; discriminate).
  split; [exact H |]. split; [vm_compute; reflexivity |].
  rewrite (activity_score_is_ten_per_recent_commit alice_now _ H). vm_compute. reflexivity.
Defined.

(** ** The verdict *)

Lemma calculate_ownership_score_bounds (user_commits : Z) (api : github_api) (o t : Z) :
  0 <= user_commits <= Float.sys_maxsize ->
  0 <= sum_totals (json (contributor_stats_response api)) ->
  result (_calculate_ownership_score user_commits) api = Some (o, t) ->
  0 <= o <= 100 /\ 0 <= t.
Proof.
  intros Hu Ht. rewrite calculate_ownership_score_result.
  destruct (negb _); [intros [= <- <-]; lia |].
  destruct (negb _).
  { intros [= <- <-]. lia. }
  cbv zeta. destruct (sum_totals _ =? 0) eqn:Ht0; [intros [= <- <-]; lia |].
  apply Z.eqb_neq in Ht0.
  set (total := sum_totals (json (contributor_stats_response api))) in *.
  assert (Hsmall : Float.small 72 (Float.mul (Float.truediv user_commits total)
                                             (Float.of_int 100))).
  { change 72 with (64 + 7 + 1). apply mul_small; [| apply small_of_int_100 | lia].
    apply truediv_small; [lia | assumption | | lia].
    assert (Zdigits2 user_commits <= 63); [| lia].
    apply Zdigits2_le_iff; [lia | lia |]. unfold Float.sys_maxsize in Hu. lia. }
  assert (Hnn : Float.nonneg (Float.mul (Float.truediv user_commits total)
                                        (Float.of_int 100)))
    by (apply nonneg_mul; [apply nonneg_truediv; lia | reflexivity]).
  destruct (to_int_floor _ _ Hsmall Hnn) as (k & -> & Hk & _).
  intros [= <- <-]. lia.
Qed.

(** Every score of a verdict is between 0 and 100, and its commit
    counts are not negative, whatever the API answers (with
    contributor totals that are not negative). *)
Theorem verdict_scores_are_between_0_and_100 (now : datetime) (username : string)
  (api : github_api) (v : verdict) :
  Z.of_nat (length (result (get_user_commits username) api)) <= Float.sys_maxsize ->
  0 <= sum_totals (json (contributor_stats_response api)) ->
  result (analyze_commit_pattern now username) api = Some v ->
  0 <= ownership_score v <= 100
  /\ 0 <= activity_score v <= 100
  /\ 0 <= consistency_score v <= 100
  /\ 0 <= user_commits v /\ 0 <= total_commits v.
Proof.
  intros Hlen Ht Hv. rewrite analyze_commit_pattern_result in Hv. cbv zeta in Hv.
  destruct (result (get_user_commits username) api) as [| c l] eqn:Hc.
  { injection Hv as <-. simpl. lia. }
  set (commits := c :: l) in *. set (commit_dates := commit_dates_of commits) in *.
  assert (Hd : Z.of_nat (length commit_dates) <= Float.sys_maxsize).
  { pose proof (length_omap_le author_date commits) as H.
    fold (commit_dates_of commits) in H. fold commit_dates in H. lia. }
  assert (Hcs : exists cs, _calculate_consistency commit_dates = Some cs /\ 0 <= cs <= 100).
  { unfold _calculate_consistency.
    destruct commit_dates as [| d1 [| d2 dl]] eqn:Hcd;
      [exists 0; split; [reflexivity | lia] | exists 0; split; [reflexivity | lia] |].
    cbv zeta. rewrite percentage_of_52.
    - eexists. split; [reflexivity |].
      assert (0 <= 100 * Z.of_nat (size (list_to_set (Datetime.isoweek <$> d1 :: d2 :: dl)
                                         : gset Z)) / 52)
        by (apply Z.div_pos; lia).
      lia.
    - pose proof (size_list_to_set_le (Datetime.isoweek <$> d1 :: d2 :: dl)) as H.
      rewrite length_fmap in H. lia. }
  assert (Ha : exists a, _calculate_activity_score now commit_dates = Some a
                         /\ 0 <= a <= 100).
  { unfold _calculate_activity_score.
    destruct commit_dates as [| d dl] eqn:Hcd; [exists 0; split; [reflexivity | lia] |].
    cbv zeta. rewrite percentage_of_10.
    - eexists. split; [reflexivity |]. lia.
    - pose proof (List.filter_length_le (fun date => Datetime.sub_days now date <=? 90)
                                        (d :: dl)) as H.
      lia. }
  destruct Hcs as (cs & Ecs & Hcs). destruct Ha as (a & Ea & Ha).
  unfold commits in Hv. cbv iota in Hv. fold commits in Hv. fold commit_dates in Hv.
  rewrite Ecs, Ea in Hv.
  destruct (result (_calculate_ownership_score (Z.of_nat (length commits))) api)
    as [[o t] |] eqn:Ho; [| discriminate].
  apply calculate_ownership_score_bounds in Ho; [| lia | assumption].
  injection Hv as <-. cbn [ownership_score activity_score consistency_score user_commits
                            total_commits]. lia.
Qed.

Lemma verdict_scores_are_between_0_and_100_witness :
  exists v,
    result (analyze_commit_pattern alice_now "carol") carol_api = Some v
    /\ 0 <= ownership_score v <= 100
    /\ 0 <= activity_score v <= 100
    /\ 0 <= consistency_score v <= 100.
Proof.
  destruct carol_verdict as (t & Ht). eexists. split; [exact Ht |].
  assert (H1 : Z.of_nat (length (result (get_user_commits "carol") carol_api))
               <= Float.sys_maxsize) by (vm_compute; discriminate).
  assert (H2 : 0 <= sum_totals (json (contributor_stats_response carol_api)))
    by (vm_compute; discriminate).
  destruct (verdict_scores_are_between_0_and_100 alice_now "carol" carol_api _ H1 H2 Ht)
    as (Ho & Ha & Hc & _).
  split; [exact Ho | split; [exact Ha | exact Hc]].
Defined.

Import TrustScorer.
Local Open Scope string_scope.

(** * The risk report *)

(** Milestone credibility is 100 less 20 for fewer than 10
    transactions, 15 for fewer than 50 commits and 15 for fewer than 2
    contributors; it is never below 50, so its clamp at 0 never
    applies, and it is 50 when the on-chain and code analyses are
    missing. *)
Theorem milestone_credibility_is_at_least_50 (results : report_input) :
  let transactions :=
    get_field (input_on_chain_analysis results) dict_transaction_count in
  let commits := get_field (input_code_analysis results) dict_commits in
  let contributors := get_field (input_code_analysis results) dict_contributors in
  _assess_milestone_credibility results
  = 100 - (if Number.ltb transactions (Int 10) then 20 else 0)
        - (if Number.ltb commits (Int 50) then 15 else 0)
        - (if Number.ltb contributors (Int 2) then 15 else 0)
  /\ 50 <= _assess_milestone_credibility results <= 100
  /\ (input_on_chain_analysis results = None -> input_code_analysis results = None ->
      _assess_milestone_credibility results = 50).
Proof.
  cbv zeta. unfold _assess_milestone_credibility. cbv zeta.
  split; [| split].
  - destruct (Number.ltb _ (Int 10)), (Number.ltb _ (Int 50)), (Number.ltb _ (Int 2));
      reflexivity.
  - destruct (Number.ltb _ (Int 10)), (Number.ltb _ (Int 50)), (Number.ltb _ (Int 2));
      lia.
  - intros -> ->. reflexivity.
Qed.

Ltac destruct_tests :=
  repeat match goal with
         | |- context [if ?b then _ else _] => destruct b eqn:?
         end.

Lemma component_factors_cases (a b c : number) :
  let f := component_factors a b c in
  (In documentation_risk (fst f) <-> Number.ltb a (Int 50) = true)
  /\ (In on_chain_risk (fst f) <-> Number.ltb b (Int 50) = true)
  /\ (In code_quality_risk (fst f) <-> Number.ltb c (Int 50) = true)
  /\ (In documentation_positive (snd f)
      <-> Number.ltb a (Int 50) = false /\ Number.geb a (Int 80) = true)
  /\ (In on_chain_positive (snd f)
      <-> Number.ltb b (Int 50) = false /\ Number.geb b (Int 80) = true)
  /\ (In code_quality_positive (snd f)
      <-> Number.ltb c (Int 50) = false /\ Number.geb c (Int 80) = true)
  /\ (forall rf, In rf (fst f) ->
      rf = documentation_risk \/ rf = on_chain_risk \/ rf = code_quality_risk)
  /\ (forall pf, In pf (snd f) ->
      pf = documentation_positive \/ pf = on_chain_positive \/ pf = code_quality_positive)
  /\ (length (fst f) + length (snd f) <= 3)%nat.
Proof.
  cbv zeta. unfold component_factors. cbv zeta.
  destruct (Number.ltb a (Int 50)), (Number.geb a (Int 80)),
    (Number.ltb b (Int 50)), (Number.geb b (Int 80)),
    (Number.ltb c (Int 50)), (Number.geb c (Int 80));
    cbn [fst snd app In length];
    repeat split; try tauto; try lia; intros; intuition (try discriminate; auto).
Qed.

(** The report, field by field. *)
Lemma generate_risk_report_fields (results : report_input) (report : risk_report) :
  generate_risk_report results = Some report ->
  exists trust_score off_chain on_chain ai_analysis risk_level overall_score confidence,
    input_trust_score results = Some trust_score
    /\ input_component_scores results
       = Some (mk_component_dict (Some off_chain) (Some on_chain) (Some ai_analysis))
    /\ dict_risk_level trust_score = Some risk_level
    /\ dict_overall_score trust_score = Some overall_score
    /\ dict_confidence trust_score = Some confidence
    /\ risk_factors report
       = append_if (_calculate_fraud_likelihood (fraud_input results) >? 70) fraud_risk
           (append_if
              (Number.gtb
                 (Number.sub (Number.max_list off_chain [on_chain; ai_analysis])
                             (Number.min_list off_chain [on_chain; ai_analysis]))
                 (Int 40))
              consistency_risk (fst (component_factors off_chain on_chain ai_analysis)))
    /\ positive_factors report = snd (component_factors off_chain on_chain ai_analysis)
    /\ fraud_likelihood report = _calculate_fraud_likelihood (fraud_input results)
    /\ milestone_credibility report = _assess_milestone_credibility results
    /\ total_risk_count report = Z.of_nat (length (risk_factors report))
    /\ overall_risk_level report = risk_level
    /\ investment_readiness report = _calculate_investment_readiness overall_score
    /\ _generate_recommendations (risk_factors report) trust_score
       = Some (recommended_actions report).
Proof.
  unfold generate_risk_report.
  destruct (input_trust_score results) as [t |]; [| discriminate].
  destruct (input_component_scores results) as [[[a |] [b |] [c |]] |];
    try discriminate.
  cbn [component_off_chain component_on_chain component_ai_analysis].
  destruct (component_factors a b c) as [rfs pfs] eqn:Hf. cbv zeta.
  destruct (dict_risk_level t) as [lvl |] eqn:Hlvl; [| discriminate].
  destruct (dict_overall_score t) as [o |] eqn:Ho; [| discriminate].
  destruct (_generate_recommendations _ t) as [recs |] eqn:Hrecs; [| discriminate].
  intros [= <-]. exists t, a, b, c, lvl, o.
  assert (Hcf : exists cf, dict_confidence t = Some cf).
  { unfold _generate_recommendations in Hrecs. rewrite Ho in Hrecs.
    destruct (dict_confidence t); [eauto | discriminate]. }
  destruct Hcf as [cf Hcf]. exists cf.
  cbn [risk_factors positive_factors fraud_likelihood milestone_credibility
       total_risk_count overall_risk_level investment_readiness recommended_actions
       fst snd].
  rewrite Hf. cbn [fst snd].
  repeat split; try reflexivity; try assumption.
Qed.

Lemma fraud_likelihood_values (results : analysis_results) :
  let docs := Number.ltb (get_score (off_chain_analysis results)) (Int 30) in
  let chain := Number.ltb (get_score (on_chain_analysis results)) (Int 20) in
  let code := Number.ltb (get_score (code_analysis results)) (Int 20) in
  In (_calculate_fraud_likelihood results) [0; 30; 40; 60; 70; 100]
  /\ ((_calculate_fraud_likelihood results >? 70) = true
      <-> docs = true /\ chain = true /\ code = true)
  /\ (_calculate_fraud_likelihood results = 100
      <-> docs = true /\ chain = true /\ code = true).
Proof.
  cbv zeta. rewrite calculate_fraud_likelihood_sum.
  destruct (Number.ltb _ (Int 30)), (Number.ltb _ (Int 20)), (Number.ltb _ (Int 20));
    simpl; repeat split; intros; try tauto; try lia; try discriminate;
    intuition (try discriminate; try lia).
Qed.

(** The fraud likelihood is one of 0, 30, 40, 60, 70 and 100, and it
    passes the alert threshold of 70 only at 100: the report holds the
    critical fraud factor exactly when the documents score is below 30
    and both the on-chain and the code score are below 20 (a missing
    analysis or score counts as 0). *)
Theorem fraud_alert_needs_all_three_signals (results : report_input)
  (report : risk_report) :
  generate_risk_report results = Some report ->
  let score a := get_field a dict_score in
  In (fraud_likelihood report) [0; 30; 40; 60; 70; 100]
  /\ (In fraud_risk (risk_factors report) <-> fraud_likelihood report = 100)
  /\ (fraud_likelihood report = 100
      <-> Number.ltb (score (input_off_chain_analysis results)) (Int 30) = true
          /\ Number.ltb (score (input_on_chain_analysis results)) (Int 20) = true
          /\ Number.ltb (score (input_code_analysis results)) (Int 20) = true).
Proof.
  intros H score. apply generate_risk_report_fields in H.
  destruct H as (t & a & b & c & lvl & o & cf & _ & _ & _ & _ & _ & Hrf & _ & Hfl & _).
  pose proof (fraud_likelihood_values (fraud_input results)) as (Hin & Hgt & H100).
  cbv zeta in Hgt, H100.
  assert (Hs : forall x, get_score (option_map (fun a => mk_analysis (dict_score a)) x)
                         = score x) by (intros [x |]; reflexivity).
  unfold fraud_input in Hgt, H100.
  cbn [off_chain_analysis on_chain_analysis code_analysis] in Hgt, H100.
  rewrite !Hs in Hgt, H100. fold (fraud_input results) in Hgt, H100.
  rewrite Hfl. split; [exact Hin |]. split; [| exact H100].
  rewrite Hrf. pose proof (component_factors_cases a b c) as Hc. cbv zeta in Hc.
  destruct Hc as (_ & _ & _ & _ & _ & _ & Hrisk & _).
  unfold append_if.
  destruct (_calculate_fraud_likelihood (fraud_input results) >? 70) eqn:Hf.
  - split; [intros _; apply H100, Hgt; reflexivity |].
    intros _. apply in_or_app. right. left. reflexivity.
  - split.
    + intros Hin'. exfalso.
      assert (Hin'' : In fraud_risk (fst (component_factors a b c))
                      \/ fraud_risk = consistency_risk).
      { destruct (Number.gtb _ (Int 40)); [| left; exact Hin'].
        apply in_app_or in Hin'. destruct Hin' as [| [<- | []]]; [left | right]; auto. }
      destruct Hin'' as [Hin'' | Heq]; [| discriminate Heq].
      destruct (Hrisk _ Hin'') as [Heq | [Heq | Heq]]; discriminate Heq.
    + intros E. rewrite E in Hf. discriminate Hf.
Qed.

Lemma risk_factors_members (f1 f2 : bool) (a b c : number) (rf : risk_factor) :
  In rf (append_if f1 fraud_risk
           (append_if f2 consistency_risk (fst (component_factors a b c)))) ->
  rf = documentation_risk \/ rf = on_chain_risk \/ rf = code_quality_risk
  \/ rf = consistency_risk \/ rf = fraud_risk.
Proof.
  pose proof (component_factors_cases a b c) as Hc. cbv zeta in Hc.
  destruct Hc as (_ & _ & _ & _ & _ & _ & Hrisk & _).
  unfold append_if. intros H.
  assert (H' : In rf (fst (component_factors a b c))
               \/ rf = consistency_risk \/ rf = fraud_risk).
  { destruct f1, f2; repeat (apply in_app_or in H; destruct H as [H | [<- | []]]);
      auto. }
  destruct H' as [H' | H']; [apply Hrisk in H' |]; tauto.
Qed.

Lemma risk_factors_component (f1 f2 : bool) (a b c : number) (rf : risk_factor) :
  rf <> consistency_risk -> rf <> fraud_risk ->
  In rf (append_if f1 fraud_risk
           (append_if f2 consistency_risk (fst (component_factors a b c))))
  <-> In rf (fst (component_factors a b c)).
Proof.
  intros H1 H2. unfold append_if. split; intros H.
  - destruct f1, f2; repeat (apply in_app_or in H; destruct H as [H | [<- | []]]);
      auto; contradiction.
  - destruct f1, f2; repeat (apply in_or_app; left); exact H.
Qed.

Lemma risk_factors_length (f1 f2 : bool) (a b c : number) :
  (length (append_if f1 fraud_risk
             (append_if f2 consistency_risk (fst (component_factors a b c))))
   + length (snd (component_factors a b c)) <= 5)%nat.
Proof.
  pose proof (component_factors_cases a b c) as Hc. cbv zeta in Hc.
  destruct Hc as (_ & _ & _ & _ & _ & _ & _ & _ & Hlen).
  unfold append_if. destruct f1, f2; rewrite ?length_app; simpl length; lia.
Qed.

Lemma generate_recommendations_cases (rfs : list risk_factor) (t : trust_dict)
  (o : number) (cf : string) (recs : list recommendation) :
  dict_overall_score t = Some o -> dict_confidence t = Some cf ->
  _generate_recommendations rfs t = Some recs ->
  (In improve_documentation recs <-> Number.ltb o (Int 80) = true)
  /\ (In increase_on_chain_activity recs
      <-> existsb (fun rf => String.eqb (factor_category rf) "On-chain Activity") rfs
          = true)
  /\ (In improve_code_quality recs
      <-> existsb (fun rf => String.eqb (factor_category rf) "Code Quality") rfs = true)
  /\ (In balance_performance recs <-> cf = "LOW")
  /\ (length recs <= 4)%nat.
Proof.
  intros Ho Hcf. unfold _generate_recommendations. rewrite Ho, Hcf. cbv zeta.
  intros [= <-]. unfold append_if.
  destruct (String.eqb_spec cf "LOW") as [Hlow | Hlow];
    destruct (Number.ltb o (Int 80)), (existsb _ rfs), (existsb _ rfs);
    cbn [app In length];
    repeat split; intros; try tauto; try lia; try discriminate;
    intuition (try discriminate; try contradiction).
Qed.

(** What the report recommends follows the scores: the on-chain action
    exactly when the on-chain component is below 50, the code action
    exactly when the code component is below 50, the documentation
    action exactly when the overall score (not the documents score) is
    below 80, and the balance action exactly when the confidence is
    LOW. *)
Theorem recommendations_follow_the_scores (results : report_input)
  (report : risk_report) (trust_score : trust_dict)
  (off_chain on_chain ai_analysis overall_score : number) (confidence : string) :
  generate_risk_report results = Some report ->
  input_component_scores results
  = Some (mk_component_dict (Some off_chain) (Some on_chain) (Some ai_analysis)) ->
  input_trust_score results = Some trust_score ->
  dict_overall_score trust_score = Some overall_score ->
  dict_confidence trust_score = Some confidence ->
  (In increase_on_chain_activity (recommended_actions report)
   <-> Number.ltb on_chain (Int 50) = true)
  /\ (In improve_code_quality (recommended_actions report)
      <-> Number.ltb ai_analysis (Int 50) = true)
  /\ (In improve_documentation (recommended_actions report)
      <-> Number.ltb overall_score (Int 80) = true)
  /\ (In balance_performance (recommended_actions report) <-> confidence = "LOW")
  /\ (length (recommended_actions report) <= 4)%nat.
Proof.
  intros H Hcs Ht Ho Hcf. apply generate_risk_report_fields in H.
  destruct H as (t & a & b & c & lvl & o & cf & Ht' & Hcs' & _ & Ho' & Hcf' & Hrf & _
                 & _ & _ & _ & _ & _ & Hrecs).
  assert (t = trust_score) by congruence. subst t.
  assert (a = off_chain /\ b = on_chain /\ c = ai_analysis) as (-> & -> & ->)
    by (rewrite Hcs in Hcs'; injection Hcs' as -> -> ->; auto).
  assert (o = overall_score) by congruence. assert (cf = confidence) by congruence.
  subst o cf.
  destruct (generate_recommendations_cases _ _ _ _ _ Ho Hcf Hrecs)
    as (Hdoc & Hchain & Hcode & Hbal & Hlen).
  pose proof (component_factors_cases off_chain on_chain ai_analysis) as Hc.
  cbv zeta in Hc. destruct Hc as (_ & Hc2 & Hc3 & _).
  assert (Hex : forall cat rf0,
            factor_category rf0 = cat ->
            (forall rf, In rf (risk_factors report) -> factor_category rf = cat ->
                        rf = rf0) ->
            existsb (fun rf => String.eqb (factor_category rf) cat) (risk_factors report)
            = true <-> In rf0 (risk_factors report)).
  { intros cat rf0 Hcat Huniq. rewrite existsb_exists. split.
    - intros (rf & Hin & Heq). apply String.eqb_eq in Heq.
      rewrite <- (Huniq rf Hin Heq). exact Hin.
    - intros Hin. exists rf0. split; [exact Hin |]. apply String.eqb_eq, Hcat. }
  assert (Hmem : forall rf, In rf (risk_factors report) ->
            rf = documentation_risk \/ rf = on_chain_risk \/ rf = code_quality_risk
            \/ rf = consistency_risk \/ rf = fraud_risk)
    by (intros rf Hin; rewrite Hrf in Hin; apply risk_factors_members in Hin;
        exact Hin).
  split; [| split; [| split; [exact Hdoc | split; [exact Hbal | exact Hlen]]]].
  - rewrite Hchain, (Hex "On-chain Activity" on_chain_risk eq_refl).
    + rewrite Hrf, risk_factors_component by discriminate. exact Hc2.
    + intros rf Hin Hcat.
      destruct (Hmem rf Hin) as [-> | [-> | [-> | [-> | ->]]]];
        try discriminate Hcat; reflexivity.
  - rewrite Hcode, (Hex "Code Quality" code_quality_risk eq_refl).
    + rewrite Hrf, risk_factors_component by discriminate. exact Hc3.
    + intros rf Hin Hcat.
      destruct (Hmem rf Hin) as [-> | [-> | [-> | [-> | ->]]]];
        try discriminate Hcat; reflexivity.
Qed.

(** The count of the report is the length of its list of risk factors;
    risk and positive factors together are at most 5; and no category
    is reported both as a risk and as a strength. *)
Theorem risk_and_positive_factors_are_disjoint (results : report_input)
  (report : risk_report) :
  generate_risk_report results = Some report ->
  total_risk_count report = Z.of_nat (length (risk_factors report))
  /\ (length (risk_factors report) + length (positive_factors report) <= 5)%nat
  /\ (forall rf pf, In rf (risk_factors report) -> In pf (positive_factors report) ->
      factor_category rf <> positive_category pf).
Proof.
  intros H. apply generate_risk_report_fields in H.
  destruct H as (t & a & b & c & lvl & o & cf & _ & _ & _ & _ & _ & Hrf & Hpf & _ & _
                 & Hcount & _).
  split; [exact Hcount |]. rewrite Hrf, Hpf.
  split; [apply risk_factors_length |].
  pose proof (component_factors_cases a b c) as Hc. cbv zeta in Hc.
  destruct Hc as (R1 & R2 & R3 & P1 & P2 & P3 & _ & Hpos & _).
  intros rf pf Hin Hpin Hcat.
  pose proof (risk_factors_members _ _ _ _ _ _ Hin) as Hmem.
  assert (Hcomp : rf <> consistency_risk -> rf <> fraud_risk ->
                  In rf (fst (component_factors a b c)))
    by (intros N1 N2; pose proof Hin as Hin'; apply risk_factors_component in Hin';
        assumption).
  destruct (Hpos pf Hpin) as [-> | [-> | ->]];
    destruct Hmem as [-> | [-> | [-> | [-> | ->]]]]; try discriminate Hcat.
  - apply P1 in Hpin. apply R1 in Hcomp; [| discriminate | discriminate].
    destruct Hpin as [Hpin _]. congruence.
  - apply P2 in Hpin. apply R2 in Hcomp; [| discriminate | discriminate].
    destruct Hpin as [Hpin _]. congruence.
  - apply P3 in Hpin. apply R3 in Hcomp; [| discriminate | discriminate].
    destruct Hpin as [Hpin _]. congruence.
Qed.

(** The report is made exactly when [results] holds the trust score
    with its three keys and the three component scores: the analyses
    themselves may be missing. *)
Theorem risk_report_needs_trust_and_component_scores (results : report_input) :
  (exists report, generate_risk_report results = Some report)
  <-> (exists risk_level overall_score confidence off_chain on_chain ai_analysis,
         input_trust_score results
         = Some (mk_trust_dict (Some overall_score) (Some risk_level) (Some confidence))
         /\ input_component_scores results
            = Some (mk_component_dict (Some off_chain) (Some on_chain) (Some ai_analysis))).
Proof.
  split.
  - intros (report & H). apply generate_risk_report_fields in H.
    destruct H as (t & a & b & c & lvl & o & cf & Ht & Hcs & Hlvl & Ho & Hcf & _).
    exists lvl, o, cf, a, b, c. split; [| exact Hcs].
    destruct t as [o' lvl' cf']. simpl in Hlvl, Ho, Hcf. subst. exact Ht.
  - intros (lvl & o & cf & a & b & c & Ht & Hcs).
    unfold generate_risk_report. rewrite Ht, Hcs.
    cbn [component_off_chain component_on_chain component_ai_analysis].
    destruct (component_factors a b c) as [rfs pfs]. cbv zeta.
    cbn [dict_risk_level dict_overall_score].
    unfold _generate_recommendations. cbn [dict_overall_score dict_confidence].
    cbv zeta. eexists. reflexivity.
Qed.

Lemma suspicious_report :
  exists results report trust_score overall_score confidence,
    suspicious_startup = Some results
    /\ generate_risk_report results = Some report
    /\ input_component_scores results
       = Some (mk_component_dict (Some (Int 25)) (Some (Int 10)) (Some (Int 15)))
    /\ input_trust_score results = Some trust_score
    /\ dict_overall_score trust_score = Some overall_score
    /\ dict_confidence trust_score = Some confidence
    /\ fraud_likelihood report = 100
    /\ milestone_credibility report = 50
    /\ risk_factors report
       = [documentation_risk; on_chain_risk; code_quality_risk; fraud_risk]
    /\ positive_factors report = []
    /\ overall_risk_level report = "CRITICAL"
    /\ investment_readiness report = "NOT SUITABLE FOR INVESTMENT"
    /\ recommended_actions report
       = [improve_documentation; increase_on_chain_activity; improve_code_quality].
Proof.
  let v := eval vm_compute in suspicious_startup in
  match v with Some ?r => exists r end.
  let v := eval vm_compute in (suspicious_startup ≫= generate_risk_report) in
  match v with Some ?r => exists r end.
  let v := eval vm_compute in (suspicious_startup ≫= input_trust_score) in
  match v with Some ?r => exists r end.
  let v := eval vm_compute in
    ((suspicious_startup ≫= input_trust_score) ≫= dict_overall_score) in
  match v with Some ?r => exists r end.
  let v := eval vm_compute in
    ((suspicious_startup ≫= input_trust_score) ≫= dict_confidence) in
  match v with Some ?r => exists r end.
  vm_compute. repeat split; reflexivity.
Qed.

Lemma healthy_report :
  exists results report,
    healthy_startup = Some results
    /\ generate_risk_report results = Some report
    /\ fraud_likelihood report = 0
    /\ milestone_credibility report = 100
    /\ risk_factors report = []
    /\ positive_factors report
       = [documentation_positive; on_chain_positive; code_quality_positive]
    /\ overall_risk_level report = "LOW"
    /\ investment_readiness report = "READY"
    /\ recommended_actions report = [].
Proof.
  let v := eval vm_compute in healthy_startup in
  match v with Some ?r => exists r end.
  let v := eval vm_compute in (healthy_startup ≫= generate_risk_report) in
  match v with Some ?r => exists r end.
  vm_compute. repeat split; reflexivity.
Qed.

Lemma fraud_alert_needs_all_three_signals_witness :
  exists results report,
    suspicious_startup = Some results
    /\ generate_risk_report results = Some report
    /\ In fraud_risk (risk_factors report)
    /\ fraud_likelihood report = 100.
Proof.
  destruct suspicious_report
    as (results & report & t & o & cf & H1 & H2 & _ & _ & _ & _ & H3 & _).
  exists results, report. split; [exact H1 |]. split; [exact H2 |].
  split; [| exact H3].
  apply (proj1 (proj2 (fraud_alert_needs_all_three_signals results report H2))), H3.
Defined.

Lemma recommendations_follow_the_scores_witness :
  exists results report,
    suspicious_startup = Some results
    /\ generate_risk_report results = Some report
    /\ In increase_on_chain_activity (recommended_actions report).
Proof.
  destruct suspicious_report
    as (results & report & t & o & cf & H1 & H2 & Hcs & Ht & Ho & Hcf & _).
  exists results, report. split; [exact H1 |]. split; [exact H2 |].
  apply (proj1 (recommendations_follow_the_scores results report _ _ _ _ _ _
                  H2 Hcs Ht Ho Hcf)).
  reflexivity.
Defined.

Lemma risk_and_positive_factors_are_disjoint_witness :
  exists results report,
    healthy_startup = Some results
    /\ generate_risk_report results = Some report
    /\ total_risk_count report = 0
    /\ length (positive_factors report) = 3%nat.
Proof.
  destruct healthy_report as (results & report & H1 & H2 & _ & _ & H3 & H4 & _).
  exists results, report. split; [exact H1 |]. split; [exact H2 |].
  rewrite (proj1 (risk_and_positive_factors_are_disjoint results report H2)), H3, H4.
  split; reflexivity.
Defined.

Local Open Scope Z_scope.

(** * Scores between 0 and 1 *)

(** ** Floats that are not negative *)

Lemma binary_round_aux_shape (s : bool) (mx ex : Z) (lx : location) :
  0 <= mx ->
  match binary_round_aux Float.prec Float.emax s mx ex lx with
  | S754_zero s' | S754_infinity s' | S754_finite s' _ _ => s' = s
  | S754_nan => False
  end.
Proof.
  intros Hmx. unfold binary_round_aux.
  pose proof (shr_fexp_spec mx ex lx Hmx) as H1. cbv zeta in H1.
  destruct (shr_fexp Float.prec Float.emax mx ex lx) as [mrs1 e1].
  simpl fst in H1; simpl snd in H1. destruct H1 as (_ & Hm1 & _).
  pose proof (round_nearest_even_bounds (shr_m mrs1) (loc_of_shr_record mrs1)) as Hmr.
  set (mr := round_nearest_even (shr_m mrs1) (loc_of_shr_record mrs1)) in *.
  assert (Hm1pos : 0 <= shr_m mrs1).
  { rewrite Hm1. apply Z_div_nonneg_nonneg; [assumption |]. apply Z.pow_nonneg. lia. }
  assert (Hmrpos : 0 <= mr) by lia.
  pose proof (shr_fexp_spec mr e1 loc_Exact Hmrpos) as H2. cbv zeta in H2.
  destruct (shr_fexp Float.prec Float.emax mr e1 loc_Exact) as [mrs2 e2].
  simpl fst in H2; simpl snd in H2. destruct H2 as (_ & Hm2 & _).
  assert (Hm2pos : 0 <= shr_m mrs2).
  { rewrite Hm2. apply Z_div_nonneg_nonneg; [assumption |]. apply Z.pow_nonneg. lia. }
  destruct (shr_m mrs2) as [| p | p]; [reflexivity | | lia].
  destruct (e2 <=? Float.emax - Float.prec); reflexivity.
Qed.

(** [0 <= x] as Python tests it: [x] is a zero, a positive float or
    the positive infinity. *)
Lemma leb_zero_shape (x : float) :
  Float.leb (Float.of_int 0) x = true <->
  match x with
  | S754_zero _ => True
  | S754_infinity s | S754_finite s _ _ => s = false
  | S754_nan => False
  end.
Proof.
  change (Float.of_int 0) with (S754_zero false).
  destruct x as [s | [|] | | s m e]; unfold Float.leb.
  - rewrite float_compare_finite by reflexivity. split; [intros; exact I | reflexivity].
  - split; discriminate.
  - split; reflexivity.
  - split; [discriminate | intros []].
  - rewrite float_compare_finite by reflexivity.
    change (Float.to_Q (S754_zero false)) with 0%Q.
    pose proof (Qpower2_pos e) as Hp.
    assert (Hm : (0 < inject_Z (Zpos m) * 2 ^ e)%Q)
      by (apply Qmult_lt_0_compat; [reflexivity | assumption]).
    pose proof (to_Q_finite s m e) as Hq. rewrite inject_Z_cond_Zopp in Hq.
    destruct (Qcompare_spec 0 (Float.to_Q (S754_finite s m e))) as [E | E | E];
      destruct s; split; intros H; try discriminate; try reflexivity;
      exfalso; lra.
Qed.

Lemma leb_zero_add (x y : float) :
  Float.leb (Float.of_int 0) x = true -> Float.leb (Float.of_int 0) y = true ->
  Float.leb (Float.of_int 0) (Float.add x y) = true.
Proof.
  rewrite !leb_zero_shape.
  destruct x as [sx | sx | | sx mx ex], y as [sy | sy | | sy my ey];
    unfold Float.add; simpl SFadd; intros Hx Hy; subst; try tauto; try reflexivity.
  - destruct sx, sy; exact I.
  - simpl cond_Zopp.
    set (m := Zpos (fst (shl_align mx ex (Z.min ex ey)))
              + Zpos (fst (shl_align my ey (Z.min ex ey)))).
    assert (Hm : 0 < m) by (unfold m; lia).
    unfold binary_normalize. destruct m as [| p | p]; try lia.
    unfold binary_round. destruct (shl_align p _ _) as [mz ez].
    pose proof (binary_round_aux_shape false (Zpos mz) ez loc_Exact ltac:(lia)) as H.
    destruct (binary_round_aux _ _ _ _ _ _); auto.
Qed.

Import RealtimeScorer.

(** ** The clamps *)

Lemma float_compare_swap (x y : float) :
  Float.compare y x = option_map CompOpp (Float.compare x y).
Proof.
  destruct x as [sx | [|] | | sx mx ex], y as [sy | [|] | | sy my ey];
    try reflexivity; unfold Float.compare; cbn [option_map];
    rewrite <- Qcompare_antisym; reflexivity.
Qed.

(** [x] is a number and not above [b] when [b < x] fails. *)
Lemma float_not_ltb_leb (b x c : float) :
  Float.leb c x = true -> Float.leb c b = true -> Float.ltb b x = false ->
  Float.leb x b = true.
Proof.
  unfold Float.leb, Float.ltb. rewrite (float_compare_swap b x).
  destruct (Float.compare c x) as [[| |] |] eqn:Ex; try discriminate;
    destruct (Float.compare c b) as [[| |] |] eqn:Eb; try discriminate;
    intros _ _;
    (destruct (Float.compare b x) as [[| |] |] eqn:E; cbn [option_map CompOpp];
     [reflexivity | discriminate | reflexivity |]);
    destruct c, b, x; discriminate.
Qed.

Lemma float_min_in_unit (x b : float) :
  Float.leb (Float.of_int 0) x = true -> in_unit b = true ->
  in_unit (float_min x b) = true /\ Float.leb (float_min x b) b = true.
Proof.
  intros Hx Hb. unfold float_min.
  pose proof Hb as Hb'. unfold in_unit in Hb'. apply andb_prop in Hb' as [Hb0 Hb1].
  destruct (Float.ltb b x) eqn:E.
  - split; [exact Hb |]. unfold Float.leb in *.
    destruct b as [s | [|] | | s m e]; try discriminate; try reflexivity;
      unfold Float.compare; rewrite (proj1 (Qeq_alt _ _) (Qeq_refl _)); reflexivity.
  - pose proof (float_not_ltb_leb b x _ Hx Hb0 E) as H. split; [| exact H].
    unfold in_unit. rewrite Hx. cbn [andb]. eapply float_leb_trans; eassumption.
Qed.

(** [max(0.0, min(score, 1.0))] is in the unit range whatever [score]
    is, a NaN included. *)
Lemma float_max_min_in_unit (x : float) :
  in_unit (float_max (lit 0 1) (float_min x (lit 10 1))) = true.
Proof.
  unfold float_max, Float.gtb.
  destruct (Float.ltb (lit 0 1) (float_min x (lit 10 1))) eqn:E;
    [| vm_compute; reflexivity].
  assert (H0 : Float.leb (Float.of_int 0) (float_min x (lit 10 1)) = true).
  { unfold Float.ltb in E. unfold Float.leb.
    change (Float.of_int 0) with (lit 0 1).
    destruct (Float.compare (lit 0 1) (float_min x (lit 10 1))) as [[| |] |];
      try discriminate; reflexivity. }
  unfold float_min in *. destruct (Float.ltb (lit 10 1) x) eqn:E1;
    [vm_compute; reflexivity |].
  unfold in_unit. rewrite H0. cbn [andb].
  change (Float.of_int 1) with (lit 10 1).
  apply (float_not_ltb_leb _ _ _ H0); [vm_compute; reflexivity | exact E1].
Qed.

(** ** Rounding keeps the unit range *)

Lemma float_leb_spec (x y : float) :
  Float.is_finite x = true -> Float.is_finite y = true ->
  Float.leb x y = true <-> (Float.to_Q x <= Float.to_Q y)%Q.
Proof.
  intros Hx Hy. unfold Float.leb. rewrite float_compare_finite by assumption.
  destruct (Qcompare_spec (Float.to_Q x) (Float.to_Q y)) as [H | H | H];
    split; intros H'; try discriminate; try reflexivity; try lra.
Qed.

Lemma round_in_unit (x : float) : in_unit x = true -> in_unit (Float.round x 3) = true.
Proof.
  intros Hx. pose proof (in_unit_small x Hx) as Hs.
  pose proof (small_is_finite _ _ Hs) as Hf.
  unfold in_unit in Hx. apply andb_prop in Hx as [H0 H1].
  pose proof (round_units_error x 3 ltac:(lia) Hf) as He.
  apply Qabs_Qle_condition in He. change (inject_Z (10 ^ 3)) with 1000%Q in He.
  apply (float_leb_spec x (Float.of_int 1) Hf eq_refl) in H1.
  assert (E1 : (Float.to_Q (Float.of_int 1) == 1)%Q) by reflexivity.
  rewrite E1 in H1. clear E1.
  apply leb_zero_shape in H0.
  destruct x as [s | s | | s m e]; try discriminate Hf.
  - destruct s; vm_compute; reflexivity.
  - subst s. unfold Float.round_units in He. cbn [cond_Zopp] in He.
    assert (Hq : (0 <= Float.to_Q (S754_finite false m e))%Q).
    { rewrite to_Q_finite. cbn [cond_Zopp]. apply Qmult_le_0_compat; [discriminate |].
      apply Qlt_le_weak, Qpower2_pos. }
    set (k := Float.scaled_abs (S754_finite false m e) 3) in *.
    assert (Hk : 0 <= k < 1001).
    { assert (H : (inject_Z (-1) < inject_Z k < inject_Z 1001)%Q)
        by (change (inject_Z (-1)) with (-1)%Q; change (inject_Z 1001) with 1001%Q;
            split; lra).
      rewrite <- !Zlt_Qlt in H. lia. }
    pose proof (forallb_below
      (fun k => in_unit (match k with
                         | 0 => S754_zero false
                         | k' => Float.decimal (cond_Zopp false k') 3
                         end)) 1001 ltac:(vm_compute; reflexivity) k ltac:(lia)) as H.
    cbv beta in H. unfold Float.round. fold k. clearbody k. destruct k; exact H.
Qed.

(** ** The running tallies *)

Lemma credit_nonneg (ds dc : float) (f : finding) (t : tally) :
  Float.leb (Float.of_int 0) ds = true -> Float.leb (Float.of_int 0) dc = true ->
  tally_nonneg t -> tally_nonneg (credit ds f dc t).
Proof. intros Hs Hc [H1 H2]. split; apply leb_zero_add; assumption. Qed.

Lemma credit_confidence_nonneg (dc : float) (f : finding) (t : tally) :
  Float.leb (Float.of_int 0) dc = true ->
  tally_nonneg t -> tally_nonneg (credit_confidence f dc t).
Proof. intros Hc [H1 H2]. split; [exact H1 | apply leb_zero_add; assumption]. Qed.

Lemma note_nonneg (f : finding) (t : tally) : tally_nonneg t -> tally_nonneg (note f t).
Proof. intros H. exact H. Qed.

Lemma if_nonneg (b : bool) (t1 t2 : tally) :
  tally_nonneg t1 -> tally_nonneg t2 -> tally_nonneg (if b then t1 else t2).
Proof. destruct b; intros; assumption. Qed.

Ltac tally_nonneg :=
  lazymatch goal with
  | |- tally_nonneg (if _ then _ else _) => apply if_nonneg; tally_nonneg
  | |- tally_nonneg (match ?b with Some _ => _ | None => _ end) =>
      destruct b; tally_nonneg
  | |- tally_nonneg (credit _ _ _ _) =>
      apply credit_nonneg; [vm_compute; reflexivity | vm_compute; reflexivity |
                            tally_nonneg]
  | |- tally_nonneg (credit_confidence _ _ _) =>
      apply credit_confidence_nonneg; [vm_compute; reflexivity | tally_nonneg]
  | |- tally_nonneg (note _ _) => apply note_nonneg; tally_nonneg
  | |- _ => split; vm_compute; reflexivity
  end.

(** The result a scorer makes of its tally, with the caps of the
    score and of the confidence. *)
Lemma clamped_in_unit (t : tally) (cap : float) :
  tally_nonneg t -> in_unit cap = true ->
  in_unit (Float.round (float_min (tally_score t) (lit 10 1)) 3) = true
  /\ in_unit (Float.round (float_min (tally_confidence t) cap) 3) = true.
Proof.
  intros [H1 H2] Hc. split; apply round_in_unit.
  - apply float_min_in_unit; [exact H1 | vm_compute; reflexivity].
  - apply float_min_in_unit; assumption.
Qed.

Lemma neutral_default_in_unit (f : finding) (c : category) :
  in_unit (score (neutral_default f c)) = true
  /\ in_unit (confidence (neutral_default f c)) = true.
Proof. split; vm_compute; reflexivity. Qed.

Lemma analyze_github_realtime_in_unit (github_data : option github_data) :
  in_unit (score (analyze_github_realtime github_data)) = true
  /\ in_unit (confidence (analyze_github_realtime github_data)) = true.
Proof.
  unfold analyze_github_realtime.
  destruct github_data as [gd |]; [| apply neutral_default_in_unit].
  destruct (negb (github_success gd)); [apply neutral_default_in_unit |].
  cbv zeta. cbn [score confidence].
  apply clamped_in_unit; [| vm_compute; reflexivity]. tally_nonneg.
Qed.

Lemma analyze_social_realtime_in_unit (social_data : option social_data) :
  in_unit (score (analyze_social_realtime social_data)) = true
  /\ in_unit (confidence (analyze_social_realtime social_data)) = true.
Proof.
  unfold analyze_social_realtime.
  destruct social_data as [sd |]; [| apply neutral_default_in_unit].
  cbv zeta. cbn [score confidence].
  apply clamped_in_unit; [| vm_compute; reflexivity]. tally_nonneg.
Qed.

Lemma analyze_governance_realtime_in_unit
  (founder_data : option founder_data) (governance_data : option governance_data) :
  in_unit (score (analyze_governance_realtime founder_data governance_data)) = true
  /\ in_unit (confidence (analyze_governance_realtime founder_data governance_data))
     = true.
Proof.
  unfold analyze_governance_realtime.
  cbv zeta. cbn [score confidence].
  apply clamped_in_unit; [| vm_compute; reflexivity]. tally_nonneg.
Qed.

Lemma analyze_onchain_realtime_in_unit (onchain_data : option onchain_data) :
  in_unit (score (analyze_onchain_realtime onchain_data)) = true
  /\ in_unit (confidence (analyze_onchain_realtime onchain_data)) = true.
Proof.
  unfold analyze_onchain_realtime.
  destruct onchain_data as [od |]; [| apply neutral_default_in_unit].
  cbv zeta. cbn [score confidence].
  apply clamped_in_unit; [| vm_compute; reflexivity]. tally_nonneg.
Qed.

Lemma check_file_confidence (t : tally) (file_info : file_info) :
  Float.leb (Float.of_int 0) (tally_confidence t) = true ->
  Float.leb (Float.of_int 0) (tally_confidence (check_file t file_info)) = true.
Proof.
  intros H. unfold check_file. cbv zeta.
  repeat match goal with |- context [if ?b then _ else _] => destruct b end;
    cbn [tally_confidence credit credit_confidence];
    repeat (apply leb_zero_add; [| vm_compute; reflexivity]); exact H.
Qed.

Lemma check_files_confidence (files : list file_info) (t : tally) :
  Float.leb (Float.of_int 0) (tally_confidence t) = true ->
  Float.leb (Float.of_int 0) (tally_confidence (fold_left check_file files t)) = true.
Proof.
  revert t. induction files as [| file_info files IH]; intros t H; [exact H |].
  cbn [fold_left]. apply IH, check_file_confidence, H.
Qed.

Lemma analyze_media_realtime_in_unit (media_data : option media_data) :
  in_unit (score (analyze_media_realtime media_data)) = true
  /\ in_unit (confidence (analyze_media_realtime media_data)) = true.
Proof.
  unfold analyze_media_realtime.
  destruct media_data as [md |]; [| split; vm_compute; reflexivity].
  destruct (files md) as [| file_info files]; [split; vm_compute; reflexivity |].
  cbv zeta. cbn [score confidence]. split; apply round_in_unit.
  - apply float_max_min_in_unit.
  - apply float_min_in_unit; [| vm_compute; reflexivity].
    apply check_files_confidence. vm_compute. reflexivity.
Qed.

(** ** The weighted sums of the final score *)

Lemma in_unit_bounds (x : float) :
  in_unit x = true -> (0 <= Float.to_Q x <= 1)%Q.
Proof.
  intros Hx. pose proof (small_is_finite _ _ (in_unit_small x Hx)) as Hf.
  unfold in_unit in Hx. apply andb_prop in Hx as [H0 H1].
  apply (float_leb_spec (Float.of_int 0) x eq_refl Hf) in H0.
  apply (float_leb_spec x (Float.of_int 1) Hf eq_refl) in H1.
  assert (E1 : (Float.to_Q (Float.of_int 1) == 1)%Q) by reflexivity.
  rewrite E1 in H1. change (Float.to_Q (Float.of_int 0)) with 0%Q in H0.
  split; assumption.
Qed.

Lemma weighted_bounds (x : float) (k : Z) :
  in_unit x = true -> In k [10; 20; 30; 40] ->
  Float.small 1 (Float.mul x (Float.decimal k 2))
  /\ (- 2 ^ (-51) <= Float.to_Q (Float.mul x (Float.decimal k 2))
      <= Float.to_Q (Float.decimal k 2) + 2 ^ (-51))%Q.
Proof.
  intros Hx Hk. pose proof (in_unit_small x Hx) as Hs.
  pose proof (weight_small k Hk) as Hw.
  split; [apply (mul_small 1 (-1)); [assumption | assumption | lia] |].
  pose proof (mul_error 1 (-1) x _ Hs Hw ltac:(lia)) as E.
  change (1 + -1 - 51) with (-51) in E. apply Qabs_Qle_condition in E.
  destruct (in_unit_bounds x Hx) as [H0 H1].
  assert (Hw0 : (0 <= Float.to_Q (Float.decimal k 2))%Q)
    by (destruct Hk as [<- | [<- | [<- | [<- | []]]]]; vm_compute; discriminate).
  assert (Hp0 : (0 <= Float.to_Q x * Float.to_Q (Float.decimal k 2))%Q)
    by (apply Qmult_le_0_compat; assumption).
  assert (Hp1 : (Float.to_Q x * Float.to_Q (Float.decimal k 2)
                 <= 1 * Float.to_Q (Float.decimal k 2))%Q)
    by (apply Qmult_le_compat_r; assumption).
  split; lra.
Qed.

(** The sum of five results in the unit range under the weights is
    between 0 and 1, up to the rounding of the additions. *)
Lemma weighted_sum_bounds (x1 x2 x3 x4 x5 : float) :
  in_unit x1 = true -> in_unit x2 = true -> in_unit x3 = true ->
  in_unit x4 = true -> in_unit x5 = true ->
  let s := float_sum [Float.mul x1 (Float.decimal 30 2); Float.mul x2 (Float.decimal 20 2);
                      Float.mul x3 (Float.decimal 20 2); Float.mul x4 (Float.decimal 20 2);
                      Float.mul x5 (Float.decimal 10 2)] in
  Float.small 11 s /\ (- 2 ^ (-39) <= Float.to_Q s <= 1 + 2 ^ (-39))%Q.
Proof.
  intros H1 H2 H3 H4 H5 s.
  destruct (weighted_bounds x1 30 H1 ltac:(simpl; tauto)) as [S1 B1].
  destruct (weighted_bounds x2 20 H2 ltac:(simpl; tauto)) as [S2 B2].
  destruct (weighted_bounds x3 20 H3 ltac:(simpl; tauto)) as [S3 B3].
  destruct (weighted_bounds x4 20 H4 ltac:(simpl; tauto)) as [S4 B4].
  destruct (weighted_bounds x5 10 H5 ltac:(simpl; tauto)) as [S5 B5].
  destruct (float_sum_five _ _ _ _ _ S1 S2 S3 S4 S5) as [SS ES]. fold s in SS, ES.
  split; [exact SS |]. apply Qabs_Qle_condition in ES.
  assert (W : (Float.to_Q (Float.decimal 30 2) + 3 * Float.to_Q (Float.decimal 20 2)
               + Float.to_Q (Float.decimal 10 2) + 5 * 2 ^ (-51) + 2 ^ (-40)
               <= 1 + 2 ^ (-39))%Q) by (vm_compute; discriminate).
  assert (P : (5 * 2 ^ (-51) + 2 ^ (-40) <= 2 ^ (-39))%Q) by (vm_compute; discriminate).
  split; lra.
Qed.

Lemma hundredths_between_0_and_100 (f : float) (h : Z) :
  Float.denotes f h 2 -> 0 <= h <= 10000 ->
  Float.leb (Float.of_int 0) f = true /\ Float.leb f (Float.of_int 100) = true.
Proof.
  intros [-> | [_ ->]] Hh; [| split; vm_compute; reflexivity].
  pose proof (forallb_below
    (fun h => Float.leb (Float.of_int 0) (Float.decimal h 2)
              && Float.leb (Float.decimal h 2) (Float.of_int 100))
    (Z.to_nat 10001) ltac:(vm_compute; reflexivity) h
    ltac:(rewrite Z2Nat.id; lia)) as H.
  apply andb_prop in H. exact H.
Qed.

Lemma thousandths_in_unit (f : float) (k : Z) :
  Float.denotes f k 3 -> 0 <= k <= 1000 -> in_unit f = true.
Proof.
  intros [-> | [_ ->]] Hk; [| vm_compute; reflexivity].
  exact (forallb_below (fun k => in_unit (Float.decimal k 3)) 1001
           ltac:(vm_compute; reflexivity) k ltac:(lia)).
Qed.

(** The fields of the final result, for results in the unit range. *)
Lemma final_result_fields (now : Datetime.datetime)
  (category_results : category -> option category_result) :
  (forall c r, category_results c = Some r ->
     in_unit (score r) = true /\ in_unit (confidence r) = true) ->
  let r := calculate_final_score now category_results in
  let h := trust_score_hundredths category_results in
  Float.denotes (trust_score r) h 2
  /\ in_unit (final_confidence r) = true
  /\ ((risk_level r = "low"%string /\ risk_color r = "green"%string /\ 7500 <= h <= 10000)
      \/ (risk_level r = "medium"%string /\ risk_color r = "orange"%string /\ 5000 <= h <= 7500)
      \/ (risk_level r = "high"%string /\ risk_color r = "red"%string /\ 0 <= h <= 5000)).
Proof.
  intros Hin r h.
  set (res := fun c => default missing_category (category_results c)).
  assert (Hres : forall c, in_unit (score (res c)) = true
                           /\ in_unit (confidence (res c)) = true).
  { intros c. unfold res. destruct (category_results c) as [x |] eqn:E;
      [exact (Hin c x E) | split; vm_compute; reflexivity]. }
  pose proof (weighted_sum_bounds _ _ _ _ _
                (proj1 (Hres media_authenticity)) (proj1 (Hres tech_credibility))
                (proj1 (Hres governance_transparency)) (proj1 (Hres onchain_behavior))
                (proj1 (Hres social_signals))) as [SS BS].
  pose proof (weighted_sum_bounds _ _ _ _ _
                (proj2 (Hres media_authenticity)) (proj2 (Hres tech_credibility))
                (proj2 (Hres governance_transparency)) (proj2 (Hres onchain_behavior))
                (proj2 (Hres social_signals))) as [SC BC].
  set (s := float_sum _) in SS, BS. set (a := float_sum _) in SC, BC.
  assert (Es : final_score category_results = Float.mul s (Float.of_int 100))
    by reflexivity.
  destruct (times_100_error 11 s SS ltac:(lia) ltac:(lia)) as [FF EF].
  rewrite <- Es in FF, EF. apply Qabs_Qle_condition in EF.
  change (11 - 44) with (-33) in EF.
  pose proof (round_units_bounds _ FF) as BF. fold (trust_score_hundredths category_results) in BF.
  fold h in BF.
  assert (P : (100 * 2 ^ (-39) + 2 ^ (-33) < 1 # 100)%Q) by (vm_compute; reflexivity).
  assert (Hh : 0 <= h <= 10000).
  { assert (H : (inject_Z (-1) < inject_Z h < inject_Z 10001)%Q)
      by (change (inject_Z (-1)) with (-1)%Q; change (inject_Z 10001) with 10001%Q;
          split; lra).
    rewrite <- !Zlt_Qlt in H. lia. }
  assert (Ht : trust_score r = Float.round (final_score category_results) 2).
  { unfold r, calculate_final_score.
    repeat match goal with |- context [if ?t then _ else _] => destruct t end;
      reflexivity. }
  assert (Hc : final_confidence r = Float.round a 3).
  { unfold r, calculate_final_score.
    repeat match goal with |- context [if ?t then _ else _] => destruct t end;
      reflexivity. }
  split; [rewrite Ht; apply round_denotes; [lia | exact FF] |].
  split.
  { rewrite Hc. pose proof (small_is_finite _ _ SC) as Fa.
    apply (thousandths_in_unit _ (Float.round_units a 3));
      [apply round_denotes; [lia | exact Fa] |].
    pose proof (round_units_error a 3 ltac:(lia) Fa) as Ea.
    apply Qabs_Qle_condition in Ea. change (inject_Z (10 ^ 3)) with 1000%Q in Ea.
    assert (P' : (1000 * 2 ^ (-39) < 1 # 100)%Q) by (vm_compute; reflexivity).
    assert (H : (inject_Z (-1) < inject_Z (Float.round_units a 3) < inject_Z 1001)%Q)
      by (change (inject_Z (-1)) with (-1)%Q; change (inject_Z 1001) with 1001%Q;
          split; lra).
    rewrite <- !Zlt_Qlt in H. lia. }
  assert (Hge : forall n : Z, In n [50; 75] ->
            if Float.geb (final_score category_results) (Float.of_int n)
            then 100 * n <= h else h <= 100 * n).
  { intros n Hn. unfold Float.geb.
    assert (Fn : Float.is_finite (Float.of_int n) = true)
      by (destruct Hn as [<- | [<- | []]]; reflexivity).
    assert (Qn : (Float.to_Q (Float.of_int n) == inject_Z n)%Q)
      by (destruct Hn as [<- | [<- | []]]; reflexivity).
    pose proof (float_leb_spec (Float.of_int n) (final_score category_results) Fn FF) as L.
    rewrite Qn in L.
    destruct (Float.leb (Float.of_int n) (final_score category_results)).
    - pose proof (proj1 L eq_refl) as L'.
      assert (H : (inject_Z (100 * n - 1) < inject_Z h)%Q).
      { unfold Z.sub. rewrite inject_Z_plus, inject_Z_mult.
        change (inject_Z 100) with 100%Q. change (inject_Z (- (1))) with (-1)%Q. lra. }
      rewrite <- Zlt_Qlt in H. lia.
    - assert (L' : (Float.to_Q (final_score category_results) < inject_Z n)%Q).
      { apply Qnot_le_lt. intros H. apply L in H. discriminate. }
      assert (H : (inject_Z h < inject_Z (100 * n + 1))%Q).
      { rewrite inject_Z_plus, inject_Z_mult.
        change (inject_Z 100) with 100%Q. change (inject_Z 1) with 1%Q. lra. }
      rewrite <- Zlt_Qlt in H. lia. }
  pose proof (Hge 75 ltac:(simpl; tauto)) as H75.
  pose proof (Hge 50 ltac:(simpl; tauto)) as H50.
  unfold r, calculate_final_score.
  destruct (Float.geb (final_score category_results) (Float.of_int 75));
    [left; cbn [risk_level risk_color]; repeat split; try reflexivity; lia |].
  destruct (Float.geb (final_score category_results) (Float.of_int 50));
    [right; left | right; right]; cbn [risk_level risk_color];
    repeat split; try reflexivity; lia.
Qed.

(** ** The caps of the confidence *)

Lemma round_below_cap (x : float) (c : Z) :
  In c [8; 9] -> in_unit x = true -> Float.leb x (lit c 1) = true ->
  Float.leb (Float.round x 3) (lit c 1) = true.
Proof.
  intros Hc Hx Hle. pose proof (in_unit_small x Hx) as Hs.
  pose proof (small_is_finite _ _ Hs) as Hf.
  destruct (in_unit_bounds x Hx) as [Hq0 _].
  pose proof (round_units_error x 3 ltac:(lia) Hf) as He.
  apply Qabs_Qle_condition in He. change (inject_Z (10 ^ 3)) with 1000%Q in He.
  assert (Fc : Float.is_finite (lit c 1) = true)
    by (destruct Hc as [<- | [<- | []]]; reflexivity).
  apply (float_leb_spec x (lit c 1) Hf Fc) in Hle.
  assert (Qc : (1000 * Float.to_Q (lit c 1) < inject_Z (100 * c) + (1 # 2))%Q)
    by (destruct Hc as [<- | [<- | []]]; vm_compute; reflexivity).
  unfold in_unit in Hx. apply andb_prop in Hx as [H0 _]. apply leb_zero_shape in H0.
  destruct x as [s | s | | s m e]; try discriminate Hf.
  - destruct s, Hc as [<- | [<- | []]]; vm_compute; reflexivity.
  - subst s. unfold Float.round_units in He. cbn [cond_Zopp] in He.
    set (k := Float.scaled_abs (S754_finite false m e) 3) in *.
    assert (Hk : 0 <= k < 100 * c + 1).
    { assert (H : (inject_Z (-1) < inject_Z k < inject_Z (100 * c + 1))%Q).
      { rewrite inject_Z_plus. change (inject_Z (-1)) with (-1)%Q.
        change (inject_Z 1) with 1%Q. split; lra. }
      rewrite <- !Zlt_Qlt in H. lia. }
    assert (H : forall k, 0 <= k < 901 ->
              (if k <? 100 * c + 1
               then Float.leb match k with
                              | 0 => S754_zero false
                              | k' => Float.decimal (cond_Zopp false k') 3
                              end (lit c 1)
               else true) = true).
    { destruct Hc as [<- | [<- | []]]; apply (forallb_below _ 901);
        vm_compute; reflexivity. }
    specialize (H k ltac:(destruct Hc as [<- | [<- | []]]; lia)).
    replace (k <? 100 * c + 1) with true in H by (symmetry; apply Z.ltb_lt; lia).
    unfold Float.round. fold k. clearbody k. destruct k; exact H.
Qed.

Lemma clamped_below_cap (t : tally) (c : Z) :
  In c [8; 9] -> tally_nonneg t ->
  Float.leb (Float.round (float_min (tally_confidence t) (lit c 1)) 3) (lit c 1) = true.
Proof.
  intros Hc [_ H].
  assert (Hu : in_unit (lit c 1) = true)
    by (destruct Hc as [<- | [<- | []]]; vm_compute; reflexivity).
  destruct (float_min_in_unit _ _ H Hu) as [H1 H2].
  apply round_below_cap; assumption.
Qed.

(** The results that [analyze_project_realtime] combines. *)
Lemma category_details_in_unit (project_data : project_data) (c : category)
  (r : category_result) :
  category_details project_data c = Some r ->
  in_unit (score r) = true /\ in_unit (confidence r) = true.
Proof.
  unfold category_details. intros [= <-]. destruct c.
  - apply analyze_media_realtime_in_unit.
  - apply analyze_github_realtime_in_unit.
  - apply analyze_governance_realtime_in_unit.
  - apply analyze_onchain_realtime_in_unit.
  - apply analyze_social_realtime_in_unit.
Qed.

(** Every category scorer returns a score and a confidence between 0
    and 1, whatever its input; the confidence of the governance scorer
    is at most 0.8 and that of the on-chain scorer at most 0.9. *)
Theorem category_scores_are_between_0_and_1
  (github_data : option github_data) (social_data : option social_data)
  (founder_data : option founder_data) (governance_data : option governance_data)
  (onchain_data : option onchain_data) (media_data : option media_data) :
  Forall (fun r => in_unit (score r) = true /\ in_unit (confidence r) = true)
         [analyze_github_realtime github_data;
          analyze_social_realtime social_data;
          analyze_governance_realtime founder_data governance_data;
          analyze_onchain_realtime onchain_data;
          analyze_media_realtime media_data]
  /\ Float.leb (confidence (analyze_governance_realtime founder_data governance_data))
               (Float.decimal 8 1) = true
  /\ Float.leb (confidence (analyze_onchain_realtime onchain_data))
               (Float.decimal 9 1) = true.
Proof.
  split; [| split].
  - pose proof (analyze_github_realtime_in_unit github_data) as H1.
    pose proof (analyze_social_realtime_in_unit social_data) as H2.
    pose proof (analyze_governance_realtime_in_unit founder_data governance_data) as H3.
    pose proof (analyze_onchain_realtime_in_unit onchain_data) as H4.
    pose proof (analyze_media_realtime_in_unit media_data) as H5.
    repeat (apply List.Forall_cons; [assumption |]). apply List.Forall_nil.
  - unfold analyze_governance_realtime. cbv zeta. cbn [confidence].
    apply (clamped_below_cap _ 8); [simpl; tauto |]. tally_nonneg.
  - unfold analyze_onchain_realtime.
    destruct onchain_data as [od |]; [| vm_compute; reflexivity].
    cbv zeta. cbn [confidence].
    apply (clamped_below_cap _ 9); [simpl; tauto |]. tally_nonneg.
Qed.

(** The trust score of a project is between 0 and 100 and its
    confidence between 0 and 1, whatever the project data. *)
Theorem trust_score_is_between_0_and_100 (now : Datetime.datetime)
  (project_data : project_data) :
  let r := analyze_project_realtime now project_data in
  Float.leb (Float.of_int 0) (trust_score r) = true
  /\ Float.leb (trust_score r) (Float.of_int 100) = true
  /\ in_unit (final_confidence r) = true.
Proof.
  intros r. subst r. unfold analyze_project_realtime.
  destruct (final_result_fields now (category_details project_data)
              (category_details_in_unit project_data)) as (Hd & Hc & Hl).
  assert (Hh : 0 <= trust_score_hundredths (category_details project_data) <= 10000)
    by (destruct Hl as [(_ & _ & H) | [(_ & _ & H) | (_ & _ & H)]]; lia).
  destruct (hundredths_between_0_and_100 _ _ Hd Hh) as [H0 H1].
  repeat split; assumption.
Qed.

(** The risk level is decided on the score before it is rounded, so it
    agrees with the reported trust score except on a boundary: low
    comes with a reported score of at least 75, medium with one from
    50 to 75, high with one of at most 50; and a project with nothing
    but a DAO is reported with the trust score 50.0 and the level
    high. *)
Theorem risk_level_agrees_with_reported_score :
  (forall (now : Datetime.datetime) (project_data : project_data),
     let r := analyze_project_realtime now project_data in
     let h := trust_score_hundredths (category_details project_data) in
     Float.denotes (trust_score r) h 2
     /\ ((risk_level r = "low"%string /\ risk_color r = "green"%string /\ 7500 <= h <= 10000)
         \/ (risk_level r = "medium"%string /\ risk_color r = "orange"%string
             /\ 5000 <= h <= 7500)
         \/ (risk_level r = "high"%string /\ risk_color r = "red"%string
             /\ 0 <= h <= 5000)))
  /\ (forall now : Datetime.datetime,
        let r := analyze_project_realtime now
                   (mk_project None None None (Some (mk_governance true false false))
                               None None) in
        trust_score r = Float.decimal 5000 2 /\ risk_level r = "high"%string).
Proof.
  split.
  - intros now project_data r h. subst r h. unfold analyze_project_realtime.
    destruct (final_result_fields now (category_details project_data)
                (category_details_in_unit project_data)) as (Hd & _ & Hl).
    split; assumption.
  - intros now. split; vm_compute; reflexivity.
Qed.

(** For every project the five contributions of the breakdown and the
    trust score are floats of whole hundredths, and the contributions
    add up to the trust score within three hundredths. *)
Theorem project_contributions_add_up_to_trust_score (now : Datetime.datetime)
  (project_data : project_data) :
  let r := analyze_project_realtime now project_data in
  let contributions := contribution_hundredths (category_details project_data) in
  let h := trust_score_hundredths (category_details project_data) in
  Forall2 (fun cs k => Float.denotes (reported_contribution (snd cs)) k 2)
          (category_scores r) contributions
  /\ Float.denotes (trust_score r) h 2
  /\ - 3 <= fold_right Z.add 0 contributions - h <= 3.
Proof.
  intros r contributions h. subst r contributions h. unfold analyze_project_realtime.
  apply (category_round_trip now (category_details project_data)).
  intros c x Hx. apply (category_details_in_unit project_data c x Hx).
Qed.

Import TrustScorer.
Local Open Scope Z_scope.

(** * The analyzers and [analyze_startup] *)

(** ** The scores of the analyzers *)

Ltac destruct_ifs :=
  repeat match goal with
         | |- context [if ?a >=? ?b then _ else _] => destruct (Z.geb_spec a b)
         | |- context [if ?a >? ?b then _ else _] => destruct (Z.gtb_spec a b)
         | |- context [if ?b then _ else _] => destruct b eqn:?
         end.

Lemma analyze_pdf_bounds (file : option Analysis.pdf) :
  20 <= Analysis.analyze_pdf file <= 100.
Proof.
  unfold Analysis.analyze_pdf. destruct file as [f |]; [| lia]. cbv zeta.
  cbn [List.map fold_right].
  destruct (Analysis.has_problem f), (Analysis.has_solution f), (Analysis.has_market f),
    (Analysis.has_team f), (Analysis.has_traction f), (Analysis.has_financials f);
    cbn [Z.b2z];
  destruct_ifs; lia.
Qed.

Lemma analyze_video_bounds (file_size : option Z) :
  20 <= Analysis.analyze_video file_size <= 100.
Proof.
  unfold Analysis.analyze_video. destruct file_size as [n |]; [| lia].
  destruct_ifs; lia.
Qed.

Lemma analyze_spreadsheet_bounds (num_sheets : option Z) :
  20 <= Analysis.analyze_spreadsheet num_sheets <= 100.
Proof.
  unfold Analysis.analyze_spreadsheet. destruct num_sheets as [n |]; [| lia].
  destruct_ifs; lia.
Qed.

Lemma quality_scores_bounds (q : quilt) :
  (length (quality_scores q) <= 4)%nat
  /\ 20 * Z.of_nat (length (quality_scores q)) <= fold_left Z.add (quality_scores q) 0
     <= 100 * Z.of_nat (length (quality_scores q)).
Proof.
  unfold quality_scores.
  destruct (deck q) as [d |], (whitepaper q) as [w |], (financials q) as [f |],
    (demo q) as [v |]; unfold option_list;
    cbn [option_map option_rect app length fold_left];
    try pose proof (analyze_pdf_bounds d); try pose proof (analyze_pdf_bounds w);
    try pose proof (analyze_spreadsheet_bounds f);
    try pose proof (analyze_video_bounds v); lia.
Qed.

Lemma average_in_range (s n : Z) :
  1 <= n <= 4 -> 20 * n <= s <= 100 * n ->
  in_range (Flt (Float.truediv s n)) = true
  /\ Number.geb (Flt (Float.truediv s n)) (Int 20) = true.
Proof.
  intros Hn Hs.
  assert (H : forall n, In n [1; 2; 3; 4] -> forall s, 0 <= s < 401 ->
            (if (20 * n <=? s) && (s <=? 100 * n)
             then in_range (Flt (Float.truediv s n))
                  && Number.geb (Flt (Float.truediv s n)) (Int 20)
             else true) = true).
  { intros n' [<- | [<- | [<- | [<- | []]]]]; apply (forallb_below _ 401);
      vm_compute; reflexivity. }
  specialize (H n ltac:(simpl; lia) s ltac:(lia)).
  replace ((20 * n <=? s) && (s <=? 100 * n)) with true in H
    by (symmetry; apply andb_true_intro; split; apply Z.leb_le; lia).
  apply andb_prop in H. exact H.
Qed.

Lemma analyze_documents_score (q : quilt) :
  exists score,
    dict_score (_analyze_documents q) = Some score
    /\ in_range score = true
    /\ match quality_scores q with
       | [] => score = Int 0
       | _ => Number.geb score (Int 20) = true
       end.
Proof.
  unfold _analyze_documents. cbv zeta. cbn [dict_score].
  destruct (quality_scores_bounds q) as [Hlen Hsum].
  destruct (quality_scores q) as [| x l] eqn:E.
  - exists (Int 0). repeat split; vm_compute; reflexivity.
  - eexists. split; [reflexivity |].
    destruct (average_in_range (fold_left Z.add (x :: l) 0) (Z.of_nat (length (x :: l)))
                ltac:(cbn [length] in *; lia) Hsum) as [H1 H2].
    split; assumption.
Qed.

Lemma analyze_repository_score (now : datetime) (repo : option Analysis.repository) :
  exists k,
    dict_score (Analysis.analyze_repository now repo) = Some (Int k)
    /\ 30 <= k <= 100
    /\ (repo = None -> k = 50).
Proof.
  unfold Analysis.analyze_repository. destruct repo as [r |].
  - cbv zeta. cbn [dict_score]. eexists. split; [reflexivity |].
    split; [| discriminate].
    destruct_ifs; lia.
  - exists 50. cbn [dict_score]. repeat split; lia.
Qed.

Lemma analyze_wallet_score (address : option Analysis.wallet) :
  exists k,
    dict_score (Analysis.analyze_wallet address) = Some (Int k)
    /\ 10 <= k <= 100
    /\ (address = None -> k = 50)
    /\ (k < 20 <-> exists w, address = Some w /\ Analysis.tx_count w <= 0
                             /\ Number.geb (Flt (Analysis.balance w)) (Int 1) = false).
Proof.
  unfold Analysis.analyze_wallet. destruct address as [w |].
  - cbv zeta. cbn [dict_score]. eexists. split; [reflexivity |].
    split; [| split; [discriminate |]].
    + destruct_ifs; lia.
    + split.
      * intros H. exists w. split; [reflexivity |].
        destruct (Number.geb (Flt (Analysis.balance w)) (Int 1)) eqn:E1.
        -- exfalso. revert H. destruct_ifs; lia.
        -- split; [| reflexivity]. revert H. destruct_ifs; lia.
      * intros (w' & [= <-] & Htx & Hb). rewrite Hb.
        assert (Hmono : forall n, In n [10; 100; 1000] ->
                  Number.geb (Flt (Analysis.balance w)) (Int n) = false).
        { intros n Hn. destruct (Number.geb _ (Int n)) eqn:E; [| reflexivity].
          rewrite <- Hb. symmetry. unfold Number.geb, Number.leb in *.
          eapply float_leb_trans; [| exact E].
          destruct Hn as [<- | [<- | [<- | []]]]; vm_compute; reflexivity. }
        rewrite !Hmono by (simpl; tauto).
        destruct_ifs; lia.
  - exists 50. cbn [dict_score]. repeat split; try lia.
    + intros (w & [=] & _).
Qed.

(** ** The trust score of scores in their range *)

Lemma in_range_bounds (v : number) :
  in_range v = true -> (0 <= Float.to_Q (Number.to_float v) <= 100)%Q.
Proof.
  intros Hv. pose proof (small_is_finite _ _ (in_range_small v Hv)) as Hf.
  unfold in_range, Number.leb in Hv. apply andb_prop in Hv as [H0 H1].
  destruct v as [n | x].
  - assert (Hn : 0 <= n < 101).
    { destruct n as [| p | p]; [lia | | discriminate H0].
      cbn [Number.as_exact] in H1.
      apply (float_leb_spec (S754_finite false p 0) (S754_finite false 100 0)
               eq_refl eq_refl) in H1.
      unfold Float.to_Q in H1. cbn [cond_Zopp] in H1. rewrite <- Zle_Qle in H1. lia. }
    pose proof (forallb_below
      (fun n => Qeq_bool (Float.to_Q (Float.of_int n)) (inject_Z n)) 101
      ltac:(vm_compute; reflexivity) n Hn) as E.
    apply Qeq_bool_iff in E. cbn [Number.to_float]. rewrite E.
    change 0%Q with (inject_Z 0). change 100%Q with (inject_Z 100).
    rewrite <- !Zle_Qle. lia.
  - cbn [Number.to_float Number.as_exact] in *.
    apply (float_leb_spec (S754_zero false) x eq_refl Hf) in H0.
    apply (float_leb_spec x (S754_finite false 100 0) Hf eq_refl) in H1.
    split; assumption.
Qed.

Lemma weighted_bounds_100 (v : number) (k : Z) :
  in_range v = true -> In k [10; 20; 30; 40] ->
  (- 2 ^ (-43) <= Float.to_Q (weighted v (Float.decimal k 2))
   <= Float.to_Q (Number.to_float v) * Float.to_Q (Float.decimal k 2) + 2 ^ (-43))%Q
  /\ (0 <= Float.to_Q (Number.to_float v) * Float.to_Q (Float.decimal k 2)
      <= 100 * Float.to_Q (Float.decimal k 2))%Q.
Proof.
  intros Hv Hk. unfold weighted.
  pose proof (mul_error 9 (-1) _ _ (in_range_small v Hv) (weight_small k Hk) ltac:(lia))
    as E.
  change (9 + -1 - 51) with (-43) in E. apply Qabs_Qle_condition in E.
  destruct (in_range_bounds v Hv) as [H0 H1].
  assert (Hw0 : (0 <= Float.to_Q (Float.decimal k 2))%Q)
    by (destruct Hk as [<- | [<- | [<- | [<- | []]]]]; vm_compute; discriminate).
  assert (Hp0 : (0 <= Float.to_Q (Number.to_float v) * Float.to_Q (Float.decimal k 2))%Q)
    by (apply Qmult_le_0_compat; assumption).
  assert (Hp1 : (Float.to_Q (Number.to_float v) * Float.to_Q (Float.decimal k 2)
                 <= 100 * Float.to_Q (Float.decimal k 2))%Q)
    by (apply Qmult_le_compat_r; assumption).
  repeat split; lra.
Qed.

Lemma weighted_score_bounds (a b c : number) :
  in_range a = true -> in_range b = true -> in_range c = true ->
  Float.is_finite (weighted_score a b c) = true
  /\ (- (1 # 1000) <= Float.to_Q (weighted_score a b c) <= 100 + (1 # 1000))%Q
  /\ (b = Int 0 -> c = Int 0 ->
      (Float.to_Q (weighted_score a b c) <= 40 + (1 # 1000))%Q).
Proof.
  intros Ha Hb Hc.
  destruct (weighted_score_error a b c Ha Hb Hc) as (_ & _ & _ & Fo & E).
  cbv zeta in E. apply Qabs_Qle_condition in E.
  destruct (weighted_bounds_100 a 40 Ha ltac:(simpl; tauto)) as [A1 A2].
  destruct (weighted_bounds_100 b 40 Hb ltac:(simpl; tauto)) as [B1 B2].
  destruct (weighted_bounds_100 c 20 Hc ltac:(simpl; tauto)) as [C1 C2].
  fold weights_off_chain in A1, A2. fold weights_on_chain in B1, B2.
  fold weights_ai_analysis in C1, C2.
  assert (W : (100 * Float.to_Q weights_off_chain + 100 * Float.to_Q weights_on_chain
               + 100 * Float.to_Q weights_ai_analysis + 3 * 2 ^ (-43) + 2 ^ (-38)
               <= 100 + (1 # 1000))%Q) by (vm_compute; discriminate).
  assert (W40 : (100 * Float.to_Q weights_off_chain + 3 * 2 ^ (-43) + 2 ^ (-38)
                 <= 40 + (1 # 1000))%Q) by (vm_compute; discriminate).
  assert (P : (3 * 2 ^ (-43) + 2 ^ (-38) <= 1 # 1000)%Q) by (vm_compute; discriminate).
  split; [exact Fo |]. split; [split; lra |].
  intros -> ->.
  assert (Z1 : (Float.to_Q (Number.to_float (Int 0)) * Float.to_Q weights_on_chain == 0)%Q)
    by reflexivity.
  assert (Z2 : (Float.to_Q (Number.to_float (Int 0)) * Float.to_Q weights_ai_analysis
                == 0)%Q) by reflexivity.
  rewrite Z1 in B1. rewrite Z2 in C1. lra.
Qed.

Lemma geb_threshold (x : float) (n : Z) :
  Float.is_finite x = true -> In n [40; 50; 60; 75; 80] ->
  if Float.geb x (Float.of_int n) then 100 * n <= Float.round_units x 2
  else Float.round_units x 2 <= 100 * n.
Proof.
  intros Fx Hn. unfold Float.geb.
  pose proof (round_units_bounds x Fx) as B.
  assert (Fn : Float.is_finite (Float.of_int n) = true)
    by (destruct Hn as [<- | [<- | [<- | [<- | [<- | []]]]]]; reflexivity).
  assert (Qn : (Float.to_Q (Float.of_int n) == inject_Z n)%Q)
    by (destruct Hn as [<- | [<- | [<- | [<- | [<- | []]]]]]; reflexivity).
  pose proof (float_leb_spec (Float.of_int n) x Fn Fx) as L. rewrite Qn in L.
  destruct (Float.leb (Float.of_int n) x).
  - pose proof (proj1 L eq_refl) as L'.
    assert (H : (inject_Z (100 * n - 1) < inject_Z (Float.round_units x 2))%Q).
    { unfold Z.sub. rewrite inject_Z_plus, inject_Z_mult.
      change (inject_Z 100) with 100%Q. change (inject_Z (- (1))) with (-1)%Q. lra. }
    rewrite <- Zlt_Qlt in H. lia.
  - assert (L' : (Float.to_Q x < inject_Z n)%Q).
    { apply Qnot_le_lt. intros H. apply L in H. discriminate. }
    assert (H : (inject_Z (Float.round_units x 2) < inject_Z (100 * n + 1))%Q).
    { rewrite inject_Z_plus, inject_Z_mult.
      change (inject_Z 100) with 100%Q. change (inject_Z 1) with 1%Q. lra. }
    rewrite <- Zlt_Qlt in H. lia.
Qed.

(** The risk level against the hundredths of the reported score. *)
Lemma trust_score_tiers (a b c : number) :
  in_range a = true -> in_range b = true -> in_range c = true ->
  let t := calculate_final_score a b c in
  let h := Float.round_units (weighted_score a b c) 2 in
  Float.denotes (overall_score t) h 2
  /\ 0 <= h <= 10000
  /\ (b = Int 0 -> c = Int 0 -> h <= 4000)
  /\ ((risk_level t = "LOW"%string /\ 8000 <= h)
      \/ (risk_level t = "MEDIUM"%string /\ 6000 <= h <= 8000)
      \/ (risk_level t = "HIGH"%string /\ 4000 <= h <= 6000)
      \/ (risk_level t = "CRITICAL"%string /\ h <= 4000)).
Proof.
  intros Ha Hb Hc t h.
  destruct (weighted_score_bounds a b c Ha Hb Hc) as (Fo & [B0 B1] & B40).
  pose proof (round_units_bounds _ Fo) as BF. fold h in BF.
  assert (Hh : 0 <= h <= 10000).
  { assert (H : (inject_Z (-1) < inject_Z h < inject_Z 10001)%Q)
      by (change (inject_Z (-1)) with (-1)%Q; change (inject_Z 10001) with 10001%Q;
          split; lra).
    rewrite <- !Zlt_Qlt in H. lia. }
  assert (Ht : overall_score t = Float.round (weighted_score a b c) 2).
  { unfold t, calculate_final_score.
    repeat match goal with |- context [if ?t then _ else _] => destruct t end;
      reflexivity. }
  split; [rewrite Ht; apply round_denotes; [lia | exact Fo] |].
  split; [exact Hh |]. split.
  { intros Eb Ec. specialize (B40 Eb Ec).
    assert (H : (inject_Z h < inject_Z 4001)%Q)
      by (change (inject_Z 4001) with 4001%Q; lra).
    rewrite <- Zlt_Qlt in H. lia. }
  pose proof (geb_threshold _ 80 Fo ltac:(simpl; tauto)) as H80.
  pose proof (geb_threshold _ 60 Fo ltac:(simpl; tauto)) as H60.
  pose proof (geb_threshold _ 40 Fo ltac:(simpl; tauto)) as H40.
  fold h in H80, H60, H40.
  unfold t, calculate_final_score. cbv zeta.
  destruct (Float.geb (weighted_score a b c) (Float.of_int 80));
    [left; cbn [risk_level]; split; [reflexivity | lia] |].
  destruct (Float.geb (weighted_score a b c) (Float.of_int 60));
    [right; left; cbn [risk_level]; split; [reflexivity | lia] |].
  destruct (Float.geb (weighted_score a b c) (Float.of_int 40));
    [right; right; left | right; right; right]; cbn [risk_level];
    (split; [reflexivity | lia]).
Qed.

Lemma readiness_of_hundredths (f : float) (h : Z) :
  Float.denotes f h 2 -> 0 <= h <= 10000 ->
  _calculate_investment_readiness (Flt f)
  = if 7500 <=? h then "READY"%string
    else if 6000 <=? h then "NEARLY READY - MINOR IMPROVEMENTS NEEDED"%string
    else if 4000 <=? h then "NOT READY - SIGNIFICANT WORK REQUIRED"%string
    else "NOT SUITABLE FOR INVESTMENT"%string.
Proof.
  intros [-> | [-> ->]] Hh; [| vm_compute; reflexivity].
  apply String.eqb_eq.
  exact (forallb_below
    (fun h => String.eqb
                (_calculate_investment_readiness (Flt (Float.decimal h 2)))
                (if 7500 <=? h then "READY"%string
                 else if 6000 <=? h
                      then "NEARLY READY - MINOR IMPROVEMENTS NEEDED"%string
                 else if 4000 <=? h
                      then "NOT READY - SIGNIFICANT WORK REQUIRED"%string
                 else "NOT SUITABLE FOR INVESTMENT"%string))
    (Z.to_nat 10001) ltac:(vm_compute; reflexivity) h ltac:(rewrite Z2Nat.id; lia)).
Qed.

(** The report of three analyses that hold a score. *)
Lemma startup_report_exists (off_chain_analysis on_chain_analysis code_analysis
                             : analysis_dict) (a b c : number) :
  dict_score off_chain_analysis = Some a -> dict_score on_chain_analysis = Some b ->
  dict_score code_analysis = Some c ->
  let t := calculate_final_score a b c in
  exists results report,
    startup_report_input off_chain_analysis on_chain_analysis code_analysis
    = Some results
    /\ generate_risk_report results = Some report
    /\ results
       = mk_report_input
           (Some off_chain_analysis) (Some on_chain_analysis) (Some code_analysis)
           (Some (mk_trust_dict (Some (Flt (overall_score t))) (Some (risk_level t))
                                (Some (confidence t))))
           (Some (mk_component_dict (Some a) (Some b) (Some c)))
    /\ input_off_chain_analysis results = Some off_chain_analysis
    /\ input_on_chain_analysis results = Some on_chain_analysis
    /\ input_code_analysis results = Some code_analysis
    /\ input_component_scores results
       = Some (mk_component_dict (Some a) (Some b) (Some c))
    /\ overall_risk_level report = risk_level t
    /\ investment_readiness report
       = _calculate_investment_readiness (Flt (overall_score t))
    /\ fraud_likelihood report
       = (if Number.ltb a (Int 30) then 30 else 0)
         + (if Number.ltb b (Int 20) then 40 else 0)
         + (if Number.ltb c (Int 20) then 30 else 0).
Proof.
  intros Ha Hb Hc t. unfold startup_report_input. rewrite Ha, Hb, Hc. fold t.
  eexists.
  assert (Hex : exists report,
            generate_risk_report
              {| input_off_chain_analysis := Some off_chain_analysis;
                 input_on_chain_analysis := Some on_chain_analysis;
                 input_code_analysis := Some code_analysis;
                 input_trust_score :=
                   Some {| dict_overall_score := Some (Flt (overall_score t));
                           dict_risk_level := Some (risk_level t);
                           dict_confidence := Some (confidence t) |};
                 input_component_scores :=
                   Some {| component_off_chain := Some a;
                           component_on_chain := Some b;
                           component_ai_analysis := Some c |} |} = Some report).
  { unfold generate_risk_report.
    cbn [input_trust_score input_component_scores component_off_chain
         component_on_chain component_ai_analysis].
    destruct (component_factors a b c) as [rfs pfs]. cbv zeta.
    cbn [dict_risk_level dict_overall_score].
    unfold _generate_recommendations. cbn [dict_overall_score dict_confidence].
    cbv zeta. eexists. reflexivity. }
  destruct Hex as [report Hr]. exists report.
  split; [reflexivity |]. split; [exact Hr |]. split; [reflexivity |].
  pose proof (generate_risk_report_fields _ _ Hr)
    as (t' & a' & b' & c' & lvl & o & cf & Ht' & Hcs & Hlvl & Ho & Hcf & _ & _ & Hfl
        & _ & _ & Hrl & Hir & _).
  cbn [input_trust_score input_component_scores] in Ht', Hcs.
  injection Ht' as <-. cbn [dict_risk_level dict_overall_score] in Hlvl, Ho.
  injection Hlvl as <-. injection Ho as <-.
  cbn [input_off_chain_analysis input_on_chain_analysis input_code_analysis
       input_component_scores].
  repeat (split; [reflexivity |]). split; [exact Hrl |]. split; [exact Hir |].
  rewrite Hfl, calculate_fraud_likelihood_sum. unfold fraud_input.
  cbn [input_off_chain_analysis input_on_chain_analysis input_code_analysis
       TrustScorer.off_chain_analysis TrustScorer.on_chain_analysis
       TrustScorer.code_analysis option_map].
  unfold get_score. cbn [mbind option_bind analysis_score].
  rewrite Ha, Hb, Hc. cbn [default from_option id].
  destruct (Number.ltb a (Int 30)), (Number.ltb b (Int 20)), (Number.ltb c (Int 20));
    reflexivity.
Qed.

(** ** Comparisons of [int]s *)

Lemma int_compare (k n : Z) :
  Float.compare (Number.as_exact (Int k)) (Number.as_exact (Int n)) = Some (k ?= n).
Proof.
  assert (F : forall z, Float.is_finite (Number.as_exact (Int z)) = true)
    by (intros [| p | p]; reflexivity).
  assert (Q : forall z, Float.to_Q (Number.as_exact (Int z)) = inject_Z z)
    by (intros [| p | p]; reflexivity).
  rewrite float_compare_finite by apply F. rewrite !Q.
  unfold Qcompare, inject_Z. cbn [Qnum Qden]. rewrite !Z.mul_1_r. reflexivity.
Qed.

Lemma int_ltb (k n : Z) : Number.ltb (Int k) (Int n) = (k <? n).
Proof.
  unfold Number.ltb, Float.ltb. rewrite int_compare. unfold Z.ltb.
  destruct (k ?= n); reflexivity.
Qed.

Lemma int_leb (k n : Z) : Number.leb (Int k) (Int n) = (k <=? n).
Proof.
  unfold Number.leb, Float.leb. rewrite int_compare. unfold Z.leb.
  destruct (k ?= n); reflexivity.
Qed.

Lemma in_range_int (k : Z) : 0 <= k <= 100 -> in_range (Int k) = true.
Proof.
  intros Hk. unfold in_range. rewrite !int_leb.
  apply andb_true_intro. split; apply Z.leb_le; lia.
Qed.

(** ** The report of [analyze_startup] *)

(** Everything [analyze_startup] puts into its report. *)
Lemma analyze_startup_report_fields (w : world) (now : datetime) (quilt_id : string)
  (wallet_address github_repo : option string) :
  let off_chain_analysis := _analyze_documents (world_quilt w quilt_id) in
  let on_chain_analysis :=
    if given wallet_address then _analyze_onchain w wallet_address else score_0 in
  let code_analysis :=
    if given github_repo then _analyze_code w now github_repo else score_0 in
  exists a kb kc results report,
    let t := calculate_final_score a (Int kb) (Int kc) in
    dict_score off_chain_analysis = Some a
    /\ in_range a = true
    /\ analyze_startup_report w now quilt_id wallet_address github_repo
       = Some (results, report)
    /\ generate_risk_report results = Some report
    /\ results
       = mk_report_input
           (Some off_chain_analysis) (Some on_chain_analysis) (Some code_analysis)
           (Some (mk_trust_dict (Some (Flt (overall_score t))) (Some (risk_level t))
                                (Some (confidence t))))
           (Some (mk_component_dict (Some a) (Some (Int kb)) (Some (Int kc))))
    /\ (if given wallet_address
        then 10 <= kb <= 100
             /\ (kb < 20
                 <-> exists wl,
                       world_wallet w (default EmptyString wallet_address) = Some wl
                       /\ Analysis.tx_count wl <= 0
                       /\ Number.geb (Flt (Analysis.balance wl)) (Int 1) = false)
        else on_chain_analysis = score_0 /\ kb = 0)
    /\ (if given github_repo then 30 <= kc <= 100
        else code_analysis = score_0 /\ kc = 0)
    /\ overall_risk_level report = risk_level t
    /\ investment_readiness report
       = _calculate_investment_readiness (Flt (overall_score t))
    /\ fraud_likelihood report
       = (if Number.ltb a (Int 30) then 30 else 0)
         + (if kb <? 20 then 40 else 0) + (if kc <? 20 then 30 else 0).
Proof.
  intros off_chain_analysis on_chain_analysis code_analysis.
  destruct (analyze_documents_score (world_quilt w quilt_id)) as (a & Ha & Ra & _).
  fold off_chain_analysis in Ha.
  assert (Hb : exists kb,
            dict_score on_chain_analysis = Some (Int kb)
            /\ (if given wallet_address
                then 10 <= kb <= 100
                     /\ (kb < 20
                         <-> exists wl,
                               world_wallet w (default EmptyString wallet_address)
                               = Some wl
                               /\ Analysis.tx_count wl <= 0
                               /\ Number.geb (Flt (Analysis.balance wl)) (Int 1) = false)
                else on_chain_analysis = score_0 /\ kb = 0)).
  { unfold on_chain_analysis, _analyze_onchain. destruct (given wallet_address).
    - cbn [negb].
      destruct (analyze_wallet_score
                  (world_wallet w (default EmptyString wallet_address)))
        as (k & Hk & Hr & _ & Hlt).
      exists k. split; [exact Hk |]. split; [exact Hr | exact Hlt].
    - exists 0. repeat split; reflexivity. }
  assert (Hc : exists kc,
            dict_score code_analysis = Some (Int kc)
            /\ (if given github_repo then 30 <= kc <= 100
                else code_analysis = score_0 /\ kc = 0)).
  { unfold code_analysis, _analyze_code. destruct (given github_repo).
    - cbn [negb].
      destruct (analyze_repository_score now
                  (world_repository w (default EmptyString github_repo)))
        as (k & Hk & Hr & _).
      exists k. split; [exact Hk | exact Hr].
    - exists 0. repeat split; reflexivity. }
  destruct Hb as (kb & Hb & Pb). destruct Hc as (kc & Hc & Pc).
  destruct (startup_report_exists _ _ _ a (Int kb) (Int kc) Ha Hb Hc)
    as (results & report & Hres & Hrep & Eres & _ & _ & _ & _ & Hrl & Hir & Hfl).
  exists a, kb, kc, results, report. cbv zeta.
  split; [exact Ha |]. split; [exact Ra |]. split.
  { unfold analyze_startup_report, analyze_startup_analyses. cbv zeta.
    fold off_chain_analysis. fold on_chain_analysis. fold code_analysis.
    rewrite Hres, Hrep. reflexivity. }
  split; [exact Hrep |]. split; [exact Eres |]. split; [exact Pb |].
  split; [exact Pc |]. split; [exact Hrl |]. split; [exact Hir |].
  rewrite Hfl, !int_ltb. reflexivity.
Qed.

(** The critical fraud factor is in the report exactly when the fraud
    likelihood is above 70. *)
Lemma fraud_risk_reported (results : report_input) (report : risk_report) :
  generate_risk_report results = Some report ->
  In fraud_risk (risk_factors report) <-> (fraud_likelihood report >? 70) = true.
Proof.
  intros H. apply generate_risk_report_fields in H.
  destruct H as (t & a & b & c & lvl & o & cf & _ & _ & _ & _ & _ & Hrf & _ & Hfl & _).
  rewrite Hrf, Hfl. unfold append_if at 1.
  destruct (_calculate_fraud_likelihood (fraud_input results) >? 70).
  - split; [reflexivity |]. intros _. apply in_or_app. right. left. reflexivity.
  - split; [| discriminate]. intros Hin. exfalso.
    pose proof (component_factors_cases a b c) as Hc. cbv zeta in Hc.
    destruct Hc as (_ & _ & _ & _ & _ & _ & Hrisk & _).
    assert (Hin' : In fraud_risk (fst (component_factors a b c))
                   \/ fraud_risk = consistency_risk).
    { unfold append_if in Hin. destruct (Number.gtb _ (Int 40)); [| left; exact Hin].
      apply in_app_or in Hin. destruct Hin as [| [<- | []]]; [left | right]; auto. }
    destruct Hin' as [Hin' | Heq]; [| discriminate Heq].
    destruct (Hrisk _ Hin') as [Heq | [Heq | Heq]]; discriminate Heq.
Qed.

(** ** Theorems *)

(** The documents score is the [int] 0 when no document of the quilt
    could be downloaded and a float between 20 and 100 otherwise:
    every document that was downloaded counts with a quality score
    between 20 and 100 (50 when its analysis fails). *)
Theorem documents_score_is_0_or_between_20_and_100 (q : quilt) :
  let nothing :=
    deck q = None /\ whitepaper q = None /\ financials q = None /\ demo q = None in
  Forall (fun s => 20 <= s <= 100) (quality_scores q)
  /\ exists score,
       dict_score (_analyze_documents q) = Some score
       /\ in_range score = true
       /\ (nothing -> score = Int 0)
       /\ (~ nothing -> exists x, score = Flt x
                                  /\ Number.geb score (Int 20) = true).
Proof.
  intros nothing. split.
  { unfold quality_scores, option_list.
    destruct (deck q) as [d |], (whitepaper q) as [w |], (financials q) as [f |],
      (demo q) as [v |]; cbn [option_map option_rect app];
      repeat (apply List.Forall_cons;
              [first [apply analyze_pdf_bounds | apply analyze_spreadsheet_bounds
                     | apply analyze_video_bounds] |]);
      apply List.Forall_nil. }
  destruct (analyze_documents_score q) as (score & Hs & Hr & Hm).
  exists score. split; [exact Hs |]. split; [exact Hr |].
  assert (Hn : quality_scores q = [] <-> nothing).
  { unfold nothing, quality_scores, option_list.
    destruct (deck q) as [d |], (whitepaper q) as [w |], (financials q) as [f |],
      (demo q) as [v |]; cbn [option_map option_rect app];
      split; try discriminate; try tauto; intros (H1 & H2 & H3 & H4);
      discriminate. }
  unfold _analyze_documents in Hs. cbv zeta in Hs. cbn [dict_score] in Hs.
  destruct (quality_scores q) as [| x l].
  - split; [intros _; exact Hm |]. intros N. exfalso. apply N, Hn. reflexivity.
  - split; [intros N; apply Hn in N; discriminate N |]. intros _.
    injection Hs as <-. eexists. split; [reflexivity | exact Hm].
Qed.

(** A repository that is analyzed scores between 30 and 100, and 50
    when the analysis fails: never below the 20 under which the fraud
    heuristic counts the code as a warning sign. *)
Theorem repository_score_is_between_30_and_100 (now : datetime)
  (repo : option Analysis.repository) :
  exists k,
    dict_score (Analysis.analyze_repository now repo) = Some (Int k)
    /\ 30 <= k <= 100
    /\ (repo = None -> k = 50)
    /\ Number.ltb (Int k) (Int 20) = false.
Proof.
  destruct (analyze_repository_score now repo) as (k & Hk & Hr & Hn).
  exists k. split; [exact Hk |]. split; [exact Hr |]. split; [exact Hn |].
  rewrite int_ltb. apply Z.ltb_ge. lia.
Qed.

(** A wallet that is analyzed scores between 10 and 100, and 50 when
    the analysis fails; the score is below 20 exactly for a wallet
    without transactions whose balance is not at least 1 SUI. *)
Theorem wallet_score_is_below_20_only_when_unused (address : option Analysis.wallet) :
  exists k,
    dict_score (Analysis.analyze_wallet address) = Some (Int k)
    /\ 10 <= k <= 100
    /\ (address = None -> k = 50)
    /\ (k < 20 <-> exists w, address = Some w /\ Analysis.tx_count w <= 0
                             /\ Number.geb (Flt (Analysis.balance w)) (Int 1) = false).
Proof. apply analyze_wallet_score. Qed.

(** [analyze_startup] always comes to a report: the three analyses
    hold a score, so no key is missing.  The component scores lie
    between 0 and 100 (on-chain: 0 without a wallet address, at least
    10 with one; code: 0 without a repository, at least 30 with one),
    and the overall score is a float of whole hundredths between 0 and
    100. *)
Theorem analyze_startup_always_reports (w : world) (now : datetime) (quilt_id : string)
  (wallet_address github_repo : option string) :
  exists results report off_chain on_chain ai_analysis overall_score level confidence h,
    analyze_startup_report w now quilt_id wallet_address github_repo
    = Some (results, report)
    /\ input_component_scores results
       = Some (mk_component_dict (Some off_chain) (Some (Int on_chain))
                                 (Some (Int ai_analysis)))
    /\ in_range off_chain = true
    /\ (if given wallet_address then 10 <= on_chain <= 100 else on_chain = 0)
    /\ (if given github_repo then 30 <= ai_analysis <= 100 else ai_analysis = 0)
    /\ input_trust_score results
       = Some (mk_trust_dict (Some (Flt overall_score)) (Some level) (Some confidence))
    /\ Float.denotes overall_score h 2
    /\ 0 <= h <= 10000.
Proof.
  destruct (analyze_startup_report_fields w now quilt_id wallet_address github_repo)
    as (a & kb & kc & results & report & Ha & Ra & Hrep & _ & Eres & Pb & Pc & _).
  assert (Rb : in_range (Int kb) = true)
    by (apply in_range_int; destruct (given wallet_address); lia).
  assert (Rc : in_range (Int kc) = true)
    by (apply in_range_int; destruct (given github_repo); lia).
  destruct (trust_score_tiers a (Int kb) (Int kc) Ra Rb Rc) as (Hd & Hh & _).
  exists results, report, a, kb, kc. do 3 eexists.
  exists (Float.round_units (weighted_score a (Int kb) (Int kc)) 2).
  split; [exact Hrep |]. rewrite Eres. cbn [input_component_scores input_trust_score].
  split; [reflexivity |]. split; [exact Ra |].
  split; [destruct (given wallet_address); tauto |].
  split; [destruct (given github_repo); tauto |].
  split; [reflexivity |]. split; [exact Hd | exact Hh].
Qed.

(** In [analyze_startup] the fraud likelihood reaches 100, and with it
    the critical fraud factor enters the report, exactly when the
    documents score is below 30, no repository was given, and no
    wallet was given or the wallet has no transactions and a balance
    that is not at least 1 SUI: a startup that names a repository is
    never flagged, whatever the repository holds. *)
Theorem fraud_alert_needs_a_missing_repository (w : world) (now : datetime)
  (quilt_id : string) (wallet_address github_repo : option string) :
  exists results report score,
    analyze_startup_report w now quilt_id wallet_address github_repo
    = Some (results, report)
    /\ dict_score (_analyze_documents (world_quilt w quilt_id)) = Some score
    /\ (In fraud_risk (risk_factors report) <-> fraud_likelihood report = 100)
    /\ (fraud_likelihood report = 100
        <-> Number.ltb score (Int 30) = true
            /\ given github_repo = false
            /\ (given wallet_address = false
                \/ exists wl,
                     world_wallet w (default EmptyString wallet_address) = Some wl
                     /\ Analysis.tx_count wl <= 0
                     /\ Number.geb (Flt (Analysis.balance wl)) (Int 1) = false)).
Proof.
  destruct (analyze_startup_report_fields w now quilt_id wallet_address github_repo)
    as (a & kb & kc & results & report & Ha & _ & Hrep & Hgen & _ & Pb & Pc & _ & _
        & Hfl).
  exists results, report, a. split; [exact Hrep |]. split; [exact Ha |].
  pose proof (fraud_risk_reported _ _ Hgen) as Hrisk.
  assert (Hgt : (fraud_likelihood report >? 70) = true <-> fraud_likelihood report = 100).
  { rewrite Hfl.
    destruct (Number.ltb a (Int 30)), (kb <? 20), (kc <? 20); cbn;
      split; intros H; try reflexivity; try discriminate H. }
  split; [rewrite Hrisk; exact Hgt |].
  rewrite Hfl.
  destruct (given github_repo).
  - replace (kc <? 20) with false by (symmetry; apply Z.ltb_ge; lia).
    split; [| intros (_ & H & _); discriminate H].
    destruct (Number.ltb a (Int 30)), (kb <? 20); cbn; intros H; discriminate H.
  - destruct Pc as [_ ->]. change (0 <? 20) with true. cbv iota.
    destruct (given wallet_address).
    + destruct Pb as [_ Pb]. destruct (Z.ltb_spec kb 20) as [Hlt | Hge].
      * split.
        -- intros H. split; [| split; [reflexivity | right; apply Pb, Hlt]].
           destruct (Number.ltb a (Int 30)); [reflexivity | discriminate H].
        -- intros (-> & _). reflexivity.
      * split.
        -- destruct (Number.ltb a (Int 30)); cbn; intros H; discriminate H.
        -- intros (_ & _ & [H | H]); [discriminate H |]. apply Pb in H. lia.
    + destruct Pb as [_ ->]. change (0 <? 20) with true. cbv iota.
      split.
      * intros H. split; [| split; [reflexivity | left; reflexivity]].
        destruct (Number.ltb a (Int 30)); [reflexivity | discriminate H].
      * intros (-> & _). reflexivity.
Qed.

(** A startup analyzed without a wallet address and without a
    repository has the on-chain and the code score 0, so its overall
    score is at most 40: it is rated HIGH or CRITICAL and never ready
    for investment, its fraud likelihood is at least 70, its milestone
    credibility is 50, and the report holds the on-chain and the code
    risk factor. *)
Theorem startup_without_wallet_and_repository (w : world) (now : datetime)
  (quilt_id : string) (wallet_address github_repo : option string) :
  given wallet_address = false -> given github_repo = false ->
  exists results report,
    analyze_startup_report w now quilt_id wallet_address github_repo
    = Some (results, report)
    /\ (overall_risk_level report = "HIGH"%string
        \/ overall_risk_level report = "CRITICAL"%string)
    /\ (investment_readiness report = "NOT READY - SIGNIFICANT WORK REQUIRED"%string
        \/ investment_readiness report = "NOT SUITABLE FOR INVESTMENT"%string)
    /\ 70 <= fraud_likelihood report <= 100
    /\ milestone_credibility report = 50
    /\ In on_chain_risk (risk_factors report)
    /\ In code_quality_risk (risk_factors report).
Proof.
  intros Hw Hg.
  destruct (analyze_startup_report_fields w now quilt_id wallet_address github_repo)
    as (a & kb & kc & results & report & Ha & Ra & Hrep & Hgen & Eres & Pb & Pc & Hrl
        & Hir & Hfl).
  rewrite Hw in Pb, Eres. rewrite Hg in Pc, Eres.
  destruct Pb as [_ ->]. destruct Pc as [_ ->].
  destruct (trust_score_tiers a (Int 0) (Int 0) Ra eq_refl eq_refl)
    as (Hd & Hh & H40 & Htier).
  specialize (H40 eq_refl eq_refl).
  pose proof (readiness_of_hundredths _ _ Hd Hh) as Hready.
  exists results, report. split; [exact Hrep |]. split.
  { rewrite Hrl. destruct Htier as [[_ H] | [[_ H] | [[H _] | [H _]]]]; try lia; tauto. }
  split.
  { rewrite Hir, Hready.
    replace (7500 <=? _) with false by (symmetry; apply Z.leb_gt; lia).
    replace (6000 <=? _) with false by (symmetry; apply Z.leb_gt; lia).
    destruct (4000 <=? _); tauto. }
  split.
  { rewrite Hfl. change (0 <? 20) with true. cbv iota.
    destruct (Number.ltb a (Int 30)); lia. }
  pose proof (generate_risk_report_fields _ _ Hgen)
    as (t' & a' & b' & c' & lvl & o & cf & _ & Hcs & _ & _ & _ & Hrf & _ & _ & Hms & _).
  rewrite Eres in Hcs. cbn [input_component_scores] in Hcs.
  injection Hcs as <- <- <-.
  split.
  { rewrite Hms, Eres. unfold _assess_milestone_credibility. cbv zeta.
    cbn [input_on_chain_analysis input_code_analysis]. reflexivity. }
  pose proof (component_factors_cases a (Int 0) (Int 0)) as Hc. cbv zeta in Hc.
  destruct Hc as (_ & Hc2 & Hc3 & _).
  rewrite Hrf. split.
  - apply risk_factors_component; [discriminate | discriminate |].
    apply Hc2. reflexivity.
  - apply risk_factors_component; [discriminate | discriminate |].
    apply Hc3. reflexivity.
Qed.

Lemma startup_without_wallet_and_repository_witness :
  exists results report,
    analyze_startup_report
      (mk_world (fun _ => mk_quilt (Some None) None None None)
                (fun _ => None) (fun _ => None))
      (Datetime.mk_datetime 2025 1 15 10 30 0 0) "quilt-7f3a" None (Some EmptyString)
    = Some (results, report)
    /\ (overall_risk_level report = "HIGH"%string
        \/ overall_risk_level report = "CRITICAL"%string)
    /\ (investment_readiness report = "NOT READY - SIGNIFICANT WORK REQUIRED"%string
        \/ investment_readiness report = "NOT SUITABLE FOR INVESTMENT"%string)
    /\ 70 <= fraud_likelihood report <= 100
    /\ milestone_credibility report = 50
    /\ In on_chain_risk (risk_factors report)
    /\ In code_quality_risk (risk_factors report).
Proof.
  apply (startup_without_wallet_and_repository
           (mk_world (fun _ => mk_quilt (Some None) None None None)
                     (fun _ => None) (fun _ => None))
           (Datetime.mk_datetime 2025 1 15 10 30 0 0) "quilt-7f3a" None
           (Some EmptyString)); reflexivity.
Defined.

(** The risk level is decided on the overall score before it is
    rounded and the investment readiness on the rounded score, with
    other thresholds: for scores between 0 and 100, LOW comes with
    READY, MEDIUM with READY or NEARLY READY, HIGH with NOT READY or, at
    a score that rounds up to 60.0, NEARLY READY, and CRITICAL with NOT
    SUITABLE or, at a score that rounds up to 40.0, NOT READY; three
    scores of 59.999 are rated HIGH and NEARLY READY. *)
Theorem risk_level_and_readiness_agree_up_to_rounding :
  (forall (off_chain_analysis on_chain_analysis code_analysis : analysis_dict)
          (a b c : number),
     dict_score off_chain_analysis = Some a -> dict_score on_chain_analysis = Some b ->
     dict_score code_analysis = Some c ->
     in_range a = true -> in_range b = true -> in_range c = true ->
     exists results report,
       startup_report_input off_chain_analysis on_chain_analysis code_analysis
       = Some results
       /\ generate_risk_report results = Some report
       /\ ((overall_risk_level report = "LOW"%string
            /\ investment_readiness report = "READY"%string)
           \/ (overall_risk_level report = "MEDIUM"%string
               /\ (investment_readiness report = "READY"%string
                   \/ investment_readiness report
                      = "NEARLY READY - MINOR IMPROVEMENTS NEEDED"%string))
           \/ (overall_risk_level report = "HIGH"%string
               /\ (investment_readiness report
                   = "NEARLY READY - MINOR IMPROVEMENTS NEEDED"%string
                   \/ investment_readiness report
                      = "NOT READY - SIGNIFICANT WORK REQUIRED"%string))
           \/ (overall_risk_level report = "CRITICAL"%string
               /\ (investment_readiness report
                   = "NOT READY - SIGNIFICANT WORK REQUIRED"%string
                   \/ investment_readiness report
                      = "NOT SUITABLE FOR INVESTMENT"%string))))
  /\ (let analysis :=
        mk_analysis_dict (Some (Flt (Float.decimal 59999 3))) None None None in
      exists results report,
        startup_report_input analysis analysis analysis = Some results
        /\ generate_risk_report results = Some report
        /\ overall_risk_level report = "HIGH"%string
        /\ investment_readiness report
           = "NEARLY READY - MINOR IMPROVEMENTS NEEDED"%string).
Proof.
  split.
  - intros off_chain_analysis on_chain_analysis code_analysis a b c Ha Hb Hc Ra Rb Rc.
    destruct (startup_report_exists _ _ _ a b c Ha Hb Hc)
      as (results & report & Hres & Hgen & _ & _ & _ & _ & _ & Hrl & Hir & _).
    destruct (trust_score_tiers a b c Ra Rb Rc) as (Hd & Hh & _ & Htier).
    pose proof (readiness_of_hundredths _ _ Hd Hh) as Hready.
    exists results, report. split; [exact Hres |]. split; [exact Hgen |].
    rewrite Hrl, Hir, Hready.
    destruct Htier as [[-> H] | [[-> H] | [[-> H] | [-> H]]]].
    + left. split; [reflexivity |].
      replace (7500 <=? _) with true by (symmetry; apply Z.leb_le; lia). reflexivity.
    + right; left. split; [reflexivity |].
      replace (6000 <=? _) with true by (symmetry; apply Z.leb_le; lia).
      destruct (7500 <=? _); tauto.
    + right; right; left. split; [reflexivity |].
      replace (7500 <=? _) with false by (symmetry; apply Z.leb_gt; lia).
      replace (4000 <=? _) with true by (symmetry; apply Z.leb_le; lia).
      destruct (6000 <=? _); tauto.
    + right; right; right. split; [reflexivity |].
      replace (7500 <=? _) with false by (symmetry; apply Z.leb_gt; lia).
      replace (6000 <=? _) with false by (symmetry; apply Z.leb_gt; lia).
      destruct (4000 <=? _); tauto.
  - cbv zeta.
    let v := eval vm_compute in
      (startup_report_input
         (mk_analysis_dict (Some (Flt (Float.decimal 59999 3))) None None None)
         (mk_analysis_dict (Some (Flt (Float.decimal 59999 3))) None None None)
         (mk_analysis_dict (Some (Flt (Float.decimal 59999 3))) None None None)) in
    match v with Some ?r => exists r end.
    let v := eval vm_compute in
      (startup_report_input
         (mk_analysis_dict (Some (Flt (Float.decimal 59999 3))) None None None)
         (mk_analysis_dict (Some (Flt (Float.decimal 59999 3))) None None None)
         (mk_analysis_dict (Some (Flt (Float.decimal 59999 3))) None None None)
       ≫= generate_risk_report) in
    match v with Some ?r => exists r end.
    vm_compute. repeat split; reflexivity.
Qed.
